(** * logger_config.core: a shallow embedding of [setup_logger]

    The module under study is [src/logger_config/core.py]: at import it
    switches the working directory, loads [.env] and builds the module
    level dictionary [DEFAULT_CONFIG]; [setup_logger(config)] then prunes
    old logs, merges [config] over the defaults, resets the root logger
    and attaches a file sink and (optionally) a console sink.

    Python values live in a store of dictionaries addressed by location,
    so that the sharing created by [dict.copy()] is visible.  Effects are
    threaded through a state-and-exception monad over a [world] record
    that also keeps the ordered list of observable events.

    What the module takes from outside is modelled as follows.  The
    retention cleaner [clean_logs] belongs to another package and is a
    parameter: any function on the file system that may raise.  Paths are
    joined as [posixpath.join] does; the file system is a set of
    directories and a set of files keyed by path; [strftime] knows the
    numeric directives the defaults use.  The [logging] library is
    reduced to the root logger's level and handler list, the levels of
    the named loggers, and handlers as records with an identity. *)

From stdpp Require Import gmap strings list fin_maps.
From Stdlib Require Import ZArith Ascii.

Local Open Scope Z_scope.

(** ** Python values and dictionaries *)

Abbreviation loc := nat (only parsing).

(** The values of the configurations considered: [None], booleans,
    integers, strings and dictionaries.  A dictionary is an object: the
    value is a reference into the store.  Path objects and [bytes] are
    left out. *)
Inductive pyval :=
  | VNone
  | VBool (b : bool)
  | VInt (z : Z)
  | VStr (s : string)
  | VRef (l : loc).

#[global] Instance pyval_eq_dec : EqDecision pyval.
Proof. solve_decision. Defined.

(** A [dict] with string keys, in insertion order. *)
Abbreviation pydict := (list (string * pyval)) (only parsing).

Fixpoint dict_get (k : string) (d : pydict) : option pyval :=
  match d with
  | [] => None
  | (k', v) :: d' => if String.eqb k k' then Some v else dict_get k d'
  end.

Definition dict_has (k : string) (d : pydict) : bool :=
  match dict_get k d with Some _ => true | None => false end.

(** [d[k] = v]: an existing key keeps its position, a new key goes last. *)
Fixpoint dict_set (k : string) (v : pyval) (d : pydict) : pydict :=
  match d with
  | [] => [(k, v)]
  | (k', v') :: d' =>
      if String.eqb k k' then (k, v) :: d' else (k', v') :: dict_set k v d'
  end.

(** [d.update(src)], and a dictionary display [{k1: v1, ...}] (a repeated
    key keeps its first position and its last value). *)
Definition dict_update (d src : pydict) : pydict :=
  fold_left (fun acc kv => dict_set kv.1 kv.2 acc) src d.

Definition dict_display (items : pydict) : pydict := dict_update [] items.

Definition dict_keys (d : pydict) : list string := d.*1.

(** A dictionary object never holds a key twice. *)
Definition dict_wf (d : pydict) : Prop := NoDup (dict_keys d).

(** ** The [logging] levels *)

Definition DEBUG : Z := 10.
Definition INFO : Z := 20.
Definition WARNING : Z := 30.
Definition ERROR : Z := 40.
Definition CRITICAL : Z := 50.

(** [logging._nameToLevel]. *)
Definition nameToLevel : pydict :=
  [("CRITICAL", VInt 50); ("FATAL", VInt 50); ("ERROR", VInt 40);
   ("WARN", VInt 30); ("WARNING", VInt 30); ("INFO", VInt 20);
   ("DEBUG", VInt 10); ("NOTSET", VInt 0)]%string.

(** ** Exceptions *)

Inductive exn :=
  | UnboundLocalError (name : string)
  | ValueError (msg : string)
  | TypeError (what : string)
  | KeyError (key : string)
  | AttributeError (attr : string)
  | OSError (path : string)
  | SystemError (what : string)
  | SystemExit (msg : string)
  | CleanerError (msg : string).

(** ** [os.path] (POSIX flavour) *)

Definition startswith_sep (s : string) : bool :=
  match s with String "/"%char _ => true | _ => false end.

Fixpoint endswith_sep (s : string) : bool :=
  match s with
  | EmptyString => false
  | String c EmptyString => Ascii.eqb c "/"
  | String _ s' => endswith_sep s'
  end.

(** One round of the loop of [posixpath.join]. *)
Definition join_step (path b : string) : string :=
  if startswith_sep b then b
  else if (String.eqb path "" || endswith_sep path)%bool then path +:+ b
  else path +:+ "/" +:+ b.

Definition path_join (a : string) (p : list string) : string :=
  fold_left join_step p a.

Definition isabs (s : string) : bool := startswith_sep s.

(** Everything before the last separator ([None] when there is none). *)
Fixpoint dirname_opt (s : string) : option string :=
  match s with
  | EmptyString => None
  | String c s' =>
      match dirname_opt s' with
      | Some d => Some (String c d)
      | None => if Ascii.eqb c "/" then Some EmptyString else None
      end
  end.

(** The directories named on the way to [s], shortest first, [s] itself
    last: [a/b/c] gives [a], [a/b], [a/b/c]. *)
Fixpoint segments_from (pre s : string) : list string :=
  match s with
  | EmptyString =>
      if (String.eqb pre "" || endswith_sep pre)%bool then [] else [pre]
  | String c s' =>
      if Ascii.eqb c "/"
      then (if (String.eqb pre "" || endswith_sep pre)%bool then [] else [pre])
             ++ segments_from (pre +:+ "/") s'
      else segments_from (pre +:+ String c EmptyString) s'
  end.

Definition path_segments (s : string) : list string := segments_from "" s.

(** ** [os.path.normpath] and [os.path.abspath] *)

(** [str.split('/')]. *)
Fixpoint split_sep (s : string) : list string :=
  match s with
  | EmptyString => [EmptyString]
  | String c s' =>
      if Ascii.eqb c "/" then EmptyString :: split_sep s'
      else match split_sep s' with
           | h :: t => String c h :: t
           | [] => [String c EmptyString]
           end
  end.

(** ['/'.join(comps)]. *)
Fixpoint join_sep (comps : list string) : string :=
  match comps with
  | [] => ""
  | [c] => c
  | c :: rest => c +:+ "/" +:+ join_sep rest
  end.

(** The number of leading separators [posixpath.normpath] keeps: two
    when there are exactly two, one when there are more or one. *)
Definition initial_slashes (path : string) : nat :=
  match path with
  | String "/"%char (String "/"%char (String "/"%char _)) => 1%nat
  | String "/"%char (String "/"%char _) => 2%nat
  | String "/"%char _ => 1%nat
  | _ => 0%nat
  end.

(** One round of the loop of [posixpath.normpath]. *)
Definition normpath_step (slashes : nat) (new_comps : list string)
    (comp : string) : list string :=
  if (String.eqb comp "" || String.eqb comp ".")%bool then new_comps
  else if (negb (String.eqb comp "..")
           || (Nat.eqb slashes 0 && bool_decide (new_comps = []))
           || (negb (bool_decide (new_comps = []))
               && bool_decide (last new_comps = Some "..")))%bool
  then new_comps ++ [comp]
  else removelast new_comps.

Definition normpath (path : string) : string :=
  if String.eqb path "" then "."
  else
    let slashes := initial_slashes path in
    let comps := fold_left (normpath_step slashes) (split_sep path) [] in
    let joined := join_sep comps in
    let result :=
      match slashes with
      | 0%nat => joined
      | 1%nat => "/" +:+ joined
      | _ => "//" +:+ joined
      end in
    if String.eqb result "" then "." else result.

(** [os.path.abspath(path)] in a process whose working directory is
    [here]. *)
Definition abspath (here path : string) : string :=
  normpath (if isabs path then path else path_join here [path]).

(** ** [datetime.strftime] *)

Record datetime := mk_datetime {
  year : nat; month : nat; day : nat;
  hour : nat; minute : nat; second : nat
}.

Definition digit (n : nat) : ascii := ascii_of_nat (48 + n mod 10).

Definition pad2 (n : nat) : string :=
  String (digit (n / 10)) (String (digit n) EmptyString).

Definition pad4 (n : nat) : string :=
  String (digit (n / 1000)) (String (digit (n / 100)) (pad2 n)).

(** The numeric directives the module's defaults use, and [%%]. *)
Definition directive (t : datetime) (c : ascii) : option string :=
  if Ascii.eqb c "Y" then Some (pad4 (year t))
  else if Ascii.eqb c "m" then Some (pad2 (month t))
  else if Ascii.eqb c "d" then Some (pad2 (day t))
  else if Ascii.eqb c "H" then Some (pad2 (hour t))
  else if Ascii.eqb c "M" then Some (pad2 (minute t))
  else if Ascii.eqb c "S" then Some (pad2 (second t))
  else if Ascii.eqb c "%" then Some "%"%string
  else None.

(** Ordinary characters are copied; a directive outside the table above
    is left in the output as written. *)
Fixpoint strftime (t : datetime) (fmt : string) : string :=
  match fmt with
  | EmptyString => EmptyString
  | String c rest =>
      if Ascii.eqb c "%" then
        match rest with
        | String d rest' =>
            match directive t d with
            | Some s => s +:+ strftime t rest'
            | None => String c (String d (strftime t rest'))
            end
        | EmptyString => String c EmptyString
        end
      else String c (strftime t rest)
  end.

(** ** The process state *)

(** The file system as the process names it: the directories and the
    regular files that exist, keyed by path as written (no [.], [..] or
    symbolic links; permissions are not modelled). *)
Record filesystem := mk_fs {
  dirs : gset string;
  files : gset string
}.

Inductive logger_ref :=
  | RootLogger
  | NamedLogger (name : string).

Inductive stream :=
  | FileStream (path : string) (encoding : pyval)
  | ConsoleStream.

(** A [logging.Handler] object: [h_id] is its identity. *)
Record handler := mk_handler {
  h_id : nat;
  h_stream : stream;
  h_level : Z;
  h_formatter : pyval
}.

#[global] Instance stream_eq_dec : EqDecision stream.
Proof. solve_decision. Defined.

#[global] Instance handler_eq_dec : EqDecision handler.
Proof. solve_decision. Defined.

(** What an observer of the process sees, in order. *)
Inductive event :=
  | EPrint (msg : string)
  | EChdir (path : string)
  | ECleanLogs (root : pyval)
  | ESetLevel (lg : logger_ref) (level : Z)
  | EClearHandlers
  | EMakedirs (path : string)
  | EOpenAppend (path : string)
  | EAddHandler (h : handler).

Record world := mk_world {
  environ : gmap string string;      (* os.environ *)
  cwd : string;                      (* Path.cwd() *)
  fs : filesystem;
  now : datetime;                    (* what datetime.now() returns *)
  heap : gmap nat (list (string * pyval));
  next_loc : nat;
  root_level : Z;                    (* logging.root.level *)
  handlers : list handler;           (* logging.root.handlers *)
  levels : gmap string Z;            (* levels of the named loggers *)
  next_hid : nat;
  trace : list event
}.

Definition set_environ (e : gmap string string) (w : world) : world :=
  mk_world e (cwd w) (fs w) (now w) (heap w) (next_loc w) (root_level w)
    (handlers w) (levels w) (next_hid w) (trace w).

Definition set_cwd (c : string) (w : world) : world :=
  mk_world (environ w) c (fs w) (now w) (heap w) (next_loc w) (root_level w)
    (handlers w) (levels w) (next_hid w) (trace w).

Definition set_fs (f : filesystem) (w : world) : world :=
  mk_world (environ w) (cwd w) f (now w) (heap w) (next_loc w) (root_level w)
    (handlers w) (levels w) (next_hid w) (trace w).

Definition set_now (t : datetime) (w : world) : world :=
  mk_world (environ w) (cwd w) (fs w) t (heap w) (next_loc w) (root_level w)
    (handlers w) (levels w) (next_hid w) (trace w).

Definition set_heap (h : gmap nat (list (string * pyval))) (n : nat)
    (w : world) : world :=
  mk_world (environ w) (cwd w) (fs w) (now w) h n (root_level w)
    (handlers w) (levels w) (next_hid w) (trace w).

Definition set_root_level (z : Z) (w : world) : world :=
  mk_world (environ w) (cwd w) (fs w) (now w) (heap w) (next_loc w) z
    (handlers w) (levels w) (next_hid w) (trace w).

Definition set_handlers (hs : list handler) (w : world) : world :=
  mk_world (environ w) (cwd w) (fs w) (now w) (heap w) (next_loc w)
    (root_level w) hs (levels w) (next_hid w) (trace w).

Definition set_levels (ls : gmap string Z) (w : world) : world :=
  mk_world (environ w) (cwd w) (fs w) (now w) (heap w) (next_loc w)
    (root_level w) (handlers w) ls (next_hid w) (trace w).

Definition set_next_hid (n : nat) (w : world) : world :=
  mk_world (environ w) (cwd w) (fs w) (now w) (heap w) (next_loc w)
    (root_level w) (handlers w) (levels w) n (trace w).

Definition emit (e : event) (w : world) : world :=
  mk_world (environ w) (cwd w) (fs w) (now w) (heap w) (next_loc w)
    (root_level w) (handlers w) (levels w) (next_hid w) (trace w ++ [e]).

(** ** Computations: state and exceptions *)

Definition M (A : Type) : Type := world -> (exn + A) * world.

#[global] Instance M_ret : MRet M := fun A a w => (inr a, w).

#[global] Instance M_bind : MBind M := fun A B f m w =>
  match m w with
  | (inl e, w') => (inl e, w')
  | (inr a, w') => f a w'
  end.

Definition raise {A} (e : exn) : M A := fun w => (inl e, w).

Definition tell (e : event) : M unit := fun w => (inr tt, emit e w).

(** [try: body except Exception: handler]: [SystemExit] is no [Exception]. *)
Definition try_except {A} (body : M A) (handle : exn -> M A) : M A :=
  fun w =>
    match body w with
    | (inl (SystemExit msg), w') => (inl (SystemExit msg), w')
    | (inl e, w') => handle e w'
    | (inr a, w') => (inr a, w')
    end.

(** A local variable read before its assignment. *)
Definition read_local {A} (name : string) (x : option A) : M A :=
  match x with
  | Some a => mret a
  | None => raise (UnboundLocalError name)
  end.

(** *** The store *)

Definition alloc (d : pydict) : M nat := fun w =>
  (inr (next_loc w), set_heap (<[next_loc w := d]> (heap w)) (S (next_loc w)) w).

Definition load (l : nat) : M pydict := fun w =>
  match heap w !! l with
  | Some d => (inr d, w)
  | None => (inl (SystemError "dangling reference"), w)
  end.

Definition store (l : nat) (d : pydict) : M unit := fun w =>
  (inr tt, set_heap (<[l := d]> (heap w)) (next_loc w) w).

(** [d[k]] on a dictionary value, and [obj[k]] through a reference. *)
Definition getitem (d : pydict) (k : string) : M pyval :=
  match dict_get k d with
  | Some v => mret v
  | None => raise (KeyError k)
  end.

Definition subscript (l : nat) (k : string) : M pyval :=
  d ← load l; getitem d k.

(** [obj[k] = v] through a reference. *)
Definition setitem (l : nat) (k : string) (v : pyval) : M unit :=
  d ← load l; store l (dict_set k v d).

(** [bool(v)]. *)
Definition truthy (v : pyval) : M bool :=
  match v with
  | VNone => mret false
  | VBool b => mret b
  | VInt z => mret (negb (z =? 0))
  | VStr s => mret (negb (String.eqb s ""))
  | VRef l => d ← load l; mret (negb (bool_decide (d = [])))
  end.

(** Where the code needs text ([os.path.join], [os.makedirs],
    [strftime]): each of the other values above makes these raise
    [TypeError]. *)
Definition as_str (what : string) (v : pyval) : M string :=
  match v with
  | VStr s => mret s
  | _ => raise (TypeError what)
  end.

(** *** The operating system *)

Definition getcwd : M string := fun w => (inr (cwd w), w).

(** [os.getenv(name, default)]. *)
Definition getenv (name dflt : string) : M string := fun w =>
  (inr (default dflt (environ w !! name)), w).

Definition datetime_now : M datetime := fun w => (inr (now w), w).

Definition print (msg : string) : M unit := tell (EPrint msg).

(** [os.chdir(path)]: the path must name an existing directory; the
    working directory the process then reports is that directory's
    absolute path, [path] resolved against the directory it was in. *)
Definition chdir (path : string) : M unit := fun w =>
  let w' := emit (EChdir path) w in
  if bool_decide (path ∈ dirs (fs w))
  then (inr tt, set_cwd (abspath (cwd w) path) w')
  else (inl (OSError path), w').

(** [dotenv.load_dotenv()]: every binding of the [.env] file whose name
    the environment does not define is added to it (of two bindings of
    one name in the file, the later one counts). *)
Definition dotenv_merge (file : list (string * string))
    (env : gmap string string) : gmap string string :=
  fold_left (fun e kv => match env !! kv.1 with
                         | Some _ => e
                         | None => <[kv.1 := kv.2]> e
                         end) file env.

Definition load_dotenv (file : option (list (string * string))) : M unit :=
  fun w =>
    match file with
    | Some bindings => (inr tt, set_environ (dotenv_merge bindings (environ w)) w)
    | None => (inr tt, w)
    end.

(** [os.makedirs(path, exist_ok=True)]: every directory on the way is
    created unless it exists; a regular file in the way is an error. *)
Definition makedirs_fs (path : string) (f : filesystem) : option filesystem :=
  if String.eqb path "" then None
  else if existsb (fun q => bool_decide (q ∈ files f)) (path_segments path)
  then None
  else Some (mk_fs (dirs f ∪ list_to_set (path_segments path)) (files f)).

Definition makedirs (path : string) : M unit := fun w =>
  let w' := emit (EMakedirs path) w in
  match makedirs_fs path (fs w) with
  | Some f' => (inr tt, set_fs f' w')
  | None => (inl (OSError path), w')
  end.

(** The directory a file lives in: [None] for the working directory and
    for the root, which always exist. *)
Definition parent_dir (path : string) : option string :=
  match dirname_opt path with
  | None => None
  | Some d => last (path_segments d)
  end.

(** [open(path, 'a')]: the parent must exist and [path] must not be a
    directory; the file is created when it is not there. *)
Definition open_append_fs (path : string) (f : filesystem) : option filesystem :=
  if (String.eqb path "" || endswith_sep path
      || bool_decide (path ∈ dirs f))%bool then None
  else match parent_dir path with
       | Some d =>
           if bool_decide (d ∈ dirs f)
           then Some (mk_fs (dirs f) (files f ∪ {[path]}))
           else None
       | None => Some (mk_fs (dirs f) (files f ∪ {[path]}))
       end.

Definition open_append (path : string) : M unit := fun w =>
  let w' := emit (EOpenAppend path) w in
  match open_append_fs path (fs w) with
  | Some f' => (inr tt, set_fs f' w')
  | None => (inl (OSError path), w')
  end.

(** *** The [logging] library *)

(** [logging._checkLevel]; [bool] is a subclass of [int]. *)
Definition checkLevel (v : pyval) : M Z :=
  match v with
  | VInt z => mret z
  | VBool b => mret (Z.b2z b)
  | VStr s =>
      match dict_get s nameToLevel with
      | Some (VInt z) => mret z
      | _ => raise (ValueError ("Unknown level: " +:+ s))
      end
  | _ => raise (TypeError "Level not an integer or a valid string")
  end.

(** [logging.getLogger(name)]: the empty name and the root's own name
    give the root logger. *)
Definition getLogger (name : string) : logger_ref :=
  if (String.eqb name "" || String.eqb name "root")%bool then RootLogger
  else NamedLogger name.

(** [Logger.setLevel(level)]. *)
Definition assign_level (lg : logger_ref) (z : Z) : M unit := fun w =>
  let w' := emit (ESetLevel lg z) w in
  match lg with
  | RootLogger => (inr tt, set_root_level z w')
  | NamedLogger name => (inr tt, set_levels (<[name := z]> (levels w')) w')
  end.

Definition setLevel (lg : logger_ref) (level : pyval) : M unit :=
  z ← checkLevel level; assign_level lg z.

(** [logging.getLogger().handlers.clear()]. *)
Definition clear_handlers : M unit := fun w =>
  (inr tt, set_handlers [] (emit EClearHandlers w)).

(** A fresh handler identity. *)
Definition new_handler_id : M nat := fun w =>
  (inr (next_hid w), set_next_hid (S (next_hid w)) w).

(** [logging.FileHandler(filename, encoding=encoding)]: the file is
    opened for appending at once; the level starts at [NOTSET]. *)
Definition FileHandler (filename : string) (encoding : pyval) : M handler :=
  match encoding with
  | VNone | VStr _ =>
      open_append filename;;
      i ← new_handler_id;
      mret (mk_handler i (FileStream filename encoding) 0 VNone)
  | _ => raise (TypeError "encoding")
  end.

(** [logging.StreamHandler()]: writes to the standard error stream. *)
Definition StreamHandler : M handler :=
  i ← new_handler_id;
  mret (mk_handler i ConsoleStream 0 VNone).

(** [Handler.setLevel] and [Handler.setFormatter] on a handler that is
    not attached yet. *)
Definition handler_setLevel (h : handler) (level : pyval) : M handler :=
  z ← checkLevel level;
  mret (mk_handler (h_id h) (h_stream h) z (h_formatter h)).

Definition handler_setFormatter (h : handler) (fmt : pyval) : handler :=
  mk_handler (h_id h) (h_stream h) (h_level h) fmt.

(** [logging.getLogger().addHandler(h)]. *)
Definition addHandler (h : handler) : M unit := fun w =>
  let w' := emit (EAddHandler h) w in
  if bool_decide (h ∈ handlers w) then (inr tt, w')
  else (inr tt, set_handlers (handlers w ++ [h]) w').

(** [for name, level in items: logging.getLogger(name).setLevel(level)]. *)
Fixpoint set_logger_levels (items : pydict) : M unit :=
  match items with
  | [] => mret tt
  | (name, level) :: rest =>
      setLevel (getLogger name) level;;
      set_logger_levels rest
  end.

(** ** The module *)

Definition WORKING_DIR : string := "D:\1VSCODE\GlowToolBox".

(** The display bound to ['disabled_loggers'] (lines 47-57); ['PIL'] and
    ['urllib3'] are written twice. *)
Definition disabled_loggers_display : pydict :=
  [("PIL", VInt WARNING); ("urllib3", VInt WARNING); ("fsspec", VInt WARNING);
   ("PIL", VInt WARNING); ("urllib3", VInt WARNING);
   ("requests", VInt WARNING); ("chardet", VInt WARNING);
   ("vipshome", VInt WARNING); ("pyvips", VInt WARNING)].

(** The display bound to [DEFAULT_CONFIG] (lines 29-58), given the value
    read for ['log_path'] and the object built for ['disabled_loggers']. *)
Definition default_config_display (log_path : string) (disabled : nat) : pydict :=
  [("script_name", VNone);
   ("console_enabled", VBool true);
   ("log_path", VStr log_path);
   ("date_format", VStr "%Y%m%d");
   ("time_format", VStr "%H");
   ("file_format", VStr "%M%S");
   ("encoding", VStr "utf-8");
   ("formatter", VStr "%(asctime)s - %(levelname)s - %(message)s");
   ("file_level", VInt DEBUG);
   ("console_level", VInt INFO);
   ("disabled_loggers", VRef disabled)].

(** The module's globals: [DEFAULT_CONFIG] names a dictionary object. *)
Record module_state := mk_module { DEFAULT_CONFIG : nat }.

(** The text of an error, abridged to its argument. *)
Definition exn_text (e : exn) : string :=
  match e with
  | UnboundLocalError s | ValueError s | TypeError s | KeyError s
  | AttributeError s | OSError s | SystemError s | SystemExit s
  | CleanerError s => s
  end.

(** The argument of the [SystemExit] of line 25. *)
Definition exit_message : string :=
  "无法切换到指定工作目录，日志系统无法初始化".

(** Lines 18-25. *)
Definition switch_working_dir : M unit :=
  here ← getcwd;
  if bool_decide (here ≠ WORKING_DIR) then
    try_except
      (chdir WORKING_DIR;;
       print ("已切换到工作目录：" +:+ WORKING_DIR))
      (fun e =>
         print ("目录切换失败：" +:+ exn_text e);;
         raise (SystemExit exit_message))
  else mret tt.

(** Lines 27-58.  [dotenv_file] is the content of the [.env] file, when
    there is one. *)
Definition load_defaults (dotenv_file : option (list (string * string)))
    : M module_state :=
  load_dotenv dotenv_file;;
  log_path ← getenv "LOG_PATH" "logs";
  disabled ← alloc (dict_display disabled_loggers_display);
  defaults ← alloc (dict_display (default_config_display log_path disabled));
  mret (mk_module defaults).

(** Lines 16-58, run when the module is imported. *)
Definition import_module (dotenv_file : option (list (string * string)))
    : M module_state :=
  switch_working_dir;;
  load_defaults dotenv_file.

(** [bool(config)] for the optional mapping [config] (lines 76 and 80). *)
Definition config_truthy (config : option pydict) : bool :=
  match config with
  | Some (_ :: _) => true
  | _ => false
  end.

(** The test [config and k in config] (line 76, with ['log_path']). *)
Definition config_supplies (k : string) (config : option pydict) : bool :=
  match config with
  | Some d => (config_truthy config && dict_has k d)%bool
  | None => false
  end.

(** Lines 94-137: everything after the handlers were cleared.  The
    format string and the encoding are stored in the handlers as they are
    given: the checks [logging.Formatter] and the codec registry make on
    them are outside this model. *)
Definition attach_sinks (cfg : nat) : M (logger_ref * nat) :=
  (* 95 *)
  log_path ← subscript cfg "log_path";
  root ← as_str "makedirs" log_path;
  makedirs root;;
  (* 98-105 *)
  current_time ← datetime_now;
  script_name ← subscript cfg "script_name";
  date_format ← subscript cfg "date_format";
  date_format ← as_str "strftime" date_format;
  time_format ← subscript cfg "time_format";
  time_format ← as_str "strftime" time_format;
  root ← as_str "join" log_path;
  script_name ← as_str "join" script_name;
  let log_dir :=
    path_join root [script_name; strftime current_time date_format;
                    strftime current_time time_format] in
  makedirs log_dir;;
  (* 108-110 *)
  file_format ← subscript cfg "file_format";
  file_format ← as_str "strftime" file_format;
  let log_file :=
    path_join log_dir [strftime current_time file_format +:+ ".log"] in
  encoding ← subscript cfg "encoding";
  file_handler ← FileHandler log_file encoding;
  file_level ← subscript cfg "file_level";
  file_handler ← handler_setLevel file_handler file_level;
  (* 113-117 *)
  formatter ← subscript cfg "formatter";
  let file_handler := handler_setFormatter file_handler formatter in
  addHandler file_handler;;
  (* 120-124 *)
  console_handler ← StreamHandler;
  let console_handler := handler_setFormatter console_handler formatter in
  console_level ← subscript cfg "console_level";
  console_handler ← handler_setLevel console_handler console_level;
  console_enabled ← subscript cfg "console_enabled";
  enabled ← truthy console_enabled;
  (if enabled : bool then addHandler console_handler else mret tt);;
  (* 127-128 *)
  disabled ← subscript cfg "disabled_loggers";
  items ← match disabled with
          | VRef l => load l
          | _ => raise (AttributeError "items")
          end;
  set_logger_levels items;;
  (* 131-137 *)
  config_info ← alloc [("log_file", VStr log_file);
                       ("log_dir", VStr log_dir);
                       ("config", VRef cfg)];
  mret (RootLogger, config_info).

(** Lines 83-137: the check of ['script_name'], the reset of the root
    logger and the sinks. *)
Definition configure_logging (cfg : nat) : M (logger_ref * nat) :=
  (* 84-85 *)
  script_name ← subscript cfg "script_name";
  given ← truthy script_name;
  if negb given then raise (ValueError "必须提供script_name")
  else
    (* 88-92 *)
    setLevel RootLogger (VInt DEBUG);;
    clear_handlers;;
    attach_sinks cfg.

Section WithCleaner.

(** [nodes.record.log_cleaner.clean_logs], imported on line 6: it works
    on the file system below the root it is given and may raise. *)
Variable clean_logs : pyval -> filesystem -> option exn * filesystem.

Definition call_clean_logs (root : pyval) : M unit := fun w =>
  let w' := emit (ECleanLogs root) w in
  match clean_logs root (fs w) with
  | (Some e, f') => (inl e, set_fs f' w')
  | (None, f') => (inr tt, set_fs f' w')
  end.

(** [setup_logger(config)], lines 60-137.  The result is the pair of
    the root logger and (the location of) the [config_info] dictionary. *)
Definition setup_logger (m : module_state) (config : option pydict)
    : M (logger_ref * nat) :=
  (* [cfg] is a local name of the function, assigned on line 79. *)
  let cfg_local : option nat := None in
  (* 76 *)
  root ← (if config_supplies "log_path" config
          then cfg ← read_local "cfg" cfg_local; subscript cfg "log_path"
          else subscript (DEFAULT_CONFIG m) "log_path");
  call_clean_logs root;;
  (* 79-81 *)
  defaults ← load (DEFAULT_CONFIG m);
  cfg ← alloc defaults;
  (if config_truthy config
   then store cfg (dict_update defaults (default [] config))
   else mret tt);;
  configure_logging cfg.

End WithCleaner.

(** ** Observations on a run *)

Definition is_clean (e : event) : bool :=
  match e with ECleanLogs _ => true | _ => false end.

(** How many times the retention cleaner was invoked. *)
Definition cleaner_calls (evs : list event) : nat :=
  length (List.filter is_clean evs).

(** The handlers attached to the root logger, in order. *)
Fixpoint attached (evs : list event) : list handler :=
  match evs with
  | [] => []
  | EAddHandler h :: rest => h :: attached rest
  | _ :: rest => attached rest
  end.

(** The configuration [setup_logger] works with: the defaults updated
    by the caller's mapping (a missing or empty mapping changes nothing). *)
Definition merged_config (defaults : pydict) (config : option pydict) : pydict :=
  dict_update defaults (default [] config).

Definition recognized_options : list string :=
  ["script_name"; "console_enabled"; "log_path"; "date_format";
   "time_format"; "file_format"; "encoding"; "formatter"; "file_level";
   "console_level"; "disabled_loggers"].

(** [info['config']['disabled_loggers']], read through the store. *)
Definition read_disabled_loggers (info : nat) : M pydict :=
  cfg ← subscript info "config";
  match cfg with
  | VRef c =>
      dl ← subscript c "disabled_loggers";
      match dl with
      | VRef l => load l
      | _ => raise (TypeError "disabled_loggers")
      end
  | _ => raise (TypeError "config")
  end.

(** [DEFAULT_CONFIG['disabled_loggers'][name] = level], as any code of
    the process may write. *)
Definition set_default_disabled (m : module_state) (name : string) (level : Z)
    : M unit :=
  dl ← subscript (DEFAULT_CONFIG m) "disabled_loggers";
  match dl with
  | VRef l => setitem l name (VInt level)
  | _ => raise (TypeError "disabled_loggers")
  end.

(** ** Relations and records used in the statements *)

(** A computation keeps a relation between the worlds before and after
    it, whatever its outcome. *)
Definition keeps (R : relation world) {A} (m : M A) : Prop :=
  ∀ w r w', m w = (r, w') -> R w w'.

(** The steps of [setup_logger] after the cleaner: no further cleaner
    call, no object of the store changed or removed, clock and
    environment left alone. *)
Definition quiet (w w' : world) : Prop :=
  (∃ evs, trace w' = trace w ++ evs ∧ cleaner_calls evs = 0%nat) ∧
  (next_loc w <= next_loc w')%nat ∧
  (∀ l, (l < next_loc w)%nat -> heap w' !! l = heap w !! l) ∧
  now w' = now w ∧ environ w' = environ w.

(** The world in which line 83 starts: the cleaner has run and the
    merged configuration is a new object. *)
Definition merged_world (w : world) (root : pyval) (cleaned : filesystem)
    (merged : pydict) : world :=
  set_heap (<[next_loc w := merged]> (heap w)) (S (next_loc w))
    (set_fs cleaned (emit (ECleanLogs root) w)).

(** The world in which line 94 starts: configuration merged, root logger
    at [DEBUG], no handler left. *)
Definition reset_world (w : world) (root : pyval) (cleaned : filesystem)
    (merged : pydict) : world :=
  set_handlers []
    (emit EClearHandlers
       (set_root_level DEBUG
          (emit (ESetLevel RootLogger DEBUG)
             (merged_world w root cleaned merged)))).

(** Setting levels touches nothing but the levels and the trace, where
    it leaves no handler and no cleaner event. *)
Definition levels_only (w w' : world) : Prop :=
  environ w' = environ w ∧ cwd w' = cwd w ∧ fs w' = fs w ∧ now w' = now w ∧
  heap w' = heap w ∧ next_loc w' = next_loc w ∧
  handlers w' = handlers w ∧ next_hid w' = next_hid w ∧
  ∃ evs, trace w' = trace w ++ evs ∧ attached evs = [] ∧
         cleaner_calls evs = 0%nat.

(** What a run that reached line 137 went through. *)
Record sinks_run := mk_sinks_run {
  sr_config : list (string * pyval);
  sr_log_path : string;
  sr_script_name : string;
  sr_date_format : string;
  sr_time_format : string;
  sr_file_format : string;
  sr_encoding : pyval;
  sr_formatter : pyval;
  sr_file_level : Z;
  sr_console_level : Z;
  sr_console_enabled : bool;
  sr_fs_root : filesystem;
  sr_fs_dir : filesystem;
  sr_fs_file : filesystem;
  sr_disabled : list (string * pyval);
  sr_level_events : list event
}.

Definition log_dir_of (r : sinks_run) (t : datetime) : string :=
  path_join (sr_log_path r)
    [sr_script_name r; strftime t (sr_date_format r);
     strftime t (sr_time_format r)].

Definition log_file_of (r : sinks_run) (t : datetime) : string :=
  path_join (log_dir_of r t) [strftime t (sr_file_format r) +:+ ".log"].

Definition file_sink (r : sinks_run) (w : world) : handler :=
  mk_handler (next_hid w) (FileStream (log_file_of r (now w)) (sr_encoding r))
    (sr_file_level r) (sr_formatter r).

Definition console_sink (r : sinks_run) (w : world) : handler :=
  mk_handler (S (next_hid w)) ConsoleStream (sr_console_level r)
    (sr_formatter r).

Definition sinks_of (r : sinks_run) (w : world) : list handler :=
  file_sink r w :: if sr_console_enabled r then [console_sink r w] else [].

Definition config_info_of (r : sinks_run) (t : datetime) (cfg : nat)
    : list (string * pyval) :=
  [("log_file", VStr (log_file_of r t)); ("log_dir", VStr (log_dir_of r t));
   ("config", VRef cfg)].

Definition sinks_attached (cfg : nat) (w : world) (info : nat) (w' : world)
    (r : sinks_run) : Prop :=
  heap w !! cfg = Some (sr_config r) ∧
  dict_get "log_path" (sr_config r) = Some (VStr (sr_log_path r)) ∧
  dict_get "script_name" (sr_config r) = Some (VStr (sr_script_name r)) ∧
  dict_get "date_format" (sr_config r) = Some (VStr (sr_date_format r)) ∧
  dict_get "time_format" (sr_config r) = Some (VStr (sr_time_format r)) ∧
  dict_get "file_format" (sr_config r) = Some (VStr (sr_file_format r)) ∧
  dict_get "encoding" (sr_config r) = Some (sr_encoding r) ∧
  dict_get "formatter" (sr_config r) = Some (sr_formatter r) ∧
  makedirs_fs (sr_log_path r) (fs w) = Some (sr_fs_root r) ∧
  makedirs_fs (log_dir_of r (now w)) (sr_fs_root r) = Some (sr_fs_dir r) ∧
  open_append_fs (log_file_of r (now w)) (sr_fs_dir r) = Some (sr_fs_file r) ∧
  info = next_loc w ∧
  fs w' = sr_fs_file r ∧
  heap w' = <[next_loc w := config_info_of r (now w) cfg]> (heap w) ∧
  next_loc w' = S (next_loc w) ∧
  next_hid w' = S (S (next_hid w)) ∧
  now w' = now w ∧
  environ w' = environ w ∧
  handlers w' = sinks_of r w ∧
  trace w' = trace w
             ++ [EMakedirs (sr_log_path r); EMakedirs (log_dir_of r (now w));
                 EOpenAppend (log_file_of r (now w))]
             ++ map EAddHandler (sinks_of r w)
             ++ sr_level_events r ∧
  attached (sr_level_events r) = [] ∧
  cleaner_calls (sr_level_events r) = 0%nat ∧
  (∃ l, dict_get "disabled_loggers" (sr_config r) = Some (VRef l) ∧
        heap w !! l = Some (sr_disabled r)) ∧
  (Forall (fun kv => getLogger kv.1 ≠ RootLogger) (sr_disabled r) ->
   root_level w' = root_level w).

(** The locations as the layout gives them. *)
Definition layout_log_dir (log_path script_name date_format time_format : string)
    (t : datetime) : string :=
  path_join log_path
    [script_name; strftime t date_format; strftime t time_format].

Definition layout_log_file (log_dir file_format : string) (t : datetime)
    : string :=
  path_join log_dir [strftime t file_format +:+ ".log"].

(** ** Sample processes *)

Definition example_time : datetime := mk_datetime 2024 3 5 14 22 7.

(** A process that has imported nothing yet. *)
Definition fresh_process (env : gmap string string) (dir : string)
    (f : filesystem) (t : datetime) : world :=
  mk_world env dir f t ∅ 0 WARNING [] ∅ 0 [].

(** Started inside the tool box, with some old logs around. *)
Definition toolbox_process : world :=
  fresh_process ∅ WORKING_DIR
    (mk_fs {[WORKING_DIR; "logs"; "logs/old"]} {["logs/old/0001.log"]})
    example_time.

(** Started somewhere else, on a machine without the tool box. *)
Definition foreign_process : world :=
  fresh_process ∅ "/home/app" (mk_fs {["/home/app"]} ∅) example_time.

(** Three cleaners: one that keeps everything, one that removes what is
    below the root, one that fails. *)
Definition keep_all (root : pyval) (f : filesystem) : option exn * filesystem :=
  (None, f).

Definition below (root path : string) : bool :=
  String.prefix (root +:+ "/") path.

Definition remove_below (root : pyval) (f : filesystem)
    : option exn * filesystem :=
  match root with
  | VStr r =>
      (None,
       mk_fs (list_to_set (List.filter (fun p => negb (below r p)) (elements (dirs f))))
             (list_to_set (List.filter (fun p => negb (below r p)) (elements (files f)))))
  | _ => (Some (TypeError "root"), f)
  end.

Definition broken_cleaner (root : pyval) (f : filesystem)
    : option exn * filesystem :=
  (Some (CleanerError "cannot scan"), f).

Definition svc_config : pydict :=
  [("script_name", VStr "svc"); ("console_enabled", VBool false)].

(** The tool box process once the module is imported (no [.env] file). *)
Definition toolbox_loaded : world := (import_module None toolbox_process).2.

Definition toolbox_module : module_state := mk_module 1.

(** A first call in that process. *)
Definition svc_run : (exn + logger_ref * nat) * world :=
  setup_logger keep_all toolbox_module (Some svc_config) toolbox_loaded.

(** A second call, some time later. *)
Definition later_time : datetime := mk_datetime 2024 3 5 15 0 1.

Definition second_run : (exn + logger_ref * nat) * world :=
  setup_logger keep_all toolbox_module
    (Some [("script_name", VStr "svc")]) (set_now later_time svc_run.2).

(** A caller with a key of its own. *)
Definition tagged_config : pydict :=
  [("script_name", VStr "svc"); ("console_enabled", VBool false);
   ("color", VBool true)].

Definition tagged_run : (exn + logger_ref * nat) * world :=
  setup_logger keep_all toolbox_module (Some tagged_config) toolbox_loaded.

(** [LOG_PATH] is set after the import, before the call. *)
Definition late_world : world :=
  set_environ {["LOG_PATH" := "/var/log/app"]} toolbox_loaded.

Definition late_run : (exn + logger_ref * nat) * world :=
  setup_logger keep_all toolbox_module (Some svc_config) late_world.

(** ** The rest of the module: [demo_logger] and the script entry *)

(** Pure readings of two library checks: the level [logging._checkLevel]
    returns when it returns, and [bool(v)] in a given store. *)
Definition level_value (v : pyval) : option Z :=
  match v with
  | VInt z => Some z
  | VBool b => Some (Z.b2z b)
  | VStr s =>
      match dict_get s nameToLevel with
      | Some (VInt z) => Some z
      | _ => None
      end
  | _ => None
  end.

Definition truth_value (h : gmap nat (list (string * pyval))) (v : pyval)
    : option bool :=
  match v with
  | VNone => Some false
  | VBool b => Some b
  | VInt z => Some (negb (z =? 0))
  | VStr s => Some (negb (String.eqb s ""))
  | VRef l =>
      match h !! l with
      | Some d => Some (negb (bool_decide (d = [])))
      | None => None
      end
  end.

(** The value a [.env] file gives a name: its last binding. *)
Definition dotenv_value (name : string) (file : list (string * string))
    : option string :=
  fold_left (fun acc kv => if String.eqb kv.1 name then Some kv.2 else acc)
    file None.

(** A record handed to a handler. *)
Record delivery := mk_delivery {
  d_handler : handler;
  d_level : Z;
  d_message : string
}.

(** [logging.getLogger().log(level, msg)]: the root logger makes the
    record when its level allows it ([Logger.isEnabledFor]) and hands it
    to each of its handlers whose level allows it
    ([Logger.callHandlers]).  The records handed over are the result;
    what the handlers write is not modelled further. *)
Definition root_log (level : Z) (msg : string) : M (list delivery) := fun w =>
  (inr (if ((0 <? level) && (root_level w <=? level))%bool
        then map (fun h => mk_delivery h level msg)
               (List.filter (fun h => h_level h <=? level) (handlers w))
        else []), w).

(** Lines 146-150. *)
Definition test_config : pydict :=
  [("script_name", VStr "logger_demo");
   ("console_enabled", VBool true);
   ("formatter", VStr "%(asctime)s - %(levelname)s - %(message)s")].

Section Demo.

Variable clean_logs : pyval -> filesystem -> option exn * filesystem.

(** [demo_logger()], lines 139-159.  [logger] is the root logger
    (line 88); the result lists the records handed to the handlers, in
    order (the function itself returns [None]). *)
Definition demo_logger (m : module_state) : M (list delivery) :=
  (* 153 *)
  r ← setup_logger clean_logs m (Some test_config);
  let config_info := r.2 in
  (* 156 *)
  log_file ← subscript config_info "log_file";
  log_file ← as_str "abspath" log_file;
  here ← getcwd;
  d1 ← root_log DEBUG ("当前日志存储路径：" +:+ abspath here log_file);
  (* 157-159 *)
  d2 ← root_log INFO "这是一条INFO级别日志";
  d3 ← root_log WARNING "这是一条WARNING级别日志";
  d4 ← root_log ERROR "这是一条ERROR级别日志";
  mret (d1 ++ d2 ++ d3 ++ d4).

(** The module run as a script: the import, then lines 161-165. *)
Definition main_script (dotenv_file : option (list (string * string)))
    : M (list delivery) :=
  m ← import_module dotenv_file;
  records ← demo_logger m;
  (* 164-165 *)
  used_path ← getenv "LOG_PATH" "logs";
  print ("测试日志生成完成，请检查 " +:+ used_path +:+ "/logger_demo 目录");;
  mret records.

End Demo.

(** ** More sample runs *)

(** A caller whose ['script_name'] is an absolute path. *)
Definition rooted_run : (exn + logger_ref * nat) * world :=
  setup_logger keep_all toolbox_module (Some [("script_name", VStr "/srv/app")])
    toolbox_loaded.

(** After a first call, something puts a regular file where the log root
    should be. *)
Definition blocked_world : world :=
  set_fs (mk_fs {[WORKING_DIR]} {["logs"]}) svc_run.2.

(** A caller whose ['script_name'] is a number. *)
Definition numbered_config : pydict := [("script_name", VInt 7)].

(** The level of the root logger in [w'], where a call made in [w] has
    returned [info]: [DEBUG], unless the ['disabled_loggers'] that call
    worked with name the root logger itself. *)
Definition root_left_at_debug (w : world) (info : nat) (w' : world) : Prop :=
  ∃ cfg merged log_file log_dir l items,
    heap w' !! info = Some [("log_file", log_file); ("log_dir", log_dir);
                            ("config", VRef cfg)] ∧
    heap w' !! cfg = Some merged ∧
    dict_get "disabled_loggers" merged = Some (VRef l) ∧
    <[cfg := merged]> (heap w) !! l = Some items ∧
    (Forall (fun kv => getLogger kv.1 ≠ RootLogger) items ->
     root_level w' = DEBUG).

(** A second call whose configuration names the log root. *)
Definition rooted_config : pydict :=
  [("script_name", VStr "svc"); ("log_path", VStr "mylogs")].

(** Values that [os.path.join] refuses as a component: numbers,
    booleans and dictionaries. *)
Definition unjoinable (v : pyval) : Prop :=
  (∃ z, v = VInt z) ∨ (∃ b, v = VBool b) ∨ (∃ l, v = VRef l).

(** What no step of [setup_logger] touches: the working directory, the
    environment and the clock. *)
Definition same_process (w w' : world) : Prop :=
  cwd w' = cwd w ∧ environ w' = environ w ∧ now w' = now w.

(** The demonstration, in a process that has imported the module. *)
Definition demo_run : (exn + list delivery) * world :=
  demo_logger keep_all toolbox_module toolbox_loaded.

(** The module run as a script, started elsewhere, with a [.env] file
    that names the log root. *)
Definition script_process : world :=
  fresh_process ∅ "/home/app" (mk_fs {["/home/app"; WORKING_DIR]} ∅)
    example_time.

Definition script_run : (exn + list delivery) * world :=
  main_script keep_all (Some [("LOG_PATH", "out")]) script_process.

Definition records_of (r : (exn + list delivery) * world) : list delivery :=
  match r.1 with
  | inr records => records
  | inl _ => []
  end.

(** A caller that lists the root logger itself among the loggers to
    quieten. *)
Definition hushed_world : world :=
  set_heap (<[2%nat := [("root", VStr "ERROR")]]> (heap toolbox_loaded)) 3
    toolbox_loaded.

Definition hushed_config : pydict :=
  [("script_name", VStr "svc"); ("disabled_loggers", VRef 2)].

Definition hushed_run : (exn + logger_ref * nat) * world :=
  setup_logger keep_all toolbox_module (Some hushed_config) hushed_world.

(** ** Dictionaries *)

Lemma dict_get_set k k' v d :
  dict_get k (dict_set k' v d) =
  if String.eqb k k' then Some v else dict_get k d.
Proof.
  induction d as [|[k0 v0] d IH]; simpl.
  - reflexivity.
  - destruct (String.eqb k' k0) eqn:E0; simpl.
    + apply String.eqb_eq in E0; subst k0.
      destruct (String.eqb k k'); reflexivity.
    + rewrite IH. destruct (String.eqb k k0) eqn:E1; [|reflexivity].
      apply String.eqb_eq in E1; subst k0.
      destruct (String.eqb k k') eqn:E2; [|reflexivity].
      apply String.eqb_eq in E2; subst k'.
      rewrite String.eqb_refl in E0. discriminate.
Qed.

Lemma dict_get_None k (d : list (string * pyval)) :
  k ∉ dict_keys d -> dict_get k d = None.
Proof.
  induction d as [|[k0 v0] d IH]; simpl; [reflexivity|].
  intros Hk. destruct (String.eqb k k0) eqn:E.
  - apply String.eqb_eq in E; subst k0. exfalso; apply Hk. left.
  - apply IH. intros Hin. apply Hk. right. exact Hin.
Qed.

(** A key the source supplies is overwritten; any other keeps its value. *)
Lemma dict_get_update k (d src : list (string * pyval)) :
  dict_wf src ->
  dict_get k (dict_update d src) =
  match dict_get k src with
  | Some v => Some v
  | None => dict_get k d
  end.
Proof.
  unfold dict_update, dict_wf. revert d.
  induction src as [|[k0 v0] src IH]; intros d Hnd; simpl.
  - reflexivity.
  - apply NoDup_cons in Hnd as [Hk0 Hnd].
    rewrite IH by exact Hnd. rewrite dict_get_set.
    destruct (String.eqb k k0) eqn:E.
    + apply String.eqb_eq in E; subst k0.
      rewrite dict_get_None by exact Hk0. reflexivity.
    + reflexivity.
Qed.

(** The test of line 76 holds exactly when the caller's mapping has the
    key. *)
Lemma config_supplies_get k config :
  config_supplies k config =
  match dict_get k (default [] config) with
  | Some _ => true
  | None => false
  end.
Proof. by destruct config as [[|kv d]|]. Qed.

Lemma config_supplies_true k (cfg : list (string * pyval)) v :
  dict_get k cfg = Some v -> config_supplies k (Some cfg) = true.
Proof. intros H. rewrite config_supplies_get. simpl. by rewrite H. Qed.

Lemma config_omits k config :
  dict_get k (default [] config) = None -> config_supplies k config = false.
Proof. intros H. by rewrite config_supplies_get, H. Qed.

(** When the test of line 76 fails, the merged configuration keeps the
    default for that key. *)
Lemma merged_config_omitted k d config :
  config_supplies k config = false ->
  dict_get k (merged_config d config) = dict_get k d.
Proof.
  unfold merged_config, config_supplies.
  destruct config as [cfg|]; simpl; [|reflexivity].
  destruct cfg as [|kv cfg]; [reflexivity|]. simpl config_truthy. cbv iota.
  rewrite andb_true_l. unfold dict_has. intros Hk.
  remember (kv :: cfg) as src eqn:Hsrc. clear Hsrc. revert d.
  induction src as [|[k0 v0] src IH]; intros d; [reflexivity|].
  simpl in Hk. unfold dict_update in *. simpl.
  destruct (String.eqb k k0) eqn:E; [discriminate|].
  rewrite IH by exact Hk. rewrite dict_get_set, E. reflexivity.
Qed.

(** ** Reasoning about computations *)

Lemma bind_ok {A B} (m : M A) (f : A -> M B) w b w' :
  (m ≫= f) w = (inr b, w') ->
  ∃ a w1, m w = (inr a, w1) ∧ f a w1 = (inr b, w').
Proof.
  unfold mbind, M_bind. destruct (m w) as [[e|a] w1]; [discriminate|]. eauto.
Qed.

Lemma bind_run {A B} (m : M A) (f : A -> M B) w a w1 :
  m w = (inr a, w1) -> (m ≫= f) w = f a w1.
Proof. unfold mbind, M_bind. intros ->. reflexivity. Qed.

Lemma bind_fail {A B} (m : M A) (f : A -> M B) w e w1 :
  m w = (inl e, w1) -> (m ≫= f) w = (inl e, w1).
Proof. unfold mbind, M_bind. intros ->. reflexivity. Qed.

Section Keeps.
Context (R : relation world) `{!PreOrder R}.

Lemma keeps_ret {A} (a : A) : keeps R (mret a).
Proof. intros w r w' E. cbv in E. injection E as _ <-. reflexivity. Qed.

Lemma keeps_raise {A} (e : exn) : keeps R (@raise A e).
Proof. intros w r w' E. cbv in E. injection E as _ <-. reflexivity. Qed.

Lemma keeps_bind {A B} (m : M A) (f : A -> M B) :
  keeps R m -> (∀ a, keeps R (f a)) -> keeps R (m ≫= f).
Proof.
  intros Hm Hf w r w'. unfold mbind, M_bind.
  destruct (m w) as [[e|a] w1] eqn:E.
  - intros [= _ <-]. eapply Hm, E.
  - intros Hk. etrans; [eapply Hm, E | eapply Hf, Hk].
Qed.

Lemma keeps_same {A} (m : M A) :
  (∀ w r w', m w = (r, w') -> w' = w) -> keeps R m.
Proof. intros H w r w' E. rewrite (H _ _ _ E). reflexivity. Qed.

End Keeps.

Lemma cleaner_calls_app evs evs' :
  cleaner_calls (evs ++ evs') = (cleaner_calls evs + cleaner_calls evs')%nat.
Proof. unfold cleaner_calls. rewrite List.filter_app, length_app. reflexivity. Qed.

#[global] Instance quiet_preorder : PreOrder quiet.
Proof.
  split.
  - intros w. repeat split; try done. exists []. by rewrite app_nil_r.
  - intros a b c ([e1 [T1 C1]] & N1 & H1 & D1 & V1) ([e2 [T2 C2]] & N2 & H2 & D2 & V2).
    repeat split.
    + exists (e1 ++ e2). rewrite T2, T1, app_assoc, cleaner_calls_app, C1, C2. done.
    + lia.
    + intros l Hl. rewrite H2 by lia. by apply H1.
    + congruence.
    + congruence.
Qed.

(** One event that is no cleaner call, store untouched. *)
Lemma quiet_event w w' e :
  trace w' = trace w ++ [e] -> is_clean e = false ->
  next_loc w' = next_loc w -> heap w' = heap w ->
  now w' = now w -> environ w' = environ w -> quiet w w'.
Proof.
  intros T C N H D V. repeat split; try done; try lia.
  - exists [e]. split; [done|]. unfold cleaner_calls. simpl. by rewrite C.
  - intros l _. by rewrite H.
Qed.

Lemma quiet_silent w w' :
  trace w' = trace w -> next_loc w' = next_loc w -> heap w' = heap w ->
  now w' = now w -> environ w' = environ w -> quiet w w'.
Proof.
  intros T N H D V. repeat split; try done; try lia.
  - exists []. by rewrite app_nil_r.
  - intros l _. by rewrite H.
Qed.

Create HintDb keeps.

Lemma load_same l w r w' : load l w = (r, w') -> w' = w.
Proof. unfold load. destruct (heap w !! l); by intros [= _ <-]. Qed.

Lemma getitem_same d k w r w' : getitem d k w = (r, w') -> w' = w.
Proof.
  unfold getitem, mret, M_ret, raise.
  destruct (dict_get k d); by intros [= _ <-].
Qed.

Lemma subscript_same l k w r w' : subscript l k w = (r, w') -> w' = w.
Proof.
  unfold subscript, mbind, M_bind.
  destruct (load l w) as [[e|d] w1] eqn:E; apply load_same in E; subst w1.
  - by intros [= _ <-].
  - apply getitem_same.
Qed.

Lemma truthy_same v w r w' : truthy v w = (r, w') -> w' = w.
Proof.
  destruct v; simpl; unfold mret, M_ret; try by intros [= _ <-].
  unfold mbind, M_bind.
  destruct (load l w) as [[e|d] w1] eqn:E; apply load_same in E; subst w1;
    by intros [= _ <-].
Qed.

Lemma as_str_same what v w r w' : as_str what v w = (r, w') -> w' = w.
Proof. destruct v; simpl; unfold mret, M_ret, raise; by intros [= _ <-]. Qed.

Lemma checkLevel_same v w r w' : checkLevel v w = (r, w') -> w' = w.
Proof.
  unfold checkLevel, mret, M_ret, raise.
  destruct v; try by intros [= _ <-].
  destruct (dict_get s nameToLevel) as [[]|]; by intros [= _ <-].
Qed.

Lemma datetime_now_same w r w' : datetime_now w = (r, w') -> w' = w.
Proof. by intros [= _ <-]. Qed.

Lemma keeps_quiet_load l : keeps quiet (load l).
Proof. apply (keeps_same quiet), load_same. Qed.

Lemma keeps_quiet_subscript l k : keeps quiet (subscript l k).
Proof. apply (keeps_same quiet), subscript_same. Qed.

Lemma keeps_quiet_truthy v : keeps quiet (truthy v).
Proof. apply (keeps_same quiet), truthy_same. Qed.

Lemma keeps_quiet_as_str what v : keeps quiet (as_str what v).
Proof. apply (keeps_same quiet), as_str_same. Qed.

Lemma keeps_quiet_checkLevel v : keeps quiet (checkLevel v).
Proof. apply (keeps_same quiet), checkLevel_same. Qed.

Lemma keeps_quiet_now : keeps quiet datetime_now.
Proof. apply (keeps_same quiet), datetime_now_same. Qed.

Lemma keeps_quiet_alloc d : keeps quiet (alloc d).
Proof.
  intros w r w' [= _ <-]. repeat split; simpl; try done; try lia.
  - exists []. by rewrite app_nil_r.
  - intros l Hl. rewrite lookup_insert_ne; [done|lia].
Qed.

Lemma keeps_quiet_makedirs p : keeps quiet (makedirs p).
Proof.
  intros w r w'. unfold makedirs.
  destruct (makedirs_fs p (fs w)); intros [= _ <-];
    by eapply quiet_event.
Qed.

Lemma keeps_quiet_open_append p : keeps quiet (open_append p).
Proof.
  intros w r w'. unfold open_append.
  destruct (open_append_fs p (fs w)); intros [= _ <-];
    by eapply quiet_event.
Qed.

Lemma keeps_quiet_new_handler_id : keeps quiet new_handler_id.
Proof. intros w r w' [= _ <-]. by apply quiet_silent. Qed.

Lemma keeps_quiet_assign_level lg z : keeps quiet (assign_level lg z).
Proof.
  intros w r w'. unfold assign_level.
  destruct lg; intros [= _ <-]; by eapply quiet_event.
Qed.

Lemma keeps_quiet_clear_handlers : keeps quiet clear_handlers.
Proof. intros w r w' [= _ <-]. by eapply quiet_event. Qed.

Lemma keeps_quiet_addHandler h : keeps quiet (addHandler h).
Proof.
  intros w r w'. unfold addHandler.
  destruct (bool_decide (h ∈ handlers w)); intros [= _ <-];
    by eapply quiet_event.
Qed.

#[global] Hint Resolve keeps_quiet_load keeps_quiet_subscript
  keeps_quiet_truthy keeps_quiet_as_str keeps_quiet_checkLevel
  keeps_quiet_now keeps_quiet_alloc keeps_quiet_makedirs
  keeps_quiet_open_append keeps_quiet_new_handler_id
  keeps_quiet_assign_level keeps_quiet_clear_handlers
  keeps_quiet_addHandler : keeps.

(** Breaks a computation into its steps and closes each with the hints. *)
Ltac keeps_steps :=
  repeat match goal with
    | |- keeps ?R (mret _) => apply (keeps_ret R)
    | |- keeps ?R (raise _) => apply (keeps_raise R)
    | |- keeps ?R (mbind _ _) =>
        apply (keeps_bind R); [|intros ?; cbv beta zeta]
    | |- keeps _ (match ?x with _ => _ end) => destruct x
    | |- keeps _ _ => solve [auto with keeps]
    end.

Lemma keeps_quiet_setLevel lg v : keeps quiet (setLevel lg v).
Proof. unfold setLevel. keeps_steps. Qed.

Lemma keeps_quiet_set_logger_levels items :
  keeps quiet (set_logger_levels items).
Proof.
  induction items as [|[name level] items IH]; simpl.
  - apply (keeps_ret quiet).
  - apply (keeps_bind quiet); [apply keeps_quiet_setLevel|intros _; exact IH].
Qed.

Lemma keeps_quiet_FileHandler p enc : keeps quiet (FileHandler p enc).
Proof. unfold FileHandler. keeps_steps. Qed.

Lemma keeps_quiet_StreamHandler : keeps quiet StreamHandler.
Proof. unfold StreamHandler. keeps_steps. Qed.

Lemma keeps_quiet_handler_setLevel h v : keeps quiet (handler_setLevel h v).
Proof. unfold handler_setLevel. keeps_steps. Qed.

#[global] Hint Resolve keeps_quiet_setLevel keeps_quiet_set_logger_levels
  keeps_quiet_FileHandler keeps_quiet_StreamHandler
  keeps_quiet_handler_setLevel : keeps.

Lemma keeps_quiet_attach_sinks cfg : keeps quiet (attach_sinks cfg).
Proof. unfold attach_sinks. keeps_steps. Qed.

Lemma keeps_quiet_configure_logging cfg : keeps quiet (configure_logging cfg).
Proof.
  unfold configure_logging. keeps_steps. apply keeps_quiet_attach_sinks.
Qed.

(** ** [setup_logger], case by case *)

Lemma merged_config_falsy d config :
  config_truthy config = false -> merged_config d config = d.
Proof. destruct config as [[|kv c]|]; by intros. Qed.

Lemma setup_logger_eq clean_logs m config w :
  setup_logger clean_logs m config w =
  if config_supplies "log_path" config
  then (inl (UnboundLocalError "cfg"), w)
  else match heap w !! DEFAULT_CONFIG m with
       | None => (inl (SystemError "dangling reference"), w)
       | Some d0 =>
           match dict_get "log_path" d0 with
           | None => (inl (KeyError "log_path"), w)
           | Some root =>
               match clean_logs root (fs w) with
               | (Some e, f0) => (inl e, set_fs f0 (emit (ECleanLogs root) w))
               | (None, f0) =>
                   configure_logging (next_loc w)
                     (merged_world w root f0 (merged_config d0 config))
               end
           end
       end.
Proof.
  unfold setup_logger. cbv zeta.
  destruct (config_supplies "log_path" config) eqn:Hs; [reflexivity|].
  unfold subscript, load, getitem, mbind, M_bind, mret, M_ret, raise.
  destruct (heap w !! DEFAULT_CONFIG m) as [d0|] eqn:Hd; [|reflexivity].
  destruct (dict_get "log_path" d0) as [root|] eqn:Hr; [|reflexivity].
  unfold call_clean_logs.
  destruct (clean_logs root (fs w)) as [[e|] f0] eqn:Hc; [reflexivity|].
  simpl. rewrite Hd. unfold alloc. simpl.
  destruct (config_truthy config) eqn:Ht.
  - unfold store, merged_world, set_heap. simpl.
    rewrite insert_insert_eq. reflexivity.
  - rewrite (merged_config_falsy _ _ Ht). reflexivity.
Qed.

(** ** The retention cleaner (lines 75-76) *)

Lemma import_toolbox :
  import_module None toolbox_process = (inr toolbox_module, toolbox_loaded).
Proof. reflexivity. Qed.

(** C1 (the code departs from it): a caller that supplies ['log_path']
    should have the cleaner run on that root.  Line 76 reads the local
    name [cfg] before line 79 assigns it, so the call stops with
    [UnboundLocalError] in an unchanged world: the cleaner is not invoked
    at all, and nothing of the initialization happens. *)
Theorem supplied_log_path_is_unbound clean_logs m cfg v w :
  dict_get "log_path" cfg = Some v ->
  setup_logger clean_logs m (Some cfg) w = (inl (UnboundLocalError "cfg"), w).
Proof.
  intros H. rewrite setup_logger_eq.
  by rewrite (config_supplies_true _ _ _ H).
Qed.

Lemma supplied_log_path_is_unbound_witness :
  setup_logger keep_all toolbox_module
    (Some [("script_name", VStr "svc"); ("log_path", VStr "mylogs")])
    toolbox_loaded
  = (inl (UnboundLocalError "cfg"), toolbox_loaded).
Proof.
  apply (supplied_log_path_is_unbound keep_all toolbox_module
           [("script_name", VStr "svc"); ("log_path", VStr "mylogs")]
           (VStr "mylogs") toolbox_loaded).
  reflexivity.
Defined.

(** When the caller leaves ['log_path'] out, the cleaner runs on the
    default root, first of all. *)
Lemma omitted_log_path_cleans_default clean_logs m config w d0 root r w' :
  config_supplies "log_path" config = false ->
  heap w !! DEFAULT_CONFIG m = Some d0 ->
  dict_get "log_path" d0 = Some root ->
  setup_logger clean_logs m config w = (r, w') ->
  ∃ rest, trace w' = trace w ++ ECleanLogs root :: rest ∧
          cleaner_calls rest = 0%nat.
Proof.
  intros Hs Hd Hr. rewrite setup_logger_eq, Hs, Hd, Hr.
  destruct (clean_logs root (fs w)) as [[e|] f0].
  - intros [= _ <-]. exists []. done.
  - intros Hk. apply keeps_quiet_configure_logging in Hk as ([evs [T C]] & _).
    exists evs. split; [|done]. rewrite T. simpl. by rewrite <- app_assoc.
Qed.

(** C7 (the code departs from it): the cleaner should run exactly once on
    every call, ahead of the check of ['script_name'].  It does so when
    the caller leaves ['log_path'] out: its call is the first event of the
    run and the only one of its kind, whatever the outcome of the run.
    When the caller supplies ['log_path'] the run adds no event at all:
    the cleaner is invoked zero times. *)
Theorem cleaner_calls_per_run clean_logs m config w d0 root r w' :
  heap w !! DEFAULT_CONFIG m = Some d0 ->
  dict_get "log_path" d0 = Some root ->
  setup_logger clean_logs m config w = (r, w') ->
  ∃ evs, trace w' = trace w ++ evs ∧
    match dict_get "log_path" (default [] config) with
    | Some _ => evs = [] ∧ cleaner_calls evs = 0%nat
    | None => (∃ rest, evs = ECleanLogs root :: rest) ∧
              cleaner_calls evs = 1%nat
    end.
Proof.
  intros Hd Hr Hrun.
  destruct (dict_get "log_path" (default [] config)) as [v|] eqn:Hs.
  - rewrite setup_logger_eq, config_supplies_get, Hs in Hrun.
    injection Hrun as _ <-. exists []. by rewrite app_nil_r.
  - apply config_omits in Hs.
    destruct (omitted_log_path_cleans_default _ _ _ _ _ _ _ _ Hs Hd Hr Hrun)
      as (rest & T & C).
    exists (ECleanLogs root :: rest). split; [done|]. split; [by exists rest|].
    unfold cleaner_calls in *. simpl. by rewrite C.
Qed.

Lemma cleaner_calls_per_run_witness :
  ∃ evs, trace toolbox_loaded = trace toolbox_loaded ++ evs ∧
         evs = [] ∧ cleaner_calls evs = 0%nat.
Proof.
  apply (cleaner_calls_per_run keep_all toolbox_module
           (Some [("script_name", VStr "svc"); ("log_path", VStr "mylogs")])
           toolbox_loaded
           (default_config_display "logs" 0) (VStr "logs")
           (inl (UnboundLocalError "cfg")) toolbox_loaded);
    reflexivity.
Defined.

(** C6 (as amended): an error raised by the cleaner is not caught.  It
    reaches the caller as it is, and the run stops there: the world is
    the one the cleaner left, with no configuration merged, the root
    logger and its sinks untouched. *)
Theorem cleaner_error_propagates clean_logs m config w d0 root e f0 :
  dict_get "log_path" (default [] config) = None ->
  heap w !! DEFAULT_CONFIG m = Some d0 ->
  dict_get "log_path" d0 = Some root ->
  clean_logs root (fs w) = (Some e, f0) ->
  setup_logger clean_logs m config w
  = (inl e, set_fs f0 (emit (ECleanLogs root) w)).
Proof.
  intros Hs%config_omits Hd Hr Hc.
  by rewrite setup_logger_eq, Hs, Hd, Hr, Hc.
Qed.

Lemma cleaner_error_propagates_witness :
  setup_logger broken_cleaner toolbox_module (Some svc_config) toolbox_loaded
  = (inl (CleanerError "cannot scan"),
     set_fs (fs toolbox_loaded) (emit (ECleanLogs (VStr "logs")) toolbox_loaded)).
Proof.
  apply (cleaner_error_propagates broken_cleaner toolbox_module
           (Some svc_config) toolbox_loaded
           (default_config_display "logs" 0) (VStr "logs")
           (CleanerError "cannot scan") (fs toolbox_loaded));
    reflexivity.
Defined.

(** C6 as stated fails: with a valid configuration and a cleaner that
    raises, the call ends with the cleaner's error and attaches no sink. *)
Lemma cleaner_error_not_swallowed :
  (setup_logger broken_cleaner toolbox_module (Some svc_config) toolbox_loaded).1
    = inl (CleanerError "cannot scan") ∧
  handlers (setup_logger broken_cleaner toolbox_module (Some svc_config)
              toolbox_loaded).2 = [].
Proof. split; reflexivity. Qed.

(** ** The check of ['script_name'] (lines 83-85) *)

Lemma load_merged w root f0 d :
  load (next_loc w) (merged_world w root f0 d)
  = (inr d, merged_world w root f0 d).
Proof. unfold load, merged_world. simpl. by rewrite lookup_insert_eq. Qed.

Lemma subscript_merged w root f0 d k :
  subscript (next_loc w) k (merged_world w root f0 d)
  = getitem d k (merged_world w root f0 d).
Proof. unfold subscript. by rewrite (bind_run _ _ _ _ _ (load_merged _ _ _ _)). Qed.

(** C2 (as amended): when the caller leaves ['log_path'] out, the cleaner
    returns and the merged ['script_name'] is [None] or the empty string,
    [setup_logger] raises [ValueError].  At that point the file system is
    exactly what the cleaner, which has already run, left; the sinks and
    the levels of the loggers are what they were before the call. *)
Theorem missing_script_name_is_rejected clean_logs m config w d0 root f0 :
  dict_get "log_path" (default [] config) = None ->
  heap w !! DEFAULT_CONFIG m = Some d0 ->
  dict_get "log_path" d0 = Some root ->
  clean_logs root (fs w) = (None, f0) ->
  dict_get "script_name" (merged_config d0 config) = Some VNone ∨
  dict_get "script_name" (merged_config d0 config) = Some (VStr "") ->
  ∃ w', setup_logger clean_logs m config w
          = (inl (ValueError "必须提供script_name"), w') ∧
        fs w' = f0 ∧
        handlers w' = handlers w ∧
        root_level w' = root_level w ∧
        levels w' = levels w ∧
        trace w' = trace w ++ [ECleanLogs root].
Proof.
  intros Hs%config_omits Hd Hr Hc Hn.
  exists (merged_world w root f0 (merged_config d0 config)).
  split; [|done].
  rewrite setup_logger_eq, Hs, Hd, Hr, Hc.
  unfold configure_logging.
  destruct Hn as [Hn|Hn];
    (erewrite bind_run;
       [|rewrite subscript_merged; unfold getitem; rewrite Hn; reflexivity]);
    reflexivity.
Qed.

Lemma missing_script_name_is_rejected_witness :
  ∃ w', setup_logger remove_below toolbox_module None toolbox_loaded
          = (inl (ValueError "必须提供script_name"), w') ∧
        fs w' = mk_fs {[WORKING_DIR; "logs"]} ∅ ∧
        handlers w' = handlers toolbox_loaded ∧
        root_level w' = root_level toolbox_loaded ∧
        levels w' = levels toolbox_loaded ∧
        trace w' = trace toolbox_loaded ++ [ECleanLogs (VStr "logs")].
Proof.
  apply (missing_script_name_is_rejected remove_below toolbox_module None
           toolbox_loaded (default_config_display "logs" 0) (VStr "logs")
           (mk_fs {[WORKING_DIR; "logs"]} ∅)).
  - reflexivity.
  - reflexivity.
  - reflexivity.
  - vm_compute. reflexivity.
  - left. reflexivity.
Defined.

(** C2 as stated fails: the call below ends with the [ValueError] for a
    missing ['script_name'], and a directory that existed when the call
    started is gone by the time the error is raised. *)
Lemma missing_script_name_after_cleanup :
  (setup_logger remove_below toolbox_module None toolbox_loaded).1
    = inl (ValueError "必须提供script_name") ∧
  "logs/old" ∈ dirs (fs toolbox_loaded) ∧
  "logs/old" ∉ dirs (fs (setup_logger remove_below toolbox_module None
                           toolbox_loaded).2).
Proof.
  split; [reflexivity|].
  split; apply (bool_decide_unpack _); vm_compute; exact I.
Qed.

(** ** Importing the module (lines 16-58) *)

Lemma load_defaults_ok df w :
  ∃ w', load_defaults df w = (inr (mk_module (S (next_loc w))), w') ∧
        trace w' = trace w ∧
        environ w' = match df with
                     | Some b => dotenv_merge b (environ w)
                     | None => environ w
                     end ∧
        heap w' !! S (next_loc w)
        = Some (default_config_display
                  (default "logs" (environ w' !! "LOG_PATH")) (next_loc w)) ∧
        next_loc w' = S (S (next_loc w)).
Proof.
  destruct df as [b|]; eexists; (split; [reflexivity|]); simpl;
    rewrite lookup_insert_eq; done.
Qed.

Lemma switch_working_dir_eq w :
  switch_working_dir w =
  if bool_decide (cwd w ≠ WORKING_DIR) then
    if bool_decide (WORKING_DIR ∈ dirs (fs w)) then
      (inr tt,
       emit (EPrint ("已切换到工作目录：" +:+ WORKING_DIR))
         (set_cwd (abspath (cwd w) WORKING_DIR)
              (emit (EChdir WORKING_DIR) w)))
    else
      (inl (SystemExit exit_message),
       emit (EPrint ("目录切换失败：" +:+ WORKING_DIR))
         (emit (EChdir WORKING_DIR) w))
  else (inr tt, w).
Proof.
  unfold switch_working_dir, getcwd, mbind, M_bind. cbv beta iota.
  destruct (bool_decide (cwd w ≠ WORKING_DIR)); [|reflexivity].
  unfold try_except, chdir, mbind, M_bind.
  destruct (bool_decide (WORKING_DIR ∈ dirs (fs w))); reflexivity.
Qed.

(** C10: when the process is not already in [WORKING_DIR], importing the
    module first tries to move there; when that directory does not exist
    the import ends with [SystemExit], so that nothing the importer meant
    to do with the module afterwards ([setup_logger] included) is run.
    The process is taken to run in a directory that exists. *)
Theorem import_needs_working_dir df w :
  cwd w ∈ dirs (fs w) ->
  (cwd w ≠ WORKING_DIR ->
   ∃ r w' evs, import_module df w = (r, w') ∧
               trace w' = trace w ++ EChdir WORKING_DIR :: evs) ∧
  (WORKING_DIR ∉ dirs (fs w) ->
   ∀ (A : Type) (k : module_state -> M A),
     ∃ w', (import_module df ≫= k) w = (inl (SystemExit exit_message), w') ∧
           trace w' = trace w ++ [EChdir WORKING_DIR;
                                  EPrint ("目录切换失败：" +:+ WORKING_DIR)] ∧
           cwd w' = cwd w ∧ heap w' = heap w ∧ handlers w' = handlers w).
Proof.
  intros Hin. split.
  - intros Hcwd. unfold import_module, mbind at 1, M_bind.
    rewrite switch_working_dir_eq, (bool_decide_eq_true_2 _ Hcwd).
    destruct (bool_decide (WORKING_DIR ∈ dirs (fs w))).
    + destruct (load_defaults_ok df
        (emit (EPrint ("已切换到工作目录：" +:+ WORKING_DIR))
           (set_cwd (abspath (cwd w) WORKING_DIR)
              (emit (EChdir WORKING_DIR) w))))
        as (w' & -> & T & _).
      do 3 eexists. split; [reflexivity|]. rewrite T. simpl.
      rewrite <- app_assoc. reflexivity.
    + do 3 eexists. split; [reflexivity|]. simpl.
      rewrite <- app_assoc. reflexivity.
  - intros Hno A k.
    assert (Hcwd : cwd w ≠ WORKING_DIR) by (intros E; by rewrite E in Hin).
    eexists. split.
    + apply bind_fail. unfold import_module. apply bind_fail.
      rewrite switch_working_dir_eq, (bool_decide_eq_true_2 _ Hcwd),
        (bool_decide_eq_false_2 _ Hno). reflexivity.
    + simpl. rewrite <- app_assoc. done.
Qed.

Lemma import_needs_working_dir_witness :
  ∃ w', (import_module None ≫=
           fun m => setup_logger keep_all m (Some svc_config)) foreign_process
        = (inl (SystemExit exit_message), w') ∧
        trace w' = trace foreign_process
                   ++ [EChdir WORKING_DIR;
                       EPrint ("目录切换失败：" +:+ WORKING_DIR)] ∧
        cwd w' = cwd foreign_process ∧ heap w' = heap foreign_process ∧
        handlers w' = handlers foreign_process.
Proof.
  refine (proj2 (import_needs_working_dir None foreign_process _) _ _ _).
  - apply (bool_decide_unpack _). vm_compute. exact I.
  - apply (bool_decide_unpack _). vm_compute. exact I.
Defined.

(** ** What a successful step tells *)

Lemma ret_ok {A} (a b : A) w w' :
  (mret a : M A) w = (inr b, w') -> b = a ∧ w' = w.
Proof. unfold mret, M_ret. by intros [= <- <-]. Qed.

Lemma load_ok l w d w' :
  load l w = (inr d, w') -> w' = w ∧ heap w !! l = Some d.
Proof. unfold load. destruct (heap w !! l); by intros [= <- <-]. Qed.

Lemma subscript_ok l k w v w' :
  subscript l k w = (inr v, w') ->
  w' = w ∧ ∃ d, heap w !! l = Some d ∧ dict_get k d = Some v.
Proof.
  intros H. apply bind_ok in H as (d & w1 & E & H).
  apply load_ok in E as (-> & Hd). unfold getitem in H.
  destruct (dict_get k d) as [v'|] eqn:Hk; [|discriminate].
  apply ret_ok in H as (-> & ->). eauto.
Qed.

Lemma as_str_ok what v w s w' :
  as_str what v w = (inr s, w') -> w' = w ∧ v = VStr s.
Proof. destruct v; try discriminate. simpl. intros H. by apply ret_ok in H as (-> & ->). Qed.

Lemma datetime_now_ok w t w' :
  datetime_now w = (inr t, w') -> t = now w ∧ w' = w.
Proof. by intros [= <- <-]. Qed.

Lemma makedirs_ok p w u w' :
  makedirs p w = (inr u, w') ->
  ∃ f', makedirs_fs p (fs w) = Some f' ∧
        w' = set_fs f' (emit (EMakedirs p) w).
Proof.
  unfold makedirs. destruct (makedirs_fs p (fs w)) as [f'|]; [|discriminate].
  intros [= _ <-]. eauto.
Qed.

Lemma checkLevel_ok v w z w' : checkLevel v w = (inr z, w') -> w' = w.
Proof. apply checkLevel_same. Qed.

Lemma FileHandler_ok p enc w h w' :
  FileHandler p enc w = (inr h, w') ->
  ∃ f', open_append_fs p (fs w) = Some f' ∧
        h = mk_handler (next_hid w) (FileStream p enc) 0 VNone ∧
        w' = set_next_hid (S (next_hid w))
               (set_fs f' (emit (EOpenAppend p) w)).
Proof.
  assert (Hgen : (open_append p;; i ← new_handler_id;
                  mret (mk_handler i (FileStream p enc) 0 VNone)) w
                 = (inr h, w') ->
          ∃ f', open_append_fs p (fs w) = Some f' ∧
                h = mk_handler (next_hid w) (FileStream p enc) 0 VNone ∧
                w' = set_next_hid (S (next_hid w))
                       (set_fs f' (emit (EOpenAppend p) w))).
  { unfold mbind, M_bind, open_append, new_handler_id, mret, M_ret.
    destruct (open_append_fs p (fs w)) as [f'|]; [|discriminate].
    intros [= <- <-]. eauto. }
  destruct enc; try discriminate; exact Hgen.
Qed.

Lemma StreamHandler_ok w h w' :
  StreamHandler w = (inr h, w') ->
  h = mk_handler (next_hid w) ConsoleStream 0 VNone ∧
  w' = set_next_hid (S (next_hid w)) w.
Proof. by intros [= <- <-]. Qed.

Lemma handler_setLevel_ok h v w h' w' :
  handler_setLevel h v w = (inr h', w') ->
  w' = w ∧ ∃ z, h' = mk_handler (h_id h) (h_stream h) z (h_formatter h).
Proof.
  intros H. apply bind_ok in H as (z & w1 & E & H).
  apply checkLevel_ok in E as ->. apply ret_ok in H as (-> & ->). eauto.
Qed.

Lemma addHandler_ok h w u w' :
  addHandler h w = (inr u, w') ->
  h ∉ handlers w ->
  w' = set_handlers (handlers w ++ [h]) (emit (EAddHandler h) w).
Proof.
  unfold addHandler. intros H Hn.
  rewrite (bool_decide_eq_false_2 _ Hn) in H. by injection H as <-.
Qed.

Lemma truthy_ok v w b w' : truthy v w = (inr b, w') -> w' = w.
Proof. apply truthy_same. Qed.

Lemma alloc_ok d w l w' :
  alloc d w = (inr l, w') ->
  l = next_loc w ∧
  w' = set_heap (<[next_loc w := d]> (heap w)) (S (next_loc w)) w.
Proof. by intros [= <- <-]. Qed.

Lemma attached_app evs evs' :
  attached (evs ++ evs') = attached evs ++ attached evs'.
Proof. induction evs as [|[] evs IH]; simpl; by rewrite ?IH. Qed.

#[global] Instance levels_only_preorder : PreOrder levels_only.
Proof.
  split.
  - intros w. repeat split. exists []. by rewrite app_nil_r.
  - intros a b c (E1 & C1 & F1 & D1 & H1 & N1 & S1 & I1 & e1 & T1 & A1 & K1)
                 (E2 & C2 & F2 & D2 & H2 & N2 & S2 & I2 & e2 & T2 & A2 & K2).
    repeat split; try congruence.
    exists (e1 ++ e2).
    by rewrite T2, T1, app_assoc, cleaner_calls_app, attached_app, K1, K2, A1, A2.
Qed.

Lemma keeps_levels_only_setLevel lg v : keeps levels_only (setLevel lg v).
Proof.
  intros w r w' H. unfold setLevel, mbind, M_bind in H.
  destruct (checkLevel v w) as [[e|z] w1] eqn:E;
    apply checkLevel_same in E; subst w1.
  - injection H as _ <-. reflexivity.
  - unfold assign_level in H.
    destruct lg; injection H as _ <-; repeat split;
      by eexists [_].
Qed.

Lemma keeps_levels_only_set_logger_levels items :
  keeps levels_only (set_logger_levels items).
Proof.
  induction items as [|[name level] items IH]; simpl.
  - apply (keeps_ret levels_only).
  - apply (keeps_bind levels_only);
      [apply keeps_levels_only_setLevel|intros _; exact IH].
Qed.

(** ** A successful run of lines 94-137 *)

Ltac next_step H a w1 E :=
  apply bind_ok in H as (a & w1 & E & H); cbv beta zeta in H.

(** Reads the fields of a world built by the setters. *)
Ltac fields :=
  cbn [environ cwd fs now heap next_loc root_level handlers levels next_hid
       trace set_environ set_cwd set_fs set_now set_heap set_root_level
       set_handlers set_levels set_next_hid emit
       h_id h_stream h_level h_formatter handler_setFormatter] in *.

(** One [cfg[k]] of the run: the dictionary read is the one at [Hd]. *)
Ltac read_step H Hd v Hk :=
  let w1 := fresh "w" in
  let E := fresh "E" in
  let d' := fresh "d" in
  let Hd' := fresh "Hd" in
  next_step H v w1 E;
  apply subscript_ok in E as (-> & d' & Hd' & Hk);
  fields; rewrite Hd in Hd'; injection Hd' as <-.

Ltac str_step H s :=
  let w1 := fresh "w" in
  let E := fresh "E" in
  next_step H s w1 E; apply as_str_ok in E as (-> & E);
  first [injection E as <- | subst].

Lemma items_ok v w (items : list (string * pyval)) w' :
  match v with
  | VRef l => load l
  | _ => raise (AttributeError "items")
  end w = (inr items, w') ->
  w' = w ∧ ∃ l, v = VRef l ∧ heap w !! l = Some items.
Proof.
  destruct v; try discriminate. intros E.
  apply load_ok in E as (-> & Hl). eauto.
Qed.

(** The levels of named loggers leave the root logger alone. *)
Lemma set_logger_levels_root items w r w' :
  set_logger_levels items w = (r, w') ->
  Forall (fun kv => getLogger kv.1 ≠ RootLogger) items ->
  root_level w' = root_level w.
Proof.
  revert w. induction items as [|[name level] items IH]; intros w H Hall.
  - simpl in H. unfold mret, M_ret in H. by injection H as _ <-.
  - apply Forall_cons in Hall as (Hname & Hall). simpl in H, Hname.
    unfold setLevel, mbind, M_bind in H.
    destruct (checkLevel level w) as [[e|z] w1] eqn:E;
      apply checkLevel_same in E; subst w1.
    + by injection H as _ <-.
    + unfold assign_level in H. destruct (getLogger name); [done|].
      by rewrite (IH _ H Hall).
Qed.

Lemma attach_sinks_ok cfg w lg info w' :
  handlers w = [] ->
  attach_sinks cfg w = (inr (lg, info), w') ->
  lg = RootLogger ∧ ∃ r, sinks_attached cfg w info w' r.
Proof.
  intros Hh H. unfold attach_sinks in H.
  next_step H v_lp w1 E. apply subscript_ok in E as (-> & d & Hd & Hlp).
  str_step H lp.
  next_step H u1 w1 E. apply makedirs_ok in E as (f1 & Hf1 & ->).
  next_step H t w2 E. apply datetime_now_ok in E as (-> & ->). fields.
  read_step H Hd v_sn Hsn.
  read_step H Hd v_df Hdf. str_step H df.
  read_step H Hd v_tf Htf. str_step H tf.
  str_step H lp'. str_step H name.
  next_step H u2 w1 E. apply makedirs_ok in E as (f2 & Hf2 & ->). fields.
  read_step H Hd v_ff Hff. str_step H ff.
  read_step H Hd enc Henc.
  next_step H fh w1 E. apply FileHandler_ok in E as (f3 & Hf3 & -> & ->). fields.
  read_step H Hd v_fl Hfl.
  next_step H fh' w1 E. apply handler_setLevel_ok in E as (-> & zf & ->).
  read_step H Hd fmt Hfmt.
  next_step H u3 w1 E. apply addHandler_ok in E as ->;
    [|fields; rewrite Hh; apply not_elem_of_nil].
  next_step H ch w1 E. apply StreamHandler_ok in E as (-> & ->). fields.
  read_step H Hd v_cl Hcl.
  next_step H ch' w1 E. apply handler_setLevel_ok in E as (-> & zc & ->).
  read_step H Hd v_en Hen.
  next_step H en w1 E. apply truthy_ok in E as ->.
  next_step H u4 w1 E. rewrite Hh in E. simpl app in E.
  assert (Hnew : mk_handler (S (next_hid w)) ConsoleStream zc fmt
                 ∉ [mk_handler (next_hid w)
                      (FileStream
                         (path_join
                            (path_join lp [name; strftime (now w) df;
                                           strftime (now w) tf])
                            [strftime (now w) ff +:+ ".log"]) enc) zf fmt]).
  { intros Hin. apply list_elem_of_singleton in Hin.
    apply (f_equal h_id) in Hin. simpl in Hin. lia. }
  destruct en;
    [apply addHandler_ok in E as ->; [|exact Hnew]
    |apply ret_ok in E as (_ & ->)];
    fields;
    (read_step H Hd v_dl Hdl;
     next_step H items w2 E2;
     apply items_ok in E2 as (-> & l & -> & Hitems);
     next_step H u5 w2 E3;
     pose proof (set_logger_levels_root _ _ _ _ E3) as Hroot;
     apply keeps_levels_only_set_logger_levels in E3
       as (Ee & Ec & Ef & En & Eh & El & Es & Ei & evs & Et & Ea & Ek);
     next_step H ci w3 E4; apply alloc_ok in E4 as (-> & ->);
     apply ret_ok in H as (H & ->); injection H as -> ->;
     (split; [reflexivity|]);
     eexists (mk_sinks_run d lp name df tf ff enc fmt zf zc _ f1 f2 f3
                items evs);
     unfold sinks_attached, config_info_of, sinks_of, file_sink, console_sink,
       log_file_of, log_dir_of;
     cbn [sr_config sr_log_path sr_script_name sr_date_format sr_time_format
          sr_file_format sr_encoding sr_formatter sr_file_level
          sr_console_level sr_console_enabled sr_fs_root sr_fs_dir sr_fs_file
          sr_disabled sr_level_events];
     fields; rewrite Eh, El, Ef, En, Ei, Ee, Es, Et; fields).
  - instantiate (1 := true). do 19 (split; [done|]).
    split; [rewrite <- !app_assoc; reflexivity|].
    do 2 (split; [done|]). split; [by exists l|exact Hroot].
  - instantiate (1 := false). do 19 (split; [done|]).
    split; [rewrite <- !app_assoc; reflexivity|].
    do 2 (split; [done|]). split; [by exists l|exact Hroot].
Qed.


(** ** A successful call of [setup_logger] *)

Lemma configure_logging_ok w root f0 merged lg info w' :
  configure_logging (next_loc w) (merged_world w root f0 merged)
    = (inr (lg, info), w') ->
  lg = RootLogger ∧
  ∃ r, sinks_attached (next_loc w) (reset_world w root f0 merged) info w' r.
Proof.
  intros H. unfold configure_logging in H.
  next_step H v w1 E. apply subscript_ok in E as (-> & _).
  next_step H given w1 E. apply truthy_ok in E as ->.
  destruct given; [|discriminate]. cbn [negb] in H.
  next_step H u1 w1 E. injection E as _ <-.
  next_step H u2 w1 E. injection E as _ <-.
  by apply attach_sinks_ok in H.
Qed.

Lemma setup_logger_ok clean_logs m config w lg info w' :
  setup_logger clean_logs m config w = (inr (lg, info), w') ->
  ∃ d0 root f0 r,
    config_supplies "log_path" config = false ∧
    heap w !! DEFAULT_CONFIG m = Some d0 ∧
    dict_get "log_path" d0 = Some root ∧
    clean_logs root (fs w) = (None, f0) ∧
    lg = RootLogger ∧
    sr_config r = merged_config d0 config ∧
    sinks_attached (next_loc w)
      (reset_world w root f0 (merged_config d0 config)) info w' r.
Proof.
  rewrite setup_logger_eq.
  destruct (config_supplies "log_path" config) eqn:Hs; [discriminate|].
  destruct (heap w !! DEFAULT_CONFIG m) as [d0|] eqn:Hd0; [|discriminate].
  destruct (dict_get "log_path" d0) as [root|] eqn:Hroot; [|discriminate].
  destruct (clean_logs root (fs w)) as [[e|] f0] eqn:Hclean; [discriminate|].
  intros H. apply configure_logging_ok in H as (-> & r & Hr).
  exists d0, root, f0, r.
  assert (Hm : sr_config r = merged_config d0 config).
  { destruct Hr as (Hc & _). unfold reset_world, merged_world in Hc.
    fields. rewrite lookup_insert_eq in Hc. by injection Hc. }
  do 6 (split; [done|]). exact Hr.
Qed.

(** ** Paths *)

Lemma string_app_assoc (a b c : string) : (a +:+ b) +:+ c = a +:+ (b +:+ c).
Proof.
  induction a as [|x a IH]; [reflexivity|].
  change (String x ((a +:+ b) +:+ c) = String x (a +:+ (b +:+ c))).
  by rewrite IH.
Qed.

Lemma string_app_nonempty (a b : string) : b ≠ "" -> a +:+ b ≠ "".
Proof.
  intros Hb. destruct a as [|x a]; [done|].
  change (String x (a +:+ b) ≠ ""). discriminate.
Qed.

Lemma endswith_sep_app (a b : string) :
  b ≠ "" -> endswith_sep (a +:+ b) = endswith_sep b.
Proof.
  intros Hb. induction a as [|x a IH]; [reflexivity|].
  change (endswith_sep (String x (a +:+ b)) = endswith_sep b).
  simpl. destruct (a +:+ b) eqn:E; [|exact IH].
  by apply (string_app_nonempty a) in Hb.
Qed.

Lemma eqb_empty_false (s : string) : s ≠ "" -> String.eqb s "" = false.
Proof. destruct s; [done|reflexivity]. Qed.

Lemma join_step_plain (p b : string) :
  p ≠ "" -> endswith_sep p = false -> startswith_sep b = false ->
  join_step p b = p +:+ "/" +:+ b.
Proof.
  intros Hp He Hb. unfold join_step.
  by rewrite Hb, (eqb_empty_false _ Hp), He.
Qed.

(** The layout of the example: a root that is not empty and does not end
    with the separator gets the segments appended one by one. *)
Lemma path_join_example (p : string) :
  p ≠ "" -> endswith_sep p = false ->
  path_join p ["svc"; "20240305"; "14"] = p +:+ "/svc/20240305/14" ∧
  path_join (p +:+ "/svc/20240305/14") ["2207.log"]
  = p +:+ "/svc/20240305/14/2207.log".
Proof.
  intros Hp He. unfold path_join. simpl fold_left.
  rewrite (join_step_plain p "svc") by done.
  rewrite (join_step_plain (p +:+ "/" +:+ "svc") "20240305");
    [|by apply string_app_nonempty|by rewrite endswith_sep_app|done].
  rewrite (join_step_plain _ "14");
    [|by apply string_app_nonempty|by rewrite endswith_sep_app|done].
  rewrite (join_step_plain _ "2207.log");
    [|by apply string_app_nonempty|by rewrite endswith_sep_app|done].
  by rewrite !string_app_assoc.
Qed.

Lemma makedirs_fs_creates p f f' :
  makedirs_fs p f = Some f' ->
  (∀ s, s ∈ path_segments p -> s ∈ dirs f') ∧
  dirs f ⊆ dirs f' ∧ files f' = files f.
Proof.
  unfold makedirs_fs. destruct (String.eqb p ""); [discriminate|].
  destruct (existsb _ _); [discriminate|]. intros [= <-]. simpl.
  split; [|split; [|reflexivity]]; set_solver.
Qed.

(** ** The log directory and the log file (lines 94-109) *)

(** C3 (as amended): on a successful call [log_dir] is [log_path] joined
    with [script_name] and the current time rendered with [date_format]
    and with [time_format]; [log_file] is [log_dir] joined with the
    current time rendered with [file_format] followed by [.log].  They are
    the strings [os.path.join] gives, not made absolute.  The events of
    the call come in this order: cleaner, root level, handlers cleared,
    the two [makedirs], then the opening of the file; when the file is
    opened (on the file system the cleaner left, after the two
    [makedirs]) every directory on the way to [log_path] and to [log_dir]
    exists.  With ['svc'], the default formats and 2024-03-05 14:22:07,
    [log_dir] is [<log_path>/svc/20240305/14] and [log_file] is
    [<log_path>/svc/20240305/14/2207.log]. *)
Theorem log_paths_follow_layout clean_logs m config w lg info w' :
  setup_logger clean_logs m config w = (inr (lg, info), w') ->
  ∃ cfg merged log_path script_name date_format time_format file_format
    log_dir log_file root cleaned after_root before_open rest,
    heap w' !! cfg = Some merged ∧
    dict_get "log_path" merged = Some (VStr log_path) ∧
    dict_get "script_name" merged = Some (VStr script_name) ∧
    dict_get "date_format" merged = Some (VStr date_format) ∧
    dict_get "time_format" merged = Some (VStr time_format) ∧
    dict_get "file_format" merged = Some (VStr file_format) ∧
    log_dir = layout_log_dir log_path script_name date_format time_format
                (now w) ∧
    log_file = layout_log_file log_dir file_format (now w) ∧
    heap w' !! info = Some [("log_file", VStr log_file);
                            ("log_dir", VStr log_dir);
                            ("config", VRef cfg)] ∧
    trace w' = trace w ++ ECleanLogs root :: ESetLevel RootLogger DEBUG
                 :: EClearHandlers :: EMakedirs log_path
                 :: EMakedirs log_dir :: EOpenAppend log_file :: rest ∧
    clean_logs root (fs w) = (None, cleaned) ∧
    makedirs_fs log_path cleaned = Some after_root ∧
    makedirs_fs log_dir after_root = Some before_open ∧
    open_append_fs log_file before_open = Some (fs w') ∧
    (∀ s, s ∈ path_segments log_path -> s ∈ dirs before_open) ∧
    (∀ s, s ∈ path_segments log_dir -> s ∈ dirs before_open) ∧
    (script_name = "svc" -> date_format = "%Y%m%d" -> time_format = "%H" ->
     file_format = "%M%S" -> now w = example_time ->
     log_path ≠ "" -> endswith_sep log_path = false ->
     log_dir = log_path +:+ "/svc/20240305/14" ∧
     log_file = log_path +:+ "/svc/20240305/14/2207.log").
Proof.
  intros H.
  apply setup_logger_ok in H
    as (d0 & root & f0 & r & Hs & Hd0 & Hroot & Hclean & -> & Hm & Hr).
  destruct Hr as (Hc & Hlp & Hsn & Hdf & Htf & Hff & Henc & Hfmt & Hf1 & Hf2
                  & Hf3 & Hi & Hfs & Hheap & Hnl & Hnh & Hnow & Henv & Hh & Ht
                  & _).
  unfold reset_world, merged_world in *. fields.
  exists (next_loc w), (sr_config r), (sr_log_path r), (sr_script_name r),
    (sr_date_format r), (sr_time_format r), (sr_file_format r),
    (log_dir_of r (now w)), (log_file_of r (now w)), root, f0,
    (sr_fs_root r), (sr_fs_dir r).
  eexists.
  split. { rewrite Hheap, lookup_insert_ne by lia. by rewrite Hm, lookup_insert_eq. }
  do 5 (split; [done|]).
  split; [reflexivity|]. split; [reflexivity|].
  split. { subst info. rewrite Hheap, lookup_insert_eq. reflexivity. }
  split. { rewrite Ht, <- !app_assoc. simpl. reflexivity. }
  split; [exact Hclean|]. split; [exact Hf1|]. split; [exact Hf2|].
  split. { by rewrite Hfs. }
  apply makedirs_fs_creates in Hf1 as (S1 & _).
  apply makedirs_fs_creates in Hf2 as (S2 & D2 & _).
  split. { intros s Hin. apply D2, S1, Hin. }
  split; [exact S2|].
  intros Hname Hdate Htime Hfile Hclock Hne Hend.
  unfold log_file_of, log_dir_of. rewrite Hname, Hdate, Htime, Hfile, Hclock.
  change (strftime example_time "%Y%m%d") with "20240305".
  change (strftime example_time "%H") with "14".
  change (strftime example_time "%M%S" +:+ ".log") with "2207.log".
  destruct (path_join_example (sr_log_path r) Hne Hend) as (E1 & E2).
  by rewrite E1, E2.
Qed.

Lemma svc_run_ok : svc_run = (inr (RootLogger, 3%nat), svc_run.2).
Proof. vm_compute. reflexivity. Qed.

Lemma svc_run_info :
  heap svc_run.2 !! 3%nat
  = Some [("log_file", VStr "logs/svc/20240305/14/2207.log");
          ("log_dir", VStr "logs/svc/20240305/14");
          ("config", VRef 2)].
Proof. vm_compute. reflexivity. Qed.

Lemma svc_run_config :
  heap svc_run.2 !! 2%nat
  = Some (dict_update (default_config_display "logs" 0) svc_config).
Proof. vm_compute. reflexivity. Qed.

Lemma log_paths_follow_layout_witness :
  ∃ cfg log_dir log_file root rest,
    heap svc_run.2 !! 3%nat = Some [("log_file", VStr log_file);
                                    ("log_dir", VStr log_dir);
                                    ("config", VRef cfg)] ∧
    trace svc_run.2
    = trace toolbox_loaded
        ++ ECleanLogs root :: ESetLevel RootLogger DEBUG
        :: EClearHandlers :: EMakedirs "logs"
        :: EMakedirs log_dir :: EOpenAppend log_file :: rest.
Proof.
  destruct (log_paths_follow_layout keep_all toolbox_module (Some svc_config)
              toolbox_loaded RootLogger 3%nat svc_run.2 svc_run_ok)
    as (cfg & merged & lp & name & df & tf & ff & ld & lf & root & f0 & f1
        & f2 & rest
        & Hc & Hlp & _ & _ & _ & _ & _ & _ & Hinfo & Htrace & _).
  exists cfg, ld, lf, root, rest. split; [exact Hinfo|].
  assert (Hcfg : cfg = 2%nat).
  { rewrite svc_run_info in Hinfo. by injection Hinfo. }
  subst cfg.
  assert (Hp : lp = "logs").
  { rewrite svc_run_config in Hc. injection Hc as <-. by injection Hlp. }
  subst lp. exact Htrace.
Defined.

(** C3 as stated fails on "both are absolute path strings": with the
    default root both strings are relative. *)
Lemma default_log_paths_are_relative :
  svc_run.1 = inr (RootLogger, 3%nat) ∧
  heap svc_run.2 !! 3%nat
  = Some [("log_file", VStr "logs/svc/20240305/14/2207.log");
          ("log_dir", VStr "logs/svc/20240305/14");
          ("config", VRef 2)] ∧
  isabs "logs/svc/20240305/14" = false ∧
  isabs "logs/svc/20240305/14/2207.log" = false.
Proof.
  split; [by rewrite svc_run_ok|]. split; [exact svc_run_info|done].
Qed.

(** ** The merged configuration (lines 78-81) *)

Lemma default_config_keys log_path dl k :
  is_Some (dict_get k (default_config_display log_path dl))
  ↔ k ∈ recognized_options.
Proof.
  unfold default_config_display, recognized_options. simpl dict_get.
  repeat match goal with
    | |- context [String.eqb k ?s] =>
        destruct (String.eqb_spec k s) as [->|?];
          [split; [intros _; set_solver|intros _; by eexists]|]
    end.
  split; [intros [? [=]]|].
  intros Hin.
  repeat (apply elem_of_cons in Hin as [->|Hin]; [done|]).
  by apply elem_of_nil in Hin.
Qed.

(** C4 (as amended): on a successful call the configuration in the
    returned [config_info] maps every key to the caller's value when the
    caller supplied that key and to the default otherwise.  No key is
    dropped, and the keys present are the recognized options together
    with whatever other keys the caller supplied.  A ['disabled_loggers']
    supplied by the caller is stored as it is (the caller's object), never
    merged with the default mapping. *)
Theorem merged_config_overrides_defaults clean_logs m config w log_path0 dl
    lg info w' :
  dict_wf (default [] config) ->
  heap w !! DEFAULT_CONFIG m = Some (default_config_display log_path0 dl) ->
  setup_logger clean_logs m config w = (inr (lg, info), w') ->
  ∃ cfg merged log_file log_dir,
    heap w' !! info = Some [("log_file", log_file); ("log_dir", log_dir);
                            ("config", VRef cfg)] ∧
    heap w' !! cfg = Some merged ∧
    (∀ k, dict_get k merged =
          match dict_get k (default [] config) with
          | Some v => Some v
          | None => dict_get k (default_config_display log_path0 dl)
          end) ∧
    (∀ k, is_Some (dict_get k merged)
          ↔ k ∈ recognized_options ∨ is_Some (dict_get k (default [] config))) ∧
    (∀ v, dict_get "disabled_loggers" (default [] config) = Some v ->
          dict_get "disabled_loggers" merged = Some v).
Proof.
  intros Hwf Hdef H.
  apply setup_logger_ok in H
    as (d0 & root & f0 & r & Hs & Hd0 & Hroot & Hclean & -> & Hm & Hr).
  rewrite Hdef in Hd0. injection Hd0 as <-.
  destruct Hr as (_ & _ & _ & _ & _ & _ & _ & _ & _ & _ & _ & Hi & _ & Hheap
                  & _).
  unfold reset_world, merged_world in *. fields.
  assert (Hget : ∀ k, dict_get k (sr_config r) =
                      match dict_get k (default [] config) with
                      | Some v => Some v
                      | None => dict_get k (default_config_display log_path0 dl)
                      end).
  { intros k. rewrite Hm. unfold merged_config. by apply dict_get_update. }
  exists (next_loc w), (sr_config r), (VStr (log_file_of r (now w))),
    (VStr (log_dir_of r (now w))).
  split. { subst info. by rewrite Hheap, lookup_insert_eq. }
  split. { rewrite Hheap, lookup_insert_ne by lia. by rewrite Hm, lookup_insert_eq. }
  split; [exact Hget|]. split.
  - intros k. rewrite Hget, <- default_config_keys.
    destruct (dict_get k (default [] config)) as [v|]; split.
    + intros _. right. by eexists.
    + intros _. by eexists.
    + intros Hk. by left.
    + intros [Hk|[? [=]]]. exact Hk.
  - intros v Hv. by rewrite Hget, Hv.
Qed.

Lemma merged_config_overrides_defaults_witness :
  ∃ cfg merged log_file log_dir,
    heap svc_run.2 !! 3%nat
    = Some [("log_file", log_file); ("log_dir", log_dir);
            ("config", VRef cfg)] ∧
    heap svc_run.2 !! cfg = Some merged ∧
    (∀ k, dict_get k merged =
          match dict_get k svc_config with
          | Some v => Some v
          | None => dict_get k (default_config_display "logs" 0)
          end) ∧
    (∀ k, is_Some (dict_get k merged)
          ↔ k ∈ recognized_options ∨ is_Some (dict_get k svc_config)) ∧
    (∀ v, dict_get "disabled_loggers" svc_config = Some v ->
          dict_get "disabled_loggers" merged = Some v).
Proof.
  apply (merged_config_overrides_defaults keep_all toolbox_module
           (Some svc_config) toolbox_loaded "logs" 0%nat RootLogger 3%nat
           svc_run.2).
  - apply (bool_decide_unpack _). vm_compute. exact I.
  - vm_compute. reflexivity.
  - exact svc_run_ok.
Defined.

(** C4 as stated fails on "no keys present beyond the recognized
    options": a key the caller adds is carried into the merged
    configuration. *)
Lemma caller_keys_are_carried :
  tagged_run.1 = inr (RootLogger, 3%nat) ∧
  (∃ log_file log_dir merged,
     heap tagged_run.2 !! 3%nat
     = Some [("log_file", log_file); ("log_dir", log_dir);
             ("config", VRef 2)] ∧
     heap tagged_run.2 !! 2%nat = Some merged ∧
     dict_get "color" merged = Some (VBool true)) ∧
  "color" ∉ recognized_options.
Proof.
  split; [vm_compute; reflexivity|]. split.
  - do 3 eexists. split; [vm_compute; reflexivity|].
    split; [vm_compute; reflexivity|]. reflexivity.
  - apply (bool_decide_unpack _). vm_compute. exact I.
Qed.

(** ** The default root (line 35) *)

Lemma import_module_ok df w0 m w1 :
  import_module df w0 = (inr m, w1) ->
  ∃ dl,
    environ w1 = match df with
                 | Some b => dotenv_merge b (environ w0)
                 | None => environ w0
                 end ∧
    heap w1 !! DEFAULT_CONFIG m
    = Some (default_config_display
              (default "logs" (environ w1 !! "LOG_PATH")) dl) ∧
    (DEFAULT_CONFIG m < next_loc w1)%nat.
Proof.
  intros H. unfold import_module in H.
  apply bind_ok in H as (u & ws & E & H).
  assert (Henv : environ ws = environ w0 ∧ next_loc ws = next_loc w0).
  { rewrite switch_working_dir_eq in E.
    destruct (bool_decide (cwd w0 ≠ WORKING_DIR)); [|by injection E as _ <-].
    destruct (bool_decide (WORKING_DIR ∈ dirs (fs w0))); [|discriminate].
    by injection E as _ <-. }
  destruct Henv as (Henv & Hnl).
  destruct (load_defaults_ok df ws) as (w' & Hrun & _ & He & Hh & Hn).
  rewrite Hrun in H. injection H as <- <-.
  exists (next_loc ws). rewrite <- Henv. simpl. split; [exact He|].
  split; [exact Hh|lia].
Qed.

(** C8 (as amended): the default root is the value [LOG_PATH] had when
    the module was imported (after [.env] was loaded; ["logs"] when it
    was not set then).  It is kept in [DEFAULT_CONFIG], and a later call
    uses that stored value whatever the environment holds when the call
    is made. *)
Theorem default_log_path_is_read_at_import clean_logs df w0 m w1 config w
    lg info w' :
  import_module df w0 = (inr m, w1) ->
  heap w !! DEFAULT_CONFIG m = heap w1 !! DEFAULT_CONFIG m ->
  dict_get "log_path" (default [] config) = None ->
  setup_logger clean_logs m config w = (inr (lg, info), w') ->
  ∃ cfg merged log_file log_dir,
    heap w' !! info = Some [("log_file", log_file); ("log_dir", log_dir);
                            ("config", VRef cfg)] ∧
    heap w' !! cfg = Some merged ∧
    dict_get "log_path" merged
    = Some (VStr (default "logs" (environ w1 !! "LOG_PATH"))) ∧
    environ w1 = match df with
                 | Some b => dotenv_merge b (environ w0)
                 | None => environ w0
                 end.
Proof.
  intros Himp Hsame Homit H.
  apply import_module_ok in Himp as (dl & Henv & Hdef & _).
  rewrite <- Hsame in Hdef.
  apply setup_logger_ok in H
    as (d0 & root & f0 & r & Hs & Hd0 & Hroot & Hclean & -> & Hm & Hr).
  rewrite Hdef in Hd0. injection Hd0 as <-.
  destruct Hr as (_ & _ & _ & _ & _ & _ & _ & _ & _ & _ & _ & Hi & _ & Hheap
                  & _).
  unfold reset_world, merged_world in *. fields.
  exists (next_loc w), (sr_config r), (VStr (log_file_of r (now w))),
    (VStr (log_dir_of r (now w))).
  split. { subst info. by rewrite Hheap, lookup_insert_eq. }
  split. { rewrite Hheap, lookup_insert_ne by lia. by rewrite Hm, lookup_insert_eq. }
  split; [|exact Henv].
  rewrite Hm, (merged_config_omitted _ _ _ Hs). reflexivity.
Qed.

Lemma default_log_path_is_read_at_import_witness :
  ∃ cfg merged log_file log_dir,
    heap late_run.2 !! 3%nat
    = Some [("log_file", log_file); ("log_dir", log_dir);
            ("config", VRef cfg)] ∧
    heap late_run.2 !! cfg = Some merged ∧
    dict_get "log_path" merged
    = Some (VStr (default "logs" (environ toolbox_loaded !! "LOG_PATH"))) ∧
    environ toolbox_loaded = environ toolbox_process.
Proof.
  apply (default_log_path_is_read_at_import keep_all None toolbox_process
           toolbox_module toolbox_loaded (Some svc_config) late_world
           RootLogger 3%nat late_run.2).
  - reflexivity.
  - reflexivity.
  - reflexivity.
  - vm_compute. reflexivity.
Defined.

(** C8 as stated fails: [LOG_PATH] is [/var/log/app] when the call is
    made, and the merged root is still the ["logs"] of import time. *)
Lemma default_log_path_is_cached :
  import_module None toolbox_process = (inr toolbox_module, toolbox_loaded) ∧
  environ late_world !! "LOG_PATH" = Some "/var/log/app" ∧
  late_run.1 = inr (RootLogger, 3%nat) ∧
  ∃ log_file log_dir merged,
    heap late_run.2 !! 3%nat
    = Some [("log_file", log_file); ("log_dir", log_dir);
            ("config", VRef 2)] ∧
    heap late_run.2 !! 2%nat = Some merged ∧
    dict_get "log_path" merged = Some (VStr "logs").
Proof.
  split; [reflexivity|]. split; [vm_compute; reflexivity|].
  split; [vm_compute; reflexivity|].
  do 3 eexists. split; [vm_compute; reflexivity|].
  split; [vm_compute; reflexivity|]. reflexivity.
Qed.

(** ** The sinks of the root logger (lines 87-124) *)

Lemma attached_map_add hs : attached (map EAddHandler hs) = hs.
Proof. induction hs as [|h hs IH]; simpl; by rewrite ?IH. Qed.

(** One successful call: the handlers of the root logger are exactly the
    ones the call attached, each made during the call. *)
Lemma setup_logger_sinks clean_logs m config w lg info w' :
  setup_logger clean_logs m config w = (inr (lg, info), w') ->
  ∃ evs,
    trace w' = trace w ++ evs ∧
    handlers w' = attached evs ∧
    NoDup (handlers w') ∧
    (∀ h, h ∈ handlers w' -> (next_hid w <= h_id h < next_hid w')%nat) ∧
    (next_hid w <= next_hid w')%nat ∧
    ∃ root rest,
      evs = ECleanLogs root :: ESetLevel RootLogger DEBUG
            :: EClearHandlers :: rest.
Proof.
  intros H.
  apply setup_logger_ok in H
    as (d0 & root & f0 & r & Hs & Hd0 & Hroot & Hclean & -> & Hm & Hr).
  destruct Hr as (_ & _ & _ & _ & _ & _ & _ & _ & _ & _ & _ & _ & _ & _ & _
                  & Hnh & _ & _ & Hh & Ht & Ha & _).
  unfold reset_world, merged_world in *. fields.
  set (W := set_handlers [] _) in *.
  assert (HW : next_hid W = next_hid w) by reflexivity.
  eexists. split; [rewrite Ht, <- !app_assoc; reflexivity|].
  split.
  { rewrite Hh. simpl. rewrite attached_app, attached_map_add, Ha.
    by rewrite app_nil_r. }
  assert (Hids : ∀ h, h ∈ sinks_of r W ->
                      (next_hid w <= h_id h < S (S (next_hid w)))%nat).
  { intros h. unfold sinks_of, file_sink, console_sink. rewrite HW.
    destruct (sr_console_enabled r).
    - intros [->|Hin]%elem_of_cons; [simpl; lia|].
      apply list_elem_of_singleton in Hin as ->. simpl. lia.
    - intros ->%list_elem_of_singleton. simpl. lia. }
  split.
  { rewrite Hh. unfold sinks_of, file_sink, console_sink.
    destruct (sr_console_enabled r); [|apply NoDup_singleton].
    apply NoDup_cons. split; [|apply NoDup_singleton].
    intros Hin%list_elem_of_singleton. apply (f_equal h_id) in Hin.
    simpl in Hin. lia. }
  split. { rewrite Hh, Hnh. exact Hids. }
  split; [lia|]. by do 2 eexists.
Qed.

(** When the call returns, the root logger is still at [DEBUG] unless
    the merged ['disabled_loggers'] names the root logger itself (the
    empty name or ["root"]), in which case line 128 has set its level
    again. *)
Lemma root_level_after_call clean_logs m config w lg info w' :
  setup_logger clean_logs m config w = (inr (lg, info), w') ->
  ∃ cfg merged l items,
    heap w' !! cfg = Some merged ∧
    dict_get "disabled_loggers" merged = Some (VRef l) ∧
    (l ≠ info -> heap w' !! l = Some items) ∧
    (Forall (fun kv => getLogger kv.1 ≠ RootLogger) items ->
     root_level w' = DEBUG).
Proof.
  intros H.
  apply setup_logger_ok in H
    as (d0 & root & f0 & r & Hs & Hd0 & Hroot & Hclean & -> & Hm & Hr).
  destruct Hr as (_ & _ & _ & _ & _ & _ & _ & _ & _ & _ & _ & Hi & _ & Hheap
                  & _ & _ & _ & _ & _ & _ & _ & _ & (l & Hdl & Hl) & Hlevel).
  unfold reset_world, merged_world in *. fields.
  exists (next_loc w), (sr_config r), l, (sr_disabled r).
  split. { rewrite Hheap, lookup_insert_ne by lia. by rewrite Hm, lookup_insert_eq. }
  split; [exact Hdl|]. split; [|exact Hlevel].
  intros Hne. rewrite Hheap, lookup_insert_ne by (subst info; done). exact Hl.
Qed.

Lemma setup_logger_root_level clean_logs m config w lg info w' :
  setup_logger clean_logs m config w = (inr (lg, info), w') ->
  root_left_at_debug w info w'.
Proof.
  intros H.
  apply setup_logger_ok in H
    as (d0 & root & f0 & r & Hs & Hd0 & Hroot & Hclean & -> & Hm & Hr).
  destruct Hr as (_ & _ & _ & _ & _ & _ & _ & _ & _ & _ & _ & Hi & _ & Hheap
                  & _ & _ & _ & _ & _ & _ & _ & _ & (l & Hdl & Hl) & Hlevel).
  unfold reset_world, merged_world in *. fields.
  exists (next_loc w), (sr_config r), (VStr (log_file_of r (now w))),
    (VStr (log_dir_of r (now w))), l, (sr_disabled r).
  split. { subst info. by rewrite Hheap, lookup_insert_eq. }
  split. { rewrite Hheap, lookup_insert_ne by lia. by rewrite Hm, lookup_insert_eq. }
  split; [exact Hdl|]. split; [by rewrite Hm|]. exact Hlevel.
Qed.

(** C5 (the code departs from it).  When the second call returns, the
    handlers of the root logger are exactly the ones it attached, each of
    them once, and none of the handlers of the first call is left; each
    call has set the root logger to [DEBUG], right after the cleaner and
    before it clears the handlers, and the root logger is at [DEBUG] when
    the call returns unless its own ['disabled_loggers'] name the root
    logger.  Between the calls the process may do anything; handler
    identities are not reused.  But a second configuration that supplies
    ['log_path'] is stopped on line 76 by [UnboundLocalError], before
    line 92: nothing is replaced, and the sinks of the first call, the
    file sink at least, stay on the root logger. *)
Theorem second_call_replaces_sinks clean_logs m c1 w0 r1 w1 w1' :
  setup_logger clean_logs m c1 w0 = (inr r1, w1) ->
  (next_hid w1 <= next_hid w1')%nat ->
  (∀ c2 r2 w2,
     setup_logger clean_logs m c2 w1' = (inr r2, w2) ->
     ∃ evs1 evs2,
       trace w1 = trace w0 ++ evs1 ∧
       trace w2 = trace w1' ++ evs2 ∧
       handlers w1 = attached evs1 ∧
       handlers w2 = attached evs2 ∧
       NoDup (handlers w2) ∧
       (∀ h, h ∈ handlers w1 -> h ∉ handlers w2) ∧
       (∃ root rest, evs1 = ECleanLogs root :: ESetLevel RootLogger DEBUG
                            :: EClearHandlers :: rest) ∧
       (∃ root rest, evs2 = ECleanLogs root :: ESetLevel RootLogger DEBUG
                            :: EClearHandlers :: rest) ∧
       root_left_at_debug w0 r1.2 w1 ∧
       root_left_at_debug w1' r2.2 w2) ∧
  (∀ cfg2 v,
     dict_get "log_path" cfg2 = Some v ->
     setup_logger clean_logs m (Some cfg2) w1'
       = (inl (UnboundLocalError "cfg"), w1') ∧
     ∃ file_sink others, handlers w1 = file_sink :: others).
Proof.
  intros H1 Hn. destruct r1 as [lg1 i1]. split.
  - intros c2 [lg2 i2] w2 H2.
    pose proof (setup_logger_root_level _ _ _ _ _ _ _ H1) as R1.
    pose proof (setup_logger_root_level _ _ _ _ _ _ _ H2) as R2.
    apply setup_logger_sinks in H1 as (evs1 & T1 & A1 & _ & I1 & _ & L1).
    apply setup_logger_sinks in H2 as (evs2 & T2 & A2 & N2 & I2 & _ & L2).
    exists evs1, evs2. do 5 (split; [done|]).
    split; [|by do 3 (split; [done|])].
    intros h Hin1 Hin2. apply I1 in Hin1. apply I2 in Hin2. lia.
  - intros cfg2 v Hv. split.
    + rewrite setup_logger_eq. by rewrite (config_supplies_true _ _ _ Hv).
    + apply setup_logger_ok in H1
        as (d0 & root & f0 & r & _ & _ & _ & _ & _ & _ & Hr).
      destruct Hr as (_ & _ & _ & _ & _ & _ & _ & _ & _ & _ & _ & _ & _ & _
                      & _ & _ & _ & _ & Hh & _).
      rewrite Hh. unfold sinks_of. by eexists _, _.
Qed.

(** After a first call, a second call that names the log root stops with
    the two sinks of the first call still attached; one that leaves it
    out replaces them and leaves the root logger at [DEBUG]. *)
Lemma second_call_replaces_sinks_witness :
  (setup_logger keep_all toolbox_module (Some rooted_config) svc_run.2
   = (inl (UnboundLocalError "cfg"), svc_run.2) ∧
   ∃ file_sink others, handlers svc_run.2 = file_sink :: others) ∧
  (∀ h, h ∈ handlers svc_run.2 -> h ∉ handlers second_run.2) ∧
  root_level second_run.2 = DEBUG.
Proof.
  destruct (second_call_replaces_sinks keep_all toolbox_module
              (Some svc_config) toolbox_loaded (RootLogger, 3%nat) svc_run.2
              svc_run.2 svc_run_ok) as (_ & Hstop); [lia|].
  destruct (second_call_replaces_sinks keep_all toolbox_module
              (Some svc_config) toolbox_loaded (RootLogger, 3%nat) svc_run.2
              (set_now later_time svc_run.2) svc_run_ok) as (Hnext & _);
    [vm_compute; lia|].
  split; [exact (Hstop rooted_config (VStr "mylogs") eq_refl)|].
  destruct (Hnext (Some [("script_name", VStr "svc")]) (RootLogger, 5%nat)
              second_run.2)
    as (evs1 & evs2 & _ & _ & _ & _ & _ & Hgone & _ & _ & _ & Hlevel).
  { vm_compute. reflexivity. }
  split; [exact Hgone|]. vm_compute. reflexivity.
Defined.

(** ** The returned dictionary and the defaults (lines 79, 131-137) *)

(** A call, whatever its outcome, changes no object that existed before
    it: what it writes, it writes to objects it has just made. *)
Lemma setup_logger_frame clean_logs m config w r w' :
  setup_logger clean_logs m config w = (r, w') ->
  (next_loc w <= next_loc w')%nat ∧
  ∀ l, (l < next_loc w)%nat -> heap w' !! l = heap w !! l.
Proof.
  rewrite setup_logger_eq.
  destruct (config_supplies "log_path" config); [by intros [= _ <-]|].
  destruct (heap w !! DEFAULT_CONFIG m) as [d0|]; [|by intros [= _ <-]].
  destruct (dict_get "log_path" d0) as [root|]; [|by intros [= _ <-]].
  destruct (clean_logs root (fs w)) as [[e|] f0]; [by intros [= _ <-]|].
  intros H. apply keeps_quiet_configure_logging in H as (_ & Hn & Hh & _).
  unfold merged_world in *. fields. split; [lia|].
  intros l Hl. rewrite Hh by lia. apply lookup_insert_ne. lia.
Qed.

(** An item assignment changes the object it is made on and no other. *)
Lemma setitem_frame l k v w r w' :
  setitem l k v w = (r, w') ->
  ∀ l', l' ≠ l -> heap w' !! l' = heap w !! l'.
Proof.
  unfold setitem, mbind, M_bind, load, store.
  destruct (heap w !! l); intros [= _ <-] l' Hl; [|done].
  simpl. by apply lookup_insert_ne.
Qed.

(** C9 (as amended): the dictionary a successful call returns and the
    configuration in it are objects made by that call, distinct from
    [DEFAULT_CONFIG]; the call leaves [DEFAULT_CONFIG] as it was, and no
    later call changes any object that exists when it starts, so the
    returned [log_file], [log_dir] and [config] stay as they are.
    Assigning a key of the returned configuration does not change
    [DEFAULT_CONFIG], nor the other way round.  The configuration is a
    shallow copy: when the caller supplies no ['disabled_loggers'], its
    entry is the very value of the default's entry, a reference to the
    same mapping. *)
Theorem run_info_is_a_shallow_copy clean_logs m config w lg info w' :
  (DEFAULT_CONFIG m < next_loc w)%nat ->
  setup_logger clean_logs m config w = (inr (lg, info), w') ->
  ∃ cfg d0 merged log_file log_dir,
    heap w !! DEFAULT_CONFIG m = Some d0 ∧
    heap w' !! DEFAULT_CONFIG m = Some d0 ∧
    heap w' !! info = Some [("log_file", log_file); ("log_dir", log_dir);
                            ("config", VRef cfg)] ∧
    heap w' !! cfg = Some merged ∧
    cfg ≠ DEFAULT_CONFIG m ∧ info ≠ DEFAULT_CONFIG m ∧ info ≠ cfg ∧
    (cfg < next_loc w')%nat ∧ (info < next_loc w')%nat ∧
    (∀ later c2 r2 w2,
       (next_loc w' <= next_loc later)%nat ->
       setup_logger clean_logs m c2 later = (r2, w2) ->
       heap w2 !! info = heap later !! info ∧
       heap w2 !! cfg = heap later !! cfg ∧
       heap w2 !! DEFAULT_CONFIG m = heap later !! DEFAULT_CONFIG m) ∧
    (∀ k v u w2,
       setitem cfg k v w' = (inr u, w2) ->
       heap w2 !! DEFAULT_CONFIG m = heap w' !! DEFAULT_CONFIG m) ∧
    (∀ k v u w2,
       setitem (DEFAULT_CONFIG m) k v w' = (inr u, w2) ->
       heap w2 !! cfg = heap w' !! cfg ∧ heap w2 !! info = heap w' !! info) ∧
    (dict_get "disabled_loggers" (default [] config) = None ->
     dict_get "disabled_loggers" merged = dict_get "disabled_loggers" d0).
Proof.
  intros Hdc H.
  destruct (setup_logger_frame _ _ _ _ _ _ H) as (_ & Hframe).
  apply setup_logger_ok in H
    as (d0 & root & f0 & r & Hs & Hd0 & Hroot & Hclean & -> & Hm & Hr).
  destruct Hr as (_ & _ & _ & _ & _ & _ & _ & _ & _ & _ & _ & Hi & _ & Hheap
                  & Hnl & _).
  unfold reset_world, merged_world in *. fields.
  exists (next_loc w), d0, (sr_config r), (VStr (log_file_of r (now w))),
    (VStr (log_dir_of r (now w))).
  split; [exact Hd0|].
  split. { by rewrite Hframe. }
  split. { subst info. by rewrite Hheap, lookup_insert_eq. }
  split. { rewrite Hheap, lookup_insert_ne by lia. by rewrite Hm, lookup_insert_eq. }
  split; [lia|]. split; [lia|]. split; [lia|]. split; [lia|]. split; [lia|].
  split.
  - intros later c2 r2 w2 Hle H2.
    destruct (setup_logger_frame _ _ _ _ _ _ H2) as (_ & F2).
    repeat split; apply F2; lia.
  - split; [|split].
    + intros k v u w2 Hset. apply (setitem_frame _ _ _ _ _ _ Hset). lia.
    + intros k v u w2 Hset.
      split; apply (setitem_frame _ _ _ _ _ _ Hset); lia.
    + intros Homit. rewrite Hm.
      apply merged_config_omitted. by apply config_omits.
Qed.

Lemma run_info_is_a_shallow_copy_witness :
  ∃ cfg d0 merged log_file log_dir,
    heap toolbox_loaded !! 1%nat = Some d0 ∧
    heap svc_run.2 !! 1%nat = Some d0 ∧
    heap svc_run.2 !! 3%nat
    = Some [("log_file", log_file); ("log_dir", log_dir);
            ("config", VRef cfg)] ∧
    heap svc_run.2 !! cfg = Some merged ∧
    cfg ≠ 1%nat ∧ 3%nat ≠ 1%nat ∧ 3%nat ≠ cfg ∧
    (cfg < next_loc svc_run.2)%nat ∧ (3 < next_loc svc_run.2)%nat ∧
    (∀ later c2 r2 w2,
       (next_loc svc_run.2 <= next_loc later)%nat ->
       setup_logger keep_all toolbox_module c2 later = (r2, w2) ->
       heap w2 !! 3%nat = heap later !! 3%nat ∧
       heap w2 !! cfg = heap later !! cfg ∧
       heap w2 !! 1%nat = heap later !! 1%nat) ∧
    (∀ k v u w2,
       setitem cfg k v svc_run.2 = (inr u, w2) ->
       heap w2 !! 1%nat = heap svc_run.2 !! 1%nat) ∧
    (∀ k v u w2,
       setitem 1%nat k v svc_run.2 = (inr u, w2) ->
       heap w2 !! cfg = heap svc_run.2 !! cfg ∧
       heap w2 !! 3%nat = heap svc_run.2 !! 3%nat) ∧
    (dict_get "disabled_loggers" svc_config = None ->
     dict_get "disabled_loggers" merged = dict_get "disabled_loggers" d0).
Proof.
  apply (run_info_is_a_shallow_copy keep_all toolbox_module (Some svc_config)
           toolbox_loaded RootLogger 3%nat svc_run.2).
  - vm_compute. lia.
  - exact svc_run_ok.
Defined.

(** C9 as stated fails on "shares no mutable state with the default
    configuration": after the call, an entry added to the default
    ['disabled_loggers'] mapping shows in the configuration the call
    returned. *)
Lemma default_mutation_reaches_run_info :
  svc_run.1 = inr (RootLogger, 3%nat) ∧
  (read_disabled_loggers 3 svc_run.2).1
  = inr [("PIL", VInt 30); ("urllib3", VInt 30); ("fsspec", VInt 30);
         ("requests", VInt 30); ("chardet", VInt 30); ("vipshome", VInt 30);
         ("pyvips", VInt 30)] ∧
  (set_default_disabled toolbox_module "noisy" ERROR svc_run.2).1 = inr tt ∧
  (read_disabled_loggers 3
     (set_default_disabled toolbox_module "noisy" ERROR svc_run.2).2).1
  = inr [("PIL", VInt 30); ("urllib3", VInt 30); ("fsspec", VInt 30);
         ("requests", VInt 30); ("chardet", VInt 30); ("vipshome", VInt 30);
         ("pyvips", VInt 30); ("noisy", VInt 40)].
Proof. repeat split; vm_compute; reflexivity. Qed.

(** * Further properties of the module *)

(** ** Levels and truth values *)

Lemma checkLevel_value v w z w' :
  checkLevel v w = (inr z, w') -> w' = w ∧ level_value v = Some z.
Proof.
  unfold checkLevel, level_value, mret, M_ret, raise.
  destruct v; try discriminate; try by intros [= <- <-].
  destruct (dict_get s nameToLevel) as [[]|]; try discriminate.
  by intros [= <- <-].
Qed.

Lemma checkLevel_run v z w :
  level_value v = Some z -> checkLevel v w = (inr z, w).
Proof.
  unfold checkLevel, level_value, mret, M_ret.
  destruct v; try discriminate; try by intros [= <-].
  destruct (dict_get s nameToLevel) as [[]|]; try discriminate.
  by intros [= <-].
Qed.

Lemma truthy_value v w b w' :
  truthy v w = (inr b, w') -> w' = w ∧ truth_value (heap w) v = Some b.
Proof.
  destruct v; simpl; unfold mret, M_ret; try by intros [= <- <-].
  unfold mbind, M_bind, load. destruct (heap w !! l); [|discriminate].
  by intros [= <- <-].
Qed.

Lemma truthy_run v w b :
  truth_value (heap w) v = Some b -> truthy v w = (inr b, w).
Proof.
  destruct v; simpl; unfold mret, M_ret; try by intros [= <-].
  unfold mbind, M_bind, load. destruct (heap w !! l); [|discriminate].
  by intros [= <-].
Qed.

Lemma handler_setLevel_value h v w h' w' :
  handler_setLevel h v w = (inr h', w') ->
  w' = w ∧ ∃ z, level_value v = Some z ∧
                h' = mk_handler (h_id h) (h_stream h) z (h_formatter h).
Proof.
  intros H. apply bind_ok in H as (z & w1 & E & H).
  apply checkLevel_value in E as (-> & Hz).
  apply ret_ok in H as (-> & ->). eauto.
Qed.

(** What the loop of lines 127-128 leaves in the levels of the named
    loggers, for a mapping that holds each name once. *)
Lemma set_logger_levels_levels items w u w' :
  set_logger_levels items w = (inr u, w') ->
  dict_wf items ->
  (∀ name v, dict_get name items = Some v ->
             getLogger name ≠ RootLogger ->
             ∃ z, level_value v = Some z ∧ levels w' !! name = Some z) ∧
  (∀ name, dict_get name items = None -> levels w' !! name = levels w !! name).
Proof.
  revert w. induction items as [|[n0 v0] items IH]; intros w H Hwf.
  - simpl in H. unfold mret, M_ret in H. injection H as _ <-.
    split; [discriminate|done].
  - apply NoDup_cons in Hwf as (Hn0 & Hwf).
    simpl in H. apply bind_ok in H as (u1 & w1 & E & H).
    unfold setLevel in E. apply bind_ok in E as (z0 & w0 & E0 & E).
    apply checkLevel_value in E0 as (-> & Hz0).
    destruct (IH _ H Hwf) as (IH1 & IH2). clear IH.
    assert (Hw1 : ∀ name, name ≠ n0 -> levels w1 !! name = levels w !! name).
    { intros name Hne. unfold assign_level in E.
      destruct (getLogger n0) as [|n] eqn:Hg; injection E as _ <-; [done|].
      simpl. unfold getLogger in Hg.
      destruct (_ || _)%bool; [discriminate|]. injection Hg as <-.
      by apply lookup_insert_ne. }
    split.
    + intros name v Hget Hroot. simpl in Hget.
      destruct (String.eqb name n0) eqn:Heq.
      * apply String.eqb_eq in Heq. subst name.
        injection Hget as <-. exists z0. split; [done|].
        rewrite IH2 by (by apply dict_get_None).
        unfold assign_level in E.
        destruct (getLogger n0) as [|n] eqn:Hg; [done|].
        injection E as _ <-. simpl. unfold getLogger in Hg.
        destruct (_ || _)%bool; [discriminate|]. injection Hg as <-.
        apply lookup_insert_eq.
      * by apply IH1.
    + intros name Hget. simpl in Hget.
      destruct (String.eqb name n0) eqn:Heq; [discriminate|].
      apply String.eqb_neq in Heq.
      rewrite IH2 by done. by apply Hw1.
Qed.

(** ** The sinks and the named loggers after a successful run *)

Lemma attach_sinks_levels cfg w lg info w' :
  handlers w = [] ->
  attach_sinks cfg w = (inr (lg, info), w') ->
  ∃ d log_file log_dir enc fmt v_fl zf v_cl zc v_en en l items wl u wl',
    heap w !! cfg = Some d ∧
    dict_get "encoding" d = Some enc ∧
    dict_get "formatter" d = Some fmt ∧
    dict_get "file_level" d = Some v_fl ∧ level_value v_fl = Some zf ∧
    dict_get "console_level" d = Some v_cl ∧ level_value v_cl = Some zc ∧
    dict_get "console_enabled" d = Some v_en ∧
    truth_value (heap w) v_en = Some en ∧
    handlers w' = mk_handler (next_hid w) (FileStream log_file enc) zf fmt
                  :: (if en : bool
                      then [mk_handler (S (next_hid w)) ConsoleStream zc fmt]
                      else []) ∧
    dict_get "disabled_loggers" d = Some (VRef l) ∧
    heap w !! l = Some items ∧
    set_logger_levels items wl = (inr u, wl') ∧
    levels wl = levels w ∧ levels w' = levels wl' ∧
    info = next_loc w ∧
    heap w' = <[next_loc w := [("log_file", VStr log_file);
                               ("log_dir", VStr log_dir);
                               ("config", VRef cfg)]]> (heap w) ∧
    root_level wl = root_level w ∧ root_level w' = root_level wl'.
Proof.
  intros Hh H. unfold attach_sinks in H.
  next_step H v_lp w1 E. apply subscript_ok in E as (-> & d & Hd & Hlp).
  str_step H lp.
  next_step H u1 w1 E. apply makedirs_ok in E as (f1 & Hf1 & ->).
  next_step H t w2 E. apply datetime_now_ok in E as (-> & ->). fields.
  read_step H Hd v_sn Hsn.
  read_step H Hd v_df Hdf. str_step H df.
  read_step H Hd v_tf Htf. str_step H tf.
  str_step H lp'. str_step H name.
  next_step H u2 w1 E. apply makedirs_ok in E as (f2 & Hf2 & ->). fields.
  read_step H Hd v_ff Hff. str_step H ff.
  read_step H Hd enc Henc.
  next_step H fh w1 E. apply FileHandler_ok in E as (f3 & Hf3 & -> & ->). fields.
  read_step H Hd v_fl Hfl.
  next_step H fh' w1 E. apply handler_setLevel_value in E as (-> & zf & Hzf & ->).
  read_step H Hd fmt Hfmt.
  next_step H u3 w1 E. apply addHandler_ok in E as ->;
    [|fields; rewrite Hh; apply not_elem_of_nil].
  next_step H ch w1 E. apply StreamHandler_ok in E as (-> & ->). fields.
  read_step H Hd v_cl Hcl.
  next_step H ch' w1 E. apply handler_setLevel_value in E as (-> & zc & Hzc & ->).
  read_step H Hd v_en Hen.
  next_step H en w1 E. apply truthy_value in E as (-> & Htruth). fields.
  next_step H u4 w1 E. rewrite Hh in E. simpl app in E.
  assert (Hnew : mk_handler (S (next_hid w)) ConsoleStream zc fmt
                 ∉ [mk_handler (next_hid w)
                      (FileStream
                         (path_join
                            (path_join lp [name; strftime (now w) df;
                                           strftime (now w) tf])
                            [strftime (now w) ff +:+ ".log"]) enc) zf fmt]).
  { intros Hin. apply list_elem_of_singleton in Hin.
    apply (f_equal h_id) in Hin. simpl in Hin. lia. }
  destruct en;
    [apply addHandler_ok in E as ->; [|exact Hnew]
    |apply ret_ok in E as (_ & ->)];
    fields;
    (read_step H Hd v_dl Hdl;
     next_step H items w2 E2;
     apply items_ok in E2 as (-> & l & -> & Hitems);
     next_step H u5 w2 E3;
     pose proof E3 as Hloop;
     apply keeps_levels_only_set_logger_levels in E3
       as (Ee & Ec & Ef & En & Eh & El & Es & Ei & evs & Et & Ea & Ek);
     next_step H ci w3 E4; apply alloc_ok in E4 as (-> & ->);
     apply ret_ok in H as (H & ->); injection H as -> ->;
     fields; rewrite Eh, El, Es;
     do 16 eexists;
     (split; [exact Hd|]);
     (split; [exact Henc|]); (split; [exact Hfmt|]);
     (split; [exact Hfl|]); (split; [exact Hzf|]);
     (split; [exact Hcl|]); (split; [exact Hzc|]);
     (split; [exact Hen|]); (split; [exact Htruth|]);
     (split; [fields; reflexivity|]);
     (split; [exact Hdl|]); (split; [exact Hitems|]);
     (split; [exact Hloop|]);
     (split; [reflexivity|]); (split; [reflexivity|]);
     (split; [reflexivity|]); (split; [reflexivity|]);
     (split; reflexivity)).
Qed.

(** A successful call, up to line 94: the caller left ['log_path'] out,
    the cleaner returned, and the merged ['script_name'] is true. *)
Lemma setup_logger_reaches_sinks clean_logs m config w lg info w' :
  setup_logger clean_logs m config w = (inr (lg, info), w') ->
  ∃ d0 root f0 name,
    dict_get "log_path" (default [] config) = None ∧
    heap w !! DEFAULT_CONFIG m = Some d0 ∧
    dict_get "log_path" d0 = Some root ∧
    clean_logs root (fs w) = (None, f0) ∧
    dict_get "script_name" (merged_config d0 config) = Some name ∧
    truth_value (<[next_loc w := merged_config d0 config]> (heap w)) name
      = Some true ∧
    attach_sinks (next_loc w)
      (reset_world w root f0 (merged_config d0 config)) = (inr (lg, info), w').
Proof.
  rewrite setup_logger_eq, config_supplies_get.
  destruct (dict_get "log_path" (default [] config)) eqn:Hs; [discriminate|].
  destruct (heap w !! DEFAULT_CONFIG m) as [d0|] eqn:Hd0; [|discriminate].
  destruct (dict_get "log_path" d0) as [root|] eqn:Hroot; [|discriminate].
  destruct (clean_logs root (fs w)) as [[e|] f0] eqn:Hclean; [discriminate|].
  intros H. unfold configure_logging in H.
  next_step H v w1 E. apply subscript_ok in E as (-> & d & Hd & Hv).
  unfold merged_world in Hd. fields. rewrite lookup_insert_eq in Hd.
  injection Hd as <-.
  next_step H given w1 E. apply truthy_value in E as (-> & Ht).
  destruct given; [|discriminate]. cbn [negb] in H.
  next_step H u1 w1 E. injection E as _ <-.
  next_step H u2 w1 E. injection E as _ <-.
  exists d0, root, f0, v. do 4 (split; [done|]). split; [exact Hv|].
  split; [exact Ht|exact H].
Qed.

(** X1: on a successful call the root logger ends with the file sink,
    opened on the returned [log_file], and after it the console sink
    exactly when the merged ['console_enabled'] is true. *)
Theorem console_sink_follows_flag clean_logs m config w lg info w' :
  setup_logger clean_logs m config w = (inr (lg, info), w') ->
  ∃ cfg merged log_file log_dir flag enabled file_sink console encoding,
    heap w' !! info = Some [("log_file", VStr log_file);
                            ("log_dir", VStr log_dir);
                            ("config", VRef cfg)] ∧
    heap w' !! cfg = Some merged ∧
    dict_get "console_enabled" merged = Some flag ∧
    truth_value (<[cfg := merged]> (heap w)) flag = Some enabled ∧
    h_stream file_sink = FileStream log_file encoding ∧
    h_stream console = ConsoleStream ∧
    handlers w' = file_sink :: (if enabled : bool then [console] else []).
Proof.
  intros H.
  apply setup_logger_reaches_sinks in H
    as (d0 & root & f0 & name & _ & _ & _ & _ & _ & _ & H).
  apply attach_sinks_levels in H; [|reflexivity].
  destruct H as (d & lf & ld & enc & fmt & v_fl & zf & v_cl & zc & v_en & en
                 & l & items & wl & u & wl' & Hd & _ & _ & _ & _ & _ & _
                 & Hen & Ht & Hh & _ & _ & _ & _ & _ & -> & Hheap & _).
  unfold reset_world, merged_world in *. fields.
  rewrite lookup_insert_eq in Hd. injection Hd as <-.
  exists (next_loc w), (merged_config d0 config), lf, ld, v_en, en.
  do 3 eexists.
  split. { by rewrite Hheap, lookup_insert_eq. }
  split. { rewrite Hheap, lookup_insert_ne by lia. apply lookup_insert_eq. }
  split; [exact Hen|]. split; [exact Ht|].
  split; [|split; [|exact Hh]]; reflexivity.
Qed.

Lemma console_sink_follows_flag_witness :
  ∃ cfg merged log_file log_dir flag enabled file_sink console encoding,
    heap svc_run.2 !! 3%nat = Some [("log_file", VStr log_file);
                                    ("log_dir", VStr log_dir);
                                    ("config", VRef cfg)] ∧
    heap svc_run.2 !! cfg = Some merged ∧
    dict_get "console_enabled" merged = Some flag ∧
    truth_value (<[cfg := merged]> (heap toolbox_loaded)) flag
      = Some enabled ∧
    h_stream file_sink = FileStream log_file encoding ∧
    h_stream console = ConsoleStream ∧
    handlers svc_run.2
    = file_sink :: (if enabled : bool then [console] else []).
Proof.
  exact (console_sink_follows_flag keep_all toolbox_module (Some svc_config)
           toolbox_loaded RootLogger 3%nat svc_run.2 svc_run_ok).
Defined.

(** X2: on a successful call the file sink has the level the merged
    ['file_level'] stands for (a number, or one of the names of the
    logging library) and the merged ['encoding']; the console sink, when
    attached, has the level of ['console_level']; both carry the merged
    ['formatter']. *)
Theorem sink_settings_follow_config clean_logs m config w lg info w' :
  setup_logger clean_logs m config w = (inr (lg, info), w') ->
  ∃ cfg merged path log_dir encoding formatter file_level console_level
    zf zc file_sink others,
    heap w' !! info = Some [("log_file", VStr path);
                            ("log_dir", VStr log_dir);
                            ("config", VRef cfg)] ∧
    heap w' !! cfg = Some merged ∧
    dict_get "encoding" merged = Some encoding ∧
    dict_get "formatter" merged = Some formatter ∧
    dict_get "file_level" merged = Some file_level ∧
    level_value file_level = Some zf ∧
    dict_get "console_level" merged = Some console_level ∧
    level_value console_level = Some zc ∧
    handlers w' = file_sink :: others ∧
    h_stream file_sink = FileStream path encoding ∧
    h_level file_sink = zf ∧
    h_formatter file_sink = formatter ∧
    (∀ h, h ∈ others ->
          h_stream h = ConsoleStream ∧ h_level h = zc ∧
          h_formatter h = formatter).
Proof.
  intros H.
  apply setup_logger_reaches_sinks in H
    as (d0 & root & f0 & name & _ & _ & _ & _ & _ & _ & H).
  apply attach_sinks_levels in H; [|reflexivity].
  destruct H as (d & lf & ld & enc & fmt & v_fl & zf & v_cl & zc & v_en & en
                 & l & items & wl & u & wl' & Hd & Henc & Hfmt & Hfl & Hzf
                 & Hcl & Hzc & _ & _ & Hh & _ & _ & _ & _ & _ & -> & Hheap & _).
  unfold reset_world, merged_world in *. fields.
  rewrite lookup_insert_eq in Hd. injection Hd as <-.
  exists (next_loc w), (merged_config d0 config), lf, ld, enc, fmt, v_fl,
    v_cl, zf, zc.
  do 2 eexists.
  split. { by rewrite Hheap, lookup_insert_eq. }
  split. { rewrite Hheap, lookup_insert_ne by lia. apply lookup_insert_eq. }
  do 6 (split; [done|]). split; [exact Hh|].
  do 3 (split; [reflexivity|]).
  intros h Hin. destruct en.
  - apply list_elem_of_singleton in Hin as ->. done.
  - by apply elem_of_nil in Hin.
Qed.

Lemma sink_settings_follow_config_witness :
  ∃ cfg merged path log_dir encoding formatter file_level console_level
    zf zc file_sink others,
    heap second_run.2 !! 5%nat = Some [("log_file", VStr path);
                                       ("log_dir", VStr log_dir);
                                       ("config", VRef cfg)] ∧
    heap second_run.2 !! cfg = Some merged ∧
    dict_get "encoding" merged = Some encoding ∧
    dict_get "formatter" merged = Some formatter ∧
    dict_get "file_level" merged = Some file_level ∧
    level_value file_level = Some zf ∧
    dict_get "console_level" merged = Some console_level ∧
    level_value console_level = Some zc ∧
    handlers second_run.2 = file_sink :: others ∧
    h_stream file_sink = FileStream path encoding ∧
    h_level file_sink = zf ∧
    h_formatter file_sink = formatter ∧
    (∀ h, h ∈ others ->
          h_stream h = ConsoleStream ∧ h_level h = zc ∧
          h_formatter h = formatter).
Proof.
  apply (sink_settings_follow_config keep_all toolbox_module
           (Some [("script_name", VStr "svc")])
           (set_now later_time svc_run.2) RootLogger 5%nat second_run.2).
  vm_compute. reflexivity.
Defined.

(** X3: on a successful call every named logger listed in the merged
    ['disabled_loggers'] ends at the level listed for it, and every
    named logger that is not listed keeps the level it had.  (The mapping
    holds each name once; the empty name and ["root"] stand for the root
    logger.) *)
Theorem disabled_loggers_are_applied clean_logs m config w lg info w' :
  setup_logger clean_logs m config w = (inr (lg, info), w') ->
  ∃ cfg merged log_file log_dir l items,
    heap w' !! info = Some [("log_file", log_file); ("log_dir", log_dir);
                            ("config", VRef cfg)] ∧
    heap w' !! cfg = Some merged ∧
    dict_get "disabled_loggers" merged = Some (VRef l) ∧
    <[cfg := merged]> (heap w) !! l = Some items ∧
    (dict_wf items ->
     (∀ name level, dict_get name items = Some level ->
                    getLogger name ≠ RootLogger ->
                    ∃ z, level_value level = Some z ∧
                         levels w' !! name = Some z) ∧
     (∀ name, dict_get name items = None ->
              levels w' !! name = levels w !! name)).
Proof.
  intros H.
  apply setup_logger_reaches_sinks in H
    as (d0 & root & f0 & name & _ & _ & _ & _ & _ & _ & H).
  apply attach_sinks_levels in H; [|reflexivity].
  destruct H as (d & lf & ld & enc & fmt & v_fl & zf & v_cl & zc & v_en & en
                 & l & items & wl & u & wl' & Hd & _ & _ & _ & _ & _ & _
                 & _ & _ & _ & Hdl & Hitems & Hloop & Hl0 & Hl1 & -> & Hheap & _).
  unfold reset_world, merged_world in *. fields.
  rewrite lookup_insert_eq in Hd. injection Hd as <-.
  exists (next_loc w), (merged_config d0 config), (VStr lf), (VStr ld), l,
    items.
  split. { by rewrite Hheap, lookup_insert_eq. }
  split. { rewrite Hheap, lookup_insert_ne by lia. apply lookup_insert_eq. }
  split; [exact Hdl|]. split; [exact Hitems|].
  intros Hwf.
  destruct (set_logger_levels_levels _ _ _ _ Hloop Hwf) as (L1 & L2).
  rewrite Hl1. split; [exact L1|].
  intros n Hn. by rewrite L2, Hl0.
Qed.

(** With the default mapping: [PIL] ends at [WARNING], a logger that is
    not listed stays as it was. *)
Lemma disabled_loggers_are_applied_witness :
  levels svc_run.2 !! "PIL" = Some WARNING ∧
  levels svc_run.2 !! "myapp" = levels toolbox_loaded !! "myapp".
Proof.
  destruct (disabled_loggers_are_applied keep_all toolbox_module
              (Some svc_config) toolbox_loaded RootLogger 3%nat svc_run.2
              svc_run_ok)
    as (cfg & merged & lf & ld & l & items & Hinfo & Hc & Hdl & Hitems & Hall).
  rewrite svc_run_info in Hinfo. injection Hinfo as _ _ <-.
  rewrite svc_run_config in Hc. injection Hc as <-.
  injection Hdl as <-.
  assert (Hi : items = dict_display disabled_loggers_display).
  { rewrite lookup_insert_ne in Hitems by done.
    assert (Hl : heap toolbox_loaded !! 0%nat
                 = Some (dict_display disabled_loggers_display))
      by reflexivity.
    rewrite Hl in Hitems. by injection Hitems. }
  subst items.
  destruct Hall as (L1 & L2).
  { apply (bool_decide_unpack _). vm_compute. exact I. }
  split.
  - destruct (L1 "PIL" (VInt WARNING)) as (z & Hz & Hlev);
      [reflexivity|discriminate|].
    injection Hz as <-. exact Hlev.
  - apply L2. reflexivity.
Defined.

(** ** What a call needs to return, and where it then writes *)

(** X4: with the defaults of the module (['script_name'] is [None]), a
    call returns only if the caller did not supply ['log_path'] and did
    supply a ['script_name'] that is true: not [None], not empty, not
    zero. *)
Theorem success_needs_script_name clean_logs m config w d0 lg info w' :
  dict_wf (default [] config) ->
  heap w !! DEFAULT_CONFIG m = Some d0 ->
  dict_get "script_name" d0 = Some VNone ->
  setup_logger clean_logs m config w = (inr (lg, info), w') ->
  dict_get "log_path" (default [] config) = None ∧
  ∃ name,
    dict_get "script_name" (default [] config) = Some name ∧
    truth_value (<[next_loc w := merged_config d0 config]> (heap w)) name
    = Some true.
Proof.
  intros Hwf Hd Hnone H.
  apply setup_logger_reaches_sinks in H
    as (d0' & root & f0 & v & Homit & Hd0 & _ & _ & Hv & Ht & _).
  rewrite Hd in Hd0. injection Hd0 as <-.
  split; [exact Homit|].
  unfold merged_config in Hv. rewrite (dict_get_update _ _ _ Hwf) in Hv.
  destruct (dict_get "script_name" (default [] config)) as [v'|].
  - injection Hv as ->. by exists v.
  - rewrite Hnone in Hv. injection Hv as <-. discriminate.
Qed.

Lemma success_needs_script_name_witness :
  dict_get "log_path" svc_config = None ∧
  ∃ name,
    dict_get "script_name" svc_config = Some name ∧
    truth_value
      (<[2%nat := merged_config (default_config_display "logs" 0)
                    (Some svc_config)]> (heap toolbox_loaded)) name
    = Some true.
Proof.
  apply (success_needs_script_name keep_all toolbox_module (Some svc_config)
           toolbox_loaded (default_config_display "logs" 0) RootLogger 3%nat
           svc_run.2).
  - apply (bool_decide_unpack _). vm_compute. exact I.
  - reflexivity.
  - reflexivity.
  - exact svc_run_ok.
Defined.

(** X5: on a successful call the root handed to the cleaner is the very
    root the log directories are then made under: the run starts with the
    cleaner on [log_path], the reset of the root logger, and [makedirs] of
    the same [log_path]. *)
Theorem cleaned_root_is_log_root clean_logs m config w lg info w' :
  setup_logger clean_logs m config w = (inr (lg, info), w') ->
  ∃ cfg merged log_file log_dir log_path rest,
    heap w' !! info = Some [("log_file", log_file); ("log_dir", log_dir);
                            ("config", VRef cfg)] ∧
    heap w' !! cfg = Some merged ∧
    dict_get "log_path" merged = Some (VStr log_path) ∧
    trace w' = trace w ++ ECleanLogs (VStr log_path)
                 :: ESetLevel RootLogger DEBUG :: EClearHandlers
                 :: EMakedirs log_path :: rest.
Proof.
  intros H.
  apply setup_logger_ok in H
    as (d0 & root & f0 & r & Hs & Hd0 & Hroot & Hclean & -> & Hm & Hr).
  destruct Hr as (_ & Hlp & _ & _ & _ & _ & _ & _ & _ & _ & _ & Hi & _ & Hheap
                  & _ & _ & _ & _ & _ & Ht & _).
  unfold reset_world, merged_world in *. fields.
  assert (Hsame : root = VStr (sr_log_path r)).
  { rewrite Hm, (merged_config_omitted _ _ _ Hs), Hroot in Hlp.
    by injection Hlp. }
  subst root.
  exists (next_loc w), (sr_config r), (VStr (log_file_of r (now w))),
    (VStr (log_dir_of r (now w))), (sr_log_path r).
  eexists.
  split. { subst info. by rewrite Hheap, lookup_insert_eq. }
  split. { rewrite Hheap, lookup_insert_ne by lia. by rewrite Hm, lookup_insert_eq. }
  split; [exact Hlp|].
  rewrite Ht, <- !app_assoc. simpl. reflexivity.
Qed.

Lemma cleaned_root_is_log_root_witness :
  ∃ cfg merged log_file log_dir log_path rest,
    heap svc_run.2 !! 3%nat
    = Some [("log_file", log_file); ("log_dir", log_dir);
            ("config", VRef cfg)] ∧
    heap svc_run.2 !! cfg = Some merged ∧
    dict_get "log_path" merged = Some (VStr log_path) ∧
    trace svc_run.2
    = trace toolbox_loaded ++ ECleanLogs (VStr log_path)
        :: ESetLevel RootLogger DEBUG :: EClearHandlers
        :: EMakedirs log_path :: rest.
Proof.
  exact (cleaned_root_is_log_root keep_all toolbox_module (Some svc_config)
           toolbox_loaded RootLogger 3%nat svc_run.2 svc_run_ok).
Defined.

Lemma path_join_absolute (a b : string) (rest : list string) :
  startswith_sep b = true -> path_join a (b :: rest) = path_join b rest.
Proof. intros Hb. unfold path_join. simpl. unfold join_step at 2. by rewrite Hb. Qed.

(** X6: a ['script_name'] that starts with the separator makes
    [os.path.join] drop the log root: on a successful call [log_dir] is
    then [script_name] joined with the date and the hour, whatever
    [log_path] is. *)
Theorem absolute_script_name_drops_root clean_logs m config w lg info w' :
  setup_logger clean_logs m config w = (inr (lg, info), w') ->
  ∃ cfg merged log_file log_dir script_name date_format time_format,
    heap w' !! info = Some [("log_file", log_file);
                            ("log_dir", VStr log_dir);
                            ("config", VRef cfg)] ∧
    heap w' !! cfg = Some merged ∧
    dict_get "script_name" merged = Some (VStr script_name) ∧
    dict_get "date_format" merged = Some (VStr date_format) ∧
    dict_get "time_format" merged = Some (VStr time_format) ∧
    (isabs script_name = true ->
     log_dir = path_join script_name [strftime (now w) date_format;
                                      strftime (now w) time_format]).
Proof.
  intros H.
  apply setup_logger_ok in H
    as (d0 & root & f0 & r & Hs & Hd0 & Hroot & Hclean & -> & Hm & Hr).
  destruct Hr as (_ & _ & Hsn & Hdf & Htf & _ & _ & _ & _ & _ & _ & Hi & _
                  & Hheap & _).
  unfold reset_world, merged_world in *. fields.
  exists (next_loc w), (sr_config r), (VStr (log_file_of r (now w))),
    (log_dir_of r (now w)), (sr_script_name r), (sr_date_format r),
    (sr_time_format r).
  split. { subst info. by rewrite Hheap, lookup_insert_eq. }
  split. { rewrite Hheap, lookup_insert_ne by lia. by rewrite Hm, lookup_insert_eq. }
  do 3 (split; [done|]).
  intros Habs. unfold log_dir_of. by apply path_join_absolute.
Qed.

Lemma rooted_run_ok : rooted_run = (inr (RootLogger, 3%nat), rooted_run.2).
Proof. vm_compute. reflexivity. Qed.

(** The sample run with ["/srv/app"]: the directory is outside ["logs"]. *)
Lemma absolute_script_name_drops_root_witness :
  ∃ log_file,
    heap rooted_run.2 !! 3%nat
    = Some [("log_file", log_file);
            ("log_dir", VStr "/srv/app/20240305/14");
            ("config", VRef 2)].
Proof.
  destruct (absolute_script_name_drops_root keep_all toolbox_module
              (Some [("script_name", VStr "/srv/app")]) toolbox_loaded
              RootLogger 3%nat rooted_run.2 rooted_run_ok)
    as (cfg & merged & lf & ld & name & df & tf & Hinfo & Hc & Hsn & Hdf & Htf
        & Habs).
  assert (Hi : ∃ a b, heap rooted_run.2 !! 3%nat
                      = Some [("log_file", a); ("log_dir", b);
                              ("config", VRef 2)])
    by (do 2 eexists; vm_compute; reflexivity).
  destruct Hi as (a & b & Hi). rewrite Hi in Hinfo.
  injection Hinfo as -> -> <-.
  assert (Hm : heap rooted_run.2 !! 2%nat
               = Some (dict_update (default_config_display "logs" 0)
                         [("script_name", VStr "/srv/app")]))
    by (vm_compute; reflexivity).
  rewrite Hm in Hc. injection Hc as <-.
  injection Hsn as <-. injection Hdf as <-. injection Htf as <-.
  exists lf. rewrite Hi. rewrite (Habs eq_refl). reflexivity.
Defined.

(** ** Failures after the reset of the root logger *)

Lemma subscript_run l k w d v :
  heap w !! l = Some d -> dict_get k d = Some v ->
  subscript l k w = (inr v, w).
Proof.
  intros Hd Hk. unfold subscript, load, getitem, mbind, M_bind.
  by rewrite Hd, Hk.
Qed.

Lemma as_str_fail what v w :
  (∀ s, v ≠ VStr s) -> as_str what v w = (inl (TypeError what), w).
Proof. intros Hv. destruct v; try reflexivity. by destruct (Hv s). Qed.

(** X7: errors of the file system are not caught, and by the time they
    occur the root logger has already been reset.  When the merged
    ['script_name'] is true and the log root cannot be made (a regular
    file is in the way), the call raises [OSError] after it has set the
    root logger to [DEBUG] and removed every handler it had; the file
    system is as the cleaner left it. *)
Theorem blocked_root_fails_after_reset clean_logs m config w d0 lp f0 name :
  dict_get "log_path" (default [] config) = None ->
  heap w !! DEFAULT_CONFIG m = Some d0 ->
  dict_get "log_path" d0 = Some (VStr lp) ->
  clean_logs (VStr lp) (fs w) = (None, f0) ->
  dict_get "script_name" (merged_config d0 config) = Some name ->
  truth_value (<[next_loc w := merged_config d0 config]> (heap w)) name
    = Some true ->
  makedirs_fs lp f0 = None ->
  ∃ w', setup_logger clean_logs m config w = (inl (OSError lp), w') ∧
        handlers w' = [] ∧
        root_level w' = DEBUG ∧
        fs w' = f0 ∧
        trace w' = trace w ++ [ECleanLogs (VStr lp);
                               ESetLevel RootLogger DEBUG; EClearHandlers;
                               EMakedirs lp].
Proof.
  intros Homit Hd Hlp Hclean Hsn Ht Hmk.
  pose proof (config_omits _ _ Homit) as Hs.
  assert (Hmlp : dict_get "log_path" (merged_config d0 config)
                 = Some (VStr lp))
    by (by rewrite (merged_config_omitted _ _ _ Hs)).
  eexists. split.
  - rewrite setup_logger_eq, Hs, Hd, Hlp, Hclean. unfold configure_logging.
    erewrite bind_run;
      [|apply (subscript_run _ _ _ (merged_config d0 config));
        [apply lookup_insert_eq|exact Hsn]].
    erewrite bind_run; [|apply truthy_run; exact Ht].
    cbn [negb].
    erewrite bind_run; [|reflexivity].
    erewrite bind_run; [|reflexivity].
    unfold attach_sinks.
    erewrite bind_run;
      [|apply (subscript_run _ _ _ (merged_config d0 config));
        [apply lookup_insert_eq|exact Hmlp]].
    erewrite bind_run; [|reflexivity].
    apply bind_fail. unfold makedirs, merged_world. fields.
    rewrite Hmk. reflexivity.
  - unfold merged_world. fields. repeat split; try done.
    by rewrite <- !app_assoc.
Qed.

Lemma blocked_root_fails_after_reset_witness :
  ∃ w', setup_logger keep_all toolbox_module (Some svc_config) blocked_world
          = (inl (OSError "logs"), w') ∧
        handlers w' = [] ∧
        root_level w' = DEBUG ∧
        fs w' = fs blocked_world ∧
        trace w' = trace blocked_world
                   ++ [ECleanLogs (VStr "logs");
                       ESetLevel RootLogger DEBUG; EClearHandlers;
                       EMakedirs "logs"].
Proof.
  apply (blocked_root_fails_after_reset keep_all toolbox_module
           (Some svc_config) blocked_world
           (default_config_display "logs" 0) "logs" (fs blocked_world)
           (VStr "svc")).
  - reflexivity.
  - vm_compute. reflexivity.
  - reflexivity.
  - reflexivity.
  - reflexivity.
  - reflexivity.
  - vm_compute. reflexivity.
Defined.

(** X8: the check of line 84 tests truth, not type.  A merged
    ['script_name'] that is a number other than zero, [True] or a
    dictionary that is not empty passes it and makes the call fail with
    [TypeError] in [os.path.join], after the root logger was reset and
    the log root was made, and before any file is opened. *)
Theorem unjoinable_script_name_fails_late clean_logs m config w d0 lp f0 f1
    name date_format time_format :
  dict_get "log_path" (default [] config) = None ->
  heap w !! DEFAULT_CONFIG m = Some d0 ->
  dict_get "log_path" d0 = Some (VStr lp) ->
  clean_logs (VStr lp) (fs w) = (None, f0) ->
  dict_get "script_name" (merged_config d0 config) = Some name ->
  truth_value (<[next_loc w := merged_config d0 config]> (heap w)) name
    = Some true ->
  unjoinable name ->
  dict_get "date_format" (merged_config d0 config)
    = Some (VStr date_format) ->
  dict_get "time_format" (merged_config d0 config)
    = Some (VStr time_format) ->
  makedirs_fs lp f0 = Some f1 ->
  ∃ w', setup_logger clean_logs m config w = (inl (TypeError "join"), w') ∧
        handlers w' = [] ∧
        root_level w' = DEBUG ∧
        fs w' = f1 ∧
        trace w' = trace w ++ [ECleanLogs (VStr lp);
                               ESetLevel RootLogger DEBUG; EClearHandlers;
                               EMakedirs lp].
Proof.
  intros Homit Hd Hlp Hclean Hsn Ht Hns Hdf Htf Hmk.
  pose proof (config_omits _ _ Homit) as Hs.
  assert (Hmlp : dict_get "log_path" (merged_config d0 config)
                 = Some (VStr lp))
    by (by rewrite (merged_config_omitted _ _ _ Hs)).
  eexists. split.
  - rewrite setup_logger_eq, Hs, Hd, Hlp, Hclean. unfold configure_logging.
    erewrite bind_run;
      [|apply (subscript_run _ _ _ (merged_config d0 config));
        [apply lookup_insert_eq|exact Hsn]].
    erewrite bind_run; [|apply truthy_run; exact Ht].
    cbn [negb].
    erewrite bind_run; [|reflexivity].
    erewrite bind_run; [|reflexivity].
    unfold attach_sinks.
    erewrite bind_run;
      [|apply (subscript_run _ _ _ (merged_config d0 config));
        [apply lookup_insert_eq|exact Hmlp]].
    erewrite bind_run; [|reflexivity].
    erewrite bind_run;
      [|unfold makedirs, merged_world; fields; rewrite Hmk; reflexivity].
    erewrite bind_run; [|reflexivity].
    erewrite bind_run;
      [|apply (subscript_run _ _ _ (merged_config d0 config));
        [apply lookup_insert_eq|exact Hsn]].
    erewrite bind_run;
      [|apply (subscript_run _ _ _ (merged_config d0 config));
        [apply lookup_insert_eq|exact Hdf]].
    erewrite bind_run; [|reflexivity].
    erewrite bind_run;
      [|apply (subscript_run _ _ _ (merged_config d0 config));
        [apply lookup_insert_eq|exact Htf]].
    erewrite bind_run; [|reflexivity].
    erewrite bind_run; [|reflexivity].
    apply bind_fail. apply as_str_fail.
    intros s ->. by destruct Hns as [[z [=]]|[[b [=]]|[l [=]]]].
  - unfold merged_world. fields. repeat split; try done.
    by rewrite <- !app_assoc.
Qed.

Lemma unjoinable_script_name_fails_late_witness :
  ∃ w', setup_logger keep_all toolbox_module (Some numbered_config)
          toolbox_loaded = (inl (TypeError "join"), w') ∧
        handlers w' = [] ∧
        root_level w' = DEBUG ∧
        fs w' = fs toolbox_loaded ∧
        trace w' = trace toolbox_loaded
                   ++ [ECleanLogs (VStr "logs");
                       ESetLevel RootLogger DEBUG; EClearHandlers;
                       EMakedirs "logs"].
Proof.
  apply (unjoinable_script_name_fails_late keep_all toolbox_module
           (Some numbered_config) toolbox_loaded
           (default_config_display "logs" 0) "logs" (fs toolbox_loaded)
           (fs toolbox_loaded) (VInt 7) "%Y%m%d" "%H").
  - reflexivity.
  - reflexivity.
  - reflexivity.
  - reflexivity.
  - reflexivity.
  - reflexivity.
  - left. by exists 7.
  - reflexivity.
  - reflexivity.
  - vm_compute. reflexivity.
Defined.

(** ** More on the import (lines 16-58) *)

(** X9: the import succeeds exactly when the process is already in
    [WORKING_DIR] or that directory exists.  Otherwise it ends with
    [SystemExit] in the directory it started in, before the [.env] file is
    read and before [DEFAULT_CONFIG] is made. *)
Theorem import_succeeds_or_exits df w :
  ((∃ m w', import_module df w = (inr m, w'))
   ↔ cwd w = WORKING_DIR ∨ WORKING_DIR ∈ dirs (fs w)) ∧
  (cwd w ≠ WORKING_DIR -> WORKING_DIR ∉ dirs (fs w) ->
   ∃ w', import_module df w = (inl (SystemExit exit_message), w') ∧
         cwd w' = cwd w ∧ environ w' = environ w ∧ heap w' = heap w).
Proof.
  unfold import_module, mbind, M_bind. rewrite switch_working_dir_eq.
  destruct (decide (cwd w = WORKING_DIR)) as [Hc|Hc].
  - rewrite bool_decide_eq_false_2 by (intros H; by apply H).
    destruct (load_defaults_ok df w) as (w' & -> & _).
    split; [split; eauto|]. by intros Hne.
  - rewrite (bool_decide_eq_true_2 _ Hc).
    destruct (decide (WORKING_DIR ∈ dirs (fs w))) as [Hd|Hd].
    + rewrite (bool_decide_eq_true_2 _ Hd).
      destruct (load_defaults_ok df
        (emit (EPrint ("已切换到工作目录：" +:+ WORKING_DIR))
           (set_cwd (abspath (cwd w) WORKING_DIR)
              (emit (EChdir WORKING_DIR) w))))
        as (w' & -> & _).
      split; [split; eauto|]. by intros _ Hno.
    + rewrite (bool_decide_eq_false_2 _ Hd). split.
      * split; [intros (m & w' & [=])|intros [?|?]; done].
      * intros _ _. eexists. split; [reflexivity|]. done.
Qed.

(** A process started elsewhere, on a machine without the tool box. *)
Lemma import_succeeds_or_exits_witness :
  ∃ w', import_module None foreign_process
        = (inl (SystemExit exit_message), w') ∧
        cwd w' = cwd foreign_process ∧
        environ w' = environ foreign_process ∧
        heap w' = heap foreign_process.
Proof.
  destruct (import_succeeds_or_exits None foreign_process) as (_ & H).
  apply H.
  - vm_compute. discriminate.
  - apply (bool_decide_unpack _). vm_compute. exact I.
Defined.

(** X10: a successful import leaves the process in the directory
    [WORKING_DIR] names: where it was when it was there already, else
    [WORKING_DIR] resolved against the directory it started in.  It
    changes neither the level nor the handlers of the root logger, and
    what it reports is the switch of directory, if there was one. *)
Theorem import_leaves_process_in_working_dir df w m w' :
  import_module df w = (inr m, w') ->
  cwd w' = (if bool_decide (cwd w = WORKING_DIR) then cwd w
            else abspath (cwd w) WORKING_DIR) ∧
  handlers w' = handlers w ∧ root_level w' = root_level w ∧
  trace w' = trace w
             ++ (if bool_decide (cwd w = WORKING_DIR) then []
                 else [EChdir WORKING_DIR;
                       EPrint ("已切换到工作目录：" +:+ WORKING_DIR)]).
Proof.
  unfold import_module, mbind at 1, M_bind. rewrite switch_working_dir_eq.
  destruct (decide (cwd w = WORKING_DIR)) as [Hc|Hc].
  - rewrite bool_decide_eq_false_2 by (intros H; by apply H).
    rewrite (bool_decide_eq_true_2 _ Hc).
    destruct df; intros [= _ <-]; simpl; by rewrite app_nil_r.
  - rewrite (bool_decide_eq_true_2 _ Hc), (bool_decide_eq_false_2 _ Hc).
    destruct (bool_decide (WORKING_DIR ∈ dirs (fs w))); [|discriminate].
    destruct df; intros [= _ <-]; cbn [cwd handlers root_level trace
      emit set_cwd set_environ set_heap]; by rewrite <- app_assoc.
Qed.

(** A process started in [/home/app], on a machine where the tool box is
    found from there. *)
Lemma import_leaves_process_in_working_dir_witness :
  cwd (import_module None script_process).2
  = "/home/app/" +:+ WORKING_DIR ∧
  trace (import_module None script_process).2
  = [EChdir WORKING_DIR; EPrint ("已切换到工作目录：" +:+ WORKING_DIR)].
Proof.
  destruct (import_leaves_process_in_working_dir None script_process
              (mk_module 1) (import_module None script_process).2)
    as (Hc & _ & _ & Ht).
  - vm_compute. reflexivity.
  - split; [rewrite Hc|rewrite Ht]; vm_compute; reflexivity.
Defined.

Lemma dotenv_value_acc name file acc :
  fold_left (fun a kv => if String.eqb kv.1 name then Some kv.2 else a)
    file acc
  = match dotenv_value name file with
    | Some v => Some v
    | None => acc
    end.
Proof.
  unfold dotenv_value. revert acc.
  induction file as [|[k v] file IH]; intros acc; simpl; [done|].
  rewrite IH, (IH (if String.eqb k name then Some v else None)).
  destruct (fold_left _ file None); [done|].
  by destruct (String.eqb k name).
Qed.

Lemma dotenv_value_cons name k v file :
  dotenv_value name ((k, v) :: file)
  = match dotenv_value name file with
    | Some x => Some x
    | None => if String.eqb k name then Some v else None
    end.
Proof. unfold dotenv_value at 1. simpl. apply dotenv_value_acc. Qed.

Lemma dotenv_merge_acc file (env e : gmap string string) name :
  fold_left (fun a kv => match env !! kv.1 with
                         | Some _ => a
                         | None => <[kv.1 := kv.2]> a
                         end) file e !! name
  = match env !! name with
    | Some _ => e !! name
    | None => match dotenv_value name file with
              | Some v => Some v
              | None => e !! name
              end
    end.
Proof.
  revert e. induction file as [|[k v] file IH]; intros e.
  - simpl. by destruct (env !! name).
  - rewrite dotenv_value_cons. simpl fold_left. rewrite IH.
    destruct (env !! name) as [x|] eqn:Hn.
    + destruct (env !! k) eqn:Hk; [done|].
      rewrite lookup_insert_ne; [done|]. intros ->. congruence.
    + destruct (dotenv_value name file); [done|].
      destruct (String.eqb k name) eqn:Hkn.
      * apply String.eqb_eq in Hkn. subst k. rewrite Hn.
        apply lookup_insert_eq.
      * apply String.eqb_neq in Hkn.
        destruct (env !! k); [done|]. by apply lookup_insert_ne.
Qed.

(** The environment after [load_dotenv]: a name the process already
    defines keeps its value, any other takes its last binding in the
    file. *)
Lemma dotenv_merge_lookup file (env : gmap string string) name :
  dotenv_merge file env !! name
  = match env !! name with
    | Some v => Some v
    | None => dotenv_value name file
    end.
Proof.
  unfold dotenv_merge. rewrite dotenv_merge_acc.
  destruct (env !! name) eqn:Hn; [done|].
  by destruct (dotenv_value name file).
Qed.

(** X11: the order of priority of the default log root, as line 35 and
    the note of [demo_logger] have it: [LOG_PATH] of the process
    environment if it is set when the module is imported, else the last
    [LOG_PATH] of the [.env] file, else ["logs"]. *)
Theorem default_root_priority df w m w' :
  import_module df w = (inr m, w') ->
  ∃ d, heap w' !! DEFAULT_CONFIG m = Some d ∧
       dict_get "log_path" d
       = Some (VStr match environ w !! "LOG_PATH" with
                    | Some v => v
                    | None =>
                        match df with
                        | Some file =>
                            default "logs" (dotenv_value "LOG_PATH" file)
                        | None => "logs"
                        end
                    end).
Proof.
  intros H. apply import_module_ok in H as (dl & Henv & Hd & _).
  eexists. split; [exact Hd|]. simpl. do 2 f_equal.
  rewrite Henv. destruct df as [file|].
  - rewrite dotenv_merge_lookup. by destruct (environ w !! "LOG_PATH").
  - by destruct (environ w !! "LOG_PATH").
Qed.

(** [LOG_PATH] only in the [.env] file, bound twice. *)
Lemma default_root_priority_witness :
  ∃ d,
    heap (import_module
            (Some [("LOG_PATH", "/var/a"); ("LOG_PATH", "/var/b")])
            toolbox_process).2 !! 1%nat = Some d ∧
    dict_get "log_path" d = Some (VStr "/var/b").
Proof.
  destruct (default_root_priority
              (Some [("LOG_PATH", "/var/a"); ("LOG_PATH", "/var/b")])
              toolbox_process (mk_module 1)
              (import_module
                 (Some [("LOG_PATH", "/var/a"); ("LOG_PATH", "/var/b")])
                 toolbox_process).2)
    as (d & Hd & Hlp).
  - vm_compute. reflexivity.
  - exists d. split; [exact Hd|]. rewrite Hlp. vm_compute. reflexivity.
Defined.

(** ** What a call leaves alone *)

#[global] Instance same_process_preorder : PreOrder same_process.
Proof.
  split.
  - by intros w.
  - intros a b c (C1 & E1 & N1) (C2 & E2 & N2). repeat split; congruence.
Qed.

Lemma keeps_same_process_load l : keeps same_process (load l).
Proof. apply (keeps_same same_process), load_same. Qed.

Lemma keeps_same_process_subscript l k : keeps same_process (subscript l k).
Proof. apply (keeps_same same_process), subscript_same. Qed.

Lemma keeps_same_process_truthy v : keeps same_process (truthy v).
Proof. apply (keeps_same same_process), truthy_same. Qed.

Lemma keeps_same_process_as_str what v : keeps same_process (as_str what v).
Proof. apply (keeps_same same_process), as_str_same. Qed.

Lemma keeps_same_process_checkLevel v : keeps same_process (checkLevel v).
Proof. apply (keeps_same same_process), checkLevel_same. Qed.

Lemma keeps_same_process_now : keeps same_process datetime_now.
Proof. apply (keeps_same same_process), datetime_now_same. Qed.

Lemma keeps_same_process_alloc d : keeps same_process (alloc d).
Proof. by intros w r w' [= _ <-]. Qed.

Lemma keeps_same_process_makedirs p : keeps same_process (makedirs p).
Proof.
  intros w r w'. unfold makedirs.
  by destruct (makedirs_fs p (fs w)); intros [= _ <-].
Qed.

Lemma keeps_same_process_open_append p : keeps same_process (open_append p).
Proof.
  intros w r w'. unfold open_append.
  by destruct (open_append_fs p (fs w)); intros [= _ <-].
Qed.

Lemma keeps_same_process_new_handler_id : keeps same_process new_handler_id.
Proof. by intros w r w' [= _ <-]. Qed.

Lemma keeps_same_process_assign_level lg z :
  keeps same_process (assign_level lg z).
Proof. intros w r w'. unfold assign_level. by destruct lg; intros [= _ <-]. Qed.

Lemma keeps_same_process_clear_handlers : keeps same_process clear_handlers.
Proof. by intros w r w' [= _ <-]. Qed.

Lemma keeps_same_process_addHandler h : keeps same_process (addHandler h).
Proof.
  intros w r w'. unfold addHandler.
  by destruct (bool_decide (h ∈ handlers w)); intros [= _ <-].
Qed.

#[global] Hint Resolve keeps_same_process_load keeps_same_process_subscript
  keeps_same_process_truthy keeps_same_process_as_str
  keeps_same_process_checkLevel keeps_same_process_now
  keeps_same_process_alloc keeps_same_process_makedirs
  keeps_same_process_open_append keeps_same_process_new_handler_id
  keeps_same_process_assign_level keeps_same_process_clear_handlers
  keeps_same_process_addHandler : keeps.

Lemma keeps_same_process_setLevel lg v : keeps same_process (setLevel lg v).
Proof. unfold setLevel. keeps_steps. Qed.

Lemma keeps_same_process_set_logger_levels items :
  keeps same_process (set_logger_levels items).
Proof.
  induction items as [|[name level] items IH]; simpl.
  - apply (keeps_ret same_process).
  - apply (keeps_bind same_process);
      [apply keeps_same_process_setLevel|intros _; exact IH].
Qed.

Lemma keeps_same_process_FileHandler p enc :
  keeps same_process (FileHandler p enc).
Proof. unfold FileHandler. keeps_steps. Qed.

Lemma keeps_same_process_StreamHandler : keeps same_process StreamHandler.
Proof. unfold StreamHandler. keeps_steps. Qed.

Lemma keeps_same_process_handler_setLevel h v :
  keeps same_process (handler_setLevel h v).
Proof. unfold handler_setLevel. keeps_steps. Qed.

#[global] Hint Resolve keeps_same_process_setLevel
  keeps_same_process_set_logger_levels keeps_same_process_FileHandler
  keeps_same_process_StreamHandler keeps_same_process_handler_setLevel : keeps.

Lemma keeps_same_process_attach_sinks cfg :
  keeps same_process (attach_sinks cfg).
Proof. unfold attach_sinks. keeps_steps. Qed.

Lemma keeps_same_process_configure_logging cfg :
  keeps same_process (configure_logging cfg).
Proof.
  unfold configure_logging. keeps_steps. apply keeps_same_process_attach_sinks.
Qed.

(** Whatever its outcome, a call leaves the working directory, the
    environment and the clock as they were. *)
Lemma setup_logger_same_process clean_logs m config :
  keeps same_process (setup_logger clean_logs m config).
Proof.
  intros w r w'. rewrite setup_logger_eq.
  destruct (config_supplies "log_path" config); [by intros [= _ <-]|].
  destruct (heap w !! DEFAULT_CONFIG m) as [d0|]; [|by intros [= _ <-]].
  destruct (dict_get "log_path" d0) as [root|]; [|by intros [= _ <-]].
  destruct (clean_logs root (fs w)) as [[e|] f0]; [by intros [= _ <-]|].
  intros H. by apply keeps_same_process_configure_logging in H.
Qed.

(** ** The demonstration and the script (lines 139-165) *)

Lemma test_config_wf : dict_wf test_config.
Proof. apply (bool_decide_unpack _). vm_compute. exact I. Qed.

(** The world a successful import leaves. *)
Lemma import_module_effect df w m w1 :
  import_module df w = (inr m, w1) ->
  ∃ dl,
    now w1 = now w ∧
    trace w1 = trace w
               ++ (if bool_decide (cwd w = WORKING_DIR) then []
                   else [EChdir WORKING_DIR;
                         EPrint ("已切换到工作目录：" +:+ WORKING_DIR)]) ∧
    environ w1 = match df with
                 | Some b => dotenv_merge b (environ w)
                 | None => environ w
                 end ∧
    heap w1 !! DEFAULT_CONFIG m
    = Some (default_config_display
              (default "logs" (environ w1 !! "LOG_PATH")) dl) ∧
    heap w1 !! dl = Some (dict_display disabled_loggers_display) ∧
    (dl < next_loc w1)%nat.
Proof.
  unfold import_module, mbind at 1, M_bind. rewrite switch_working_dir_eq.
  destruct (decide (cwd w = WORKING_DIR)) as [Hc|Hc].
  - rewrite bool_decide_eq_false_2 by (intros H; by apply H).
    rewrite (bool_decide_eq_true_2 _ Hc).
    intros H. exists (next_loc w).
    destruct df; injection H as <- <-; simpl;
      rewrite app_nil_r, lookup_insert_eq, lookup_insert_ne by lia;
      rewrite lookup_insert_eq; repeat split; lia.
  - rewrite (bool_decide_eq_true_2 _ Hc), (bool_decide_eq_false_2 _ Hc).
    destruct (bool_decide (WORKING_DIR ∈ dirs (fs w))); [|discriminate].
    intros H. exists (next_loc w).
    destruct df; injection H as <- <-; simpl;
      rewrite <- app_assoc, lookup_insert_eq, lookup_insert_ne by lia;
      rewrite lookup_insert_eq; repeat split; lia.
Qed.

(** A demonstration that returns, in a process whose defaults still send
    everything to the file and [INFO] and above to the console: what the
    call of line 153 left, and the records the four calls of lines
    156-159 hand over. *)
Lemma demo_logger_ok clean_logs m w d0 l items records w' :
  heap w !! DEFAULT_CONFIG m = Some d0 ->
  dict_get "file_level" d0 = Some (VInt DEBUG) ->
  dict_get "console_level" d0 = Some (VInt INFO) ->
  dict_get "disabled_loggers" d0 = Some (VRef l) ->
  (l < next_loc w)%nat ->
  heap w !! l = Some items ->
  Forall (fun kv => getLogger kv.1 ≠ RootLogger) items ->
  demo_logger clean_logs m w = (inr records, w') ->
  ∃ info log_file log_dir encoding formatter,
    setup_logger clean_logs m (Some test_config) w
      = (inr (RootLogger, info), w') ∧
    heap w' !! info = Some [("log_file", VStr log_file);
                            ("log_dir", VStr log_dir);
                            ("config", VRef (next_loc w))] ∧
    let file_sink :=
      mk_handler (next_hid w) (FileStream log_file encoding) DEBUG formatter in
    let console :=
      mk_handler (S (next_hid w)) ConsoleStream INFO formatter in
    handlers w' = [file_sink; console] ∧
    records =
      [mk_delivery file_sink DEBUG
         ("当前日志存储路径：" +:+ abspath (cwd w) log_file);
       mk_delivery file_sink INFO "这是一条INFO级别日志";
       mk_delivery console INFO "这是一条INFO级别日志";
       mk_delivery file_sink WARNING "这是一条WARNING级别日志";
       mk_delivery console WARNING "这是一条WARNING级别日志";
       mk_delivery file_sink ERROR "这是一条ERROR级别日志";
       mk_delivery console ERROR "这是一条ERROR级别日志"].
Proof.
  intros Hd0 Hfl Hcl Hdl Hl Hitems Hroot H. unfold demo_logger in H.
  next_step H r w1 E. destruct r as [lg info]. cbn [snd] in H.
  pose proof E as Hcall.
  pose proof (setup_logger_same_process _ _ _ _ _ _ E) as (Hcwd & _ & _).
  (* the root logger is still at [DEBUG] *)
  assert (Hlevel : lg = RootLogger ∧ root_level w1 = DEBUG).
  { apply setup_logger_ok in E
      as (d0' & root & f0 & r & _ & Hd0' & _ & _ & -> & Hm & Hr).
    rewrite Hd0 in Hd0'. injection Hd0' as <-. split; [done|].
    destruct Hr as (_ & _ & _ & _ & _ & _ & _ & _ & _ & _ & _ & _ & _ & _
                    & _ & _ & _ & _ & _ & _ & _ & _ & (l' & Hdl' & Hl') & Hlev).
    rewrite Hm in Hdl'. unfold merged_config in Hdl'. simpl default in Hdl'.
    rewrite (dict_get_update _ _ _ test_config_wf) in Hdl'.
    simpl in Hdl'. rewrite Hdl in Hdl'. injection Hdl' as <-.
    unfold reset_world, merged_world in Hl', Hlev. fields.
    rewrite lookup_insert_ne in Hl' by lia.
    rewrite Hitems in Hl'. injection Hl' as Hi. rewrite <- Hi in Hlev.
    by apply Hlev. }
  destruct Hlevel as (-> & Hlevel).
  (* the two sinks and their levels *)
  apply setup_logger_reaches_sinks in E
    as (d0' & root & f0 & name & _ & Hd0' & _ & _ & _ & _ & E).
  rewrite Hd0 in Hd0'. injection Hd0' as <-.
  apply attach_sinks_levels in E; [|reflexivity].
  destruct E as (d & lf & ld & enc & fmt & v_fl & zf & v_cl & zc & v_en & en
                 & l' & items' & wl & u & wl' & Hd & _ & _ & Hfl' & Hzf
                 & Hcl' & Hzc & Hen & Ht & Hh & _ & _ & _ & _ & _ & -> & Hheap & _).
  unfold reset_world, merged_world in *. fields.
  rewrite lookup_insert_eq in Hd. injection Hd as <-.
  unfold merged_config in Hfl', Hcl', Hen. simpl default in Hfl', Hcl', Hen.
  rewrite (dict_get_update _ _ _ test_config_wf) in Hfl'.
  rewrite (dict_get_update _ _ _ test_config_wf) in Hcl'.
  rewrite (dict_get_update _ _ _ test_config_wf) in Hen.
  simpl in Hfl', Hcl', Hen. rewrite Hfl in Hfl'. rewrite Hcl in Hcl'.
  injection Hfl' as <-. injection Hcl' as <-. injection Hen as <-.
  injection Hzf as <-. injection Hzc as <-. injection Ht as <-.
  assert (Hinfo : heap w1 !! S (next_loc w)
                  = Some [("log_file", VStr lf); ("log_dir", VStr ld);
                          ("config", VRef (next_loc w))])
    by (by rewrite Hheap, lookup_insert_eq).
  (* lines 156-159 *)
  rewrite (bind_run _ _ _ _ _ (subscript_run _ "log_file" _ _ _ Hinfo eq_refl))
    in H.
  unfold as_str, getcwd, root_log, mbind, M_bind, mret, M_ret in H.
  rewrite Hlevel, Hh, Hcwd in H. injection H as <- <-.
  exists (S (next_loc w)), lf, ld, enc, fmt.
  split; [exact Hcall|]. split; [exact Hinfo|]. split; [exact Hh|].
  reflexivity.
Qed.

Lemma default_disabled_not_root :
  Forall (fun kv : string * pyval => getLogger kv.1 ≠ RootLogger)
    (dict_display disabled_loggers_display).
Proof. vm_compute. repeat constructor; discriminate. Qed.

(** X12: the demonstration sends its first record, the [DEBUG] line
    with the absolute path of the log file, to the file only, and each of
    the three others to the file and then to the console.  This holds when
    the defaults still have ['file_level'] at [DEBUG] and
    ['console_level'] at [INFO] and list no name of the root logger in
    ['disabled_loggers']; the console is attached whatever the default of
    ['console_enabled'] is, [test_config] sets it. *)
Theorem demo_records_reach_sinks clean_logs m w d0 l items records w' :
  heap w !! DEFAULT_CONFIG m = Some d0 ->
  dict_get "file_level" d0 = Some (VInt DEBUG) ->
  dict_get "console_level" d0 = Some (VInt INFO) ->
  dict_get "disabled_loggers" d0 = Some (VRef l) ->
  (l < next_loc w)%nat ->
  heap w !! l = Some items ->
  Forall (fun kv => getLogger kv.1 ≠ RootLogger) items ->
  demo_logger clean_logs m w = (inr records, w') ->
  ∃ file_sink console log_file encoding,
    handlers w' = [file_sink; console] ∧
    h_stream file_sink = FileStream log_file encoding ∧
    h_stream console = ConsoleStream ∧
    records =
      [mk_delivery file_sink DEBUG
         ("当前日志存储路径：" +:+ abspath (cwd w) log_file);
       mk_delivery file_sink INFO "这是一条INFO级别日志";
       mk_delivery console INFO "这是一条INFO级别日志";
       mk_delivery file_sink WARNING "这是一条WARNING级别日志";
       mk_delivery console WARNING "这是一条WARNING级别日志";
       mk_delivery file_sink ERROR "这是一条ERROR级别日志";
       mk_delivery console ERROR "这是一条ERROR级别日志"].
Proof.
  intros Hd0 Hfl Hcl Hdl Hl Hitems Hroot H.
  destruct (demo_logger_ok _ _ _ _ _ _ _ _ Hd0 Hfl Hcl Hdl Hl Hitems Hroot H)
    as (info & lf & ld & enc & fmt & _ & _ & Hh & Hrec).
  by eexists _, _, lf, enc.
Qed.

Lemma demo_records_reach_sinks_witness :
  ∃ file_sink console log_file encoding,
    handlers demo_run.2 = [file_sink; console] ∧
    h_stream file_sink = FileStream log_file encoding ∧
    h_stream console = ConsoleStream ∧
    records_of demo_run =
      [mk_delivery file_sink DEBUG
         ("当前日志存储路径：" +:+ abspath (cwd toolbox_loaded) log_file);
       mk_delivery file_sink INFO "这是一条INFO级别日志";
       mk_delivery console INFO "这是一条INFO级别日志";
       mk_delivery file_sink WARNING "这是一条WARNING级别日志";
       mk_delivery console WARNING "这是一条WARNING级别日志";
       mk_delivery file_sink ERROR "这是一条ERROR级别日志";
       mk_delivery console ERROR "这是一条ERROR级别日志"].
Proof.
  apply (demo_records_reach_sinks keep_all toolbox_module toolbox_loaded
           (default_config_display "logs" 0) 0%nat
           (dict_display disabled_loggers_display)).
  - vm_compute. reflexivity.
  - reflexivity.
  - reflexivity.
  - reflexivity.
  - vm_compute. lia.
  - vm_compute. reflexivity.
  - exact default_disabled_not_root.
  - vm_compute. reflexivity.
Defined.

(** X13: the module run as a script.  When the run finishes, the
    message printed last names the log root that the run cleaned and
    created: [LOG_PATH] of the environment if it was set, else of the
    [.env] file, else ["logs"].  The log directory is that root joined
    with ["logger_demo"], the date and the hour, and the seven records
    handed over have the levels of lines 156-159. *)
Theorem script_names_the_root_it_used clean_logs df w records w' :
  main_script clean_logs df w = (inr records, w') ->
  let root :=
    match environ w !! "LOG_PATH" with
    | Some v => v
    | None => match df with
              | Some file => default "logs" (dotenv_value "LOG_PATH" file)
              | None => "logs"
              end
    end in
  let log_dir :=
    path_join root
      ["logger_demo"; strftime (now w) "%Y%m%d"; strftime (now w) "%H"] in
  let log_file := path_join log_dir [strftime (now w) "%M%S" +:+ ".log"] in
  map d_level records = [DEBUG; INFO; INFO; WARNING; WARNING; ERROR; ERROR] ∧
  ∃ rest,
    trace w'
    = trace w
      ++ (if bool_decide (cwd w = WORKING_DIR) then []
          else [EChdir WORKING_DIR;
                EPrint ("已切换到工作目录：" +:+ WORKING_DIR)])
      ++ ECleanLogs (VStr root) :: ESetLevel RootLogger DEBUG
         :: EClearHandlers :: EMakedirs root :: EMakedirs log_dir
         :: EOpenAppend log_file :: rest
      ++ [EPrint ("测试日志生成完成，请检查 " +:+ root
                  +:+ "/logger_demo 目录")].
Proof.
  intros H. unfold main_script in H.
  next_step H m w1 E. next_step H recs w2 E2.
  apply import_module_effect in E
    as (dl & Hnow & Htr & Henv & Hd0 & Hdl & Hlt).
  destruct (demo_logger_ok _ _ _ _ _ _ _ _ Hd0 eq_refl eq_refl eq_refl Hlt Hdl
              default_disabled_not_root E2)
    as (info & lf & ld & enc & fmt & Hcall & _ & _ & Hrec).
  pose proof (setup_logger_same_process _ _ _ _ _ _ Hcall) as (_ & Hsame & _).
  unfold getenv, print, tell, mbind, M_bind, mret, M_ret in H.
  injection H as <- <-. rewrite Hsame.
  assert (Hroot : default "logs" (environ w1 !! "LOG_PATH")
                  = match environ w !! "LOG_PATH" with
                    | Some v => v
                    | None =>
                        match df with
                        | Some file =>
                            default "logs" (dotenv_value "LOG_PATH" file)
                        | None => "logs"
                        end
                    end).
  { rewrite Henv. destruct df as [file|].
    - rewrite dotenv_merge_lookup. by destruct (environ w !! "LOG_PATH").
    - by destruct (environ w !! "LOG_PATH"). }
  rewrite Hroot in *. clear Hroot.
  cbv zeta. split; [rewrite Hrec; reflexivity|].
  apply setup_logger_ok in Hcall
    as (d0 & root & f0 & r & _ & Hd0' & Hlp0 & _ & _ & Hm & Hr).
  rewrite Hd0 in Hd0'. injection Hd0' as <-.
  destruct Hr as (_ & Hlp & Hsn & Hdf & Htf & Hff & _ & _ & _ & _ & _ & _ & _
                  & _ & _ & _ & _ & _ & _ & Ht & _).
  rewrite Hm in Hlp, Hsn, Hdf, Htf, Hff.
  unfold merged_config in Hlp, Hsn, Hdf, Htf, Hff.
  simpl default in Hlp, Hsn, Hdf, Htf, Hff.
  rewrite (dict_get_update _ _ _ test_config_wf) in Hlp.
  rewrite (dict_get_update _ _ _ test_config_wf) in Hsn.
  rewrite (dict_get_update _ _ _ test_config_wf) in Hdf.
  rewrite (dict_get_update _ _ _ test_config_wf) in Htf.
  rewrite (dict_get_update _ _ _ test_config_wf) in Hff.
  simpl in Hlp, Hsn, Hdf, Htf, Hff, Hlp0.
  injection Hlp0 as <-.
  injection Hlp as Hlp. injection Hsn as Hsn. injection Hdf as Hdf.
  injection Htf as Htf. injection Hff as Hff.
  unfold reset_world, merged_world in Ht. fields.
  set (X := map EAddHandler _) in Ht.
  exists (X ++ sr_level_events r).
  unfold emit. cbn [trace]. rewrite Ht, Htr.
  unfold log_file_of, log_dir_of.
  rewrite <- Hlp, <- Hsn, <- Hdf, <- Htf, <- Hff, Hnow.
  rewrite <- !app_assoc. reflexivity.
Qed.

Lemma script_names_the_root_it_used_witness :
  map d_level (records_of script_run)
  = [DEBUG; INFO; INFO; WARNING; WARNING; ERROR; ERROR] ∧
  ∃ rest,
    trace script_run.2
    = [EChdir WORKING_DIR; EPrint ("已切换到工作目录：" +:+ WORKING_DIR);
       ECleanLogs (VStr "out"); ESetLevel RootLogger DEBUG; EClearHandlers;
       EMakedirs "out"; EMakedirs "out/logger_demo/20240305/14";
       EOpenAppend "out/logger_demo/20240305/14/2207.log"]
      ++ rest ++ [EPrint "测试日志生成完成，请检查 out/logger_demo 目录"].
Proof.
  destruct (script_names_the_root_it_used keep_all
              (Some [("LOG_PATH", "out")]) script_process
              (records_of script_run) script_run.2)
    as (Hlevels & rest & Ht).
  - vm_compute. reflexivity.
  - split; [exact Hlevels|]. exists rest. rewrite Ht. reflexivity.
Defined.

(** ** The file system after a call (lines 95-109) *)

(** X14: what a successful call does to the file system, beyond what
    the cleaner did: it makes the directories on the way to [log_path]
    and to [log_dir] and the log file, and nothing else; it removes
    nothing. *)
Theorem call_creates_only_the_log_tree clean_logs m config w lg info w' :
  setup_logger clean_logs m config w = (inr (lg, info), w') ->
  ∃ cfg merged log_file log_dir log_path cleaned,
    heap w' !! info = Some [("log_file", VStr log_file);
                            ("log_dir", VStr log_dir);
                            ("config", VRef cfg)] ∧
    heap w' !! cfg = Some merged ∧
    dict_get "log_path" merged = Some (VStr log_path) ∧
    clean_logs (VStr log_path) (fs w) = (None, cleaned) ∧
    dirs (fs w') = dirs cleaned ∪ list_to_set (path_segments log_path)
                     ∪ list_to_set (path_segments log_dir) ∧
    files (fs w') = files cleaned ∪ {[log_file]}.
Proof.
  intros H.
  apply setup_logger_ok in H
    as (d0 & root & f0 & r & Hs & Hd0 & Hroot & Hclean & -> & Hm & Hr).
  destruct Hr as (_ & Hlp & _ & _ & _ & _ & _ & _ & Hmk1 & Hmk2 & Hop & Hi
                  & Hfs & Hheap & _).
  unfold reset_world, merged_world in *. fields.
  assert (Hsame : root = VStr (sr_log_path r)).
  { rewrite Hm, (merged_config_omitted _ _ _ Hs), Hroot in Hlp.
    by injection Hlp. }
  subst root.
  exists (next_loc w), (sr_config r), (log_file_of r (now w)),
    (log_dir_of r (now w)), (sr_log_path r), f0.
  split. { subst info. by rewrite Hheap, lookup_insert_eq. }
  split. { rewrite Hheap, lookup_insert_ne by lia. by rewrite Hm, lookup_insert_eq. }
  split; [exact Hlp|]. split; [exact Hclean|].
  rewrite Hfs. clear Hfs Hheap.
  unfold makedirs_fs in Hmk1.
  destruct (String.eqb (sr_log_path r) ""); [discriminate|].
  destruct (existsb _ _); [discriminate|]. injection Hmk1 as Hf1.
  unfold makedirs_fs in Hmk2. rewrite <- Hf1 in Hmk2. cbn [dirs files] in Hmk2.
  destruct (String.eqb (log_dir_of r (now w)) ""); [discriminate|].
  destruct (existsb _ _); [discriminate|]. injection Hmk2 as Hf2.
  unfold open_append_fs in Hop. rewrite <- Hf2 in Hop. cbn [dirs files] in Hop.
  destruct (_ || _)%bool; [discriminate|].
  destruct (parent_dir _) as [d|].
  - destruct (bool_decide _); [|discriminate]. by injection Hop as <-.
  - by injection Hop as <-.
Qed.

Lemma call_creates_only_the_log_tree_witness :
  ∃ cfg merged log_file log_dir log_path cleaned,
    heap svc_run.2 !! 3%nat = Some [("log_file", VStr log_file);
                                    ("log_dir", VStr log_dir);
                                    ("config", VRef cfg)] ∧
    heap svc_run.2 !! cfg = Some merged ∧
    dict_get "log_path" merged = Some (VStr log_path) ∧
    keep_all (VStr log_path) (fs toolbox_loaded) = (None, cleaned) ∧
    dirs (fs svc_run.2)
    = dirs cleaned ∪ list_to_set (path_segments log_path)
        ∪ list_to_set (path_segments log_dir) ∧
    files (fs svc_run.2) = files cleaned ∪ {[log_file]}.
Proof.
  exact (call_creates_only_the_log_tree keep_all toolbox_module
           (Some svc_config) toolbox_loaded RootLogger 3%nat svc_run.2
           svc_run_ok).
Defined.

(** ** The root logger among the ['disabled_loggers'] (lines 88-90, 127-128) *)

Lemma getLogger_root name :
  getLogger name = RootLogger ↔ name = "" ∨ name = "root".
Proof.
  unfold getLogger.
  destruct (String.eqb name "") eqn:E1.
  { apply String.eqb_eq in E1. split; [by left|done]. }
  destruct (String.eqb name "root") eqn:E2.
  { apply String.eqb_eq in E2. split; [by right|done]. }
  apply String.eqb_neq in E1, E2. simpl.
  split; [discriminate|]. by intros [?|?].
Qed.

Lemma dict_get_cons k k0 (v0 : pyval) (d : pydict) :
  dict_get k ((k0, v0) :: d)
  = if String.eqb k k0 then Some v0 else dict_get k d.
Proof. reflexivity. Qed.

Lemma unnamed_root_Forall (items : pydict) :
  dict_get "" items = None -> dict_get "root" items = None ->
  Forall (fun kv => getLogger kv.1 ≠ RootLogger) items.
Proof.
  induction items as [|[k v] items IH]; intros H1 H2; [constructor|].
  rewrite dict_get_cons in H1, H2.
  destruct (String.eqb "" k) eqn:E1; [discriminate|].
  destruct (String.eqb "root" k) eqn:E2; [discriminate|].
  apply String.eqb_neq in E1, E2.
  constructor; [|by apply IH].
  simpl. intros [->| ->]%getLogger_root; done.
Qed.

(** The loop of lines 127-128 on a mapping that lists ["root"]: the
    root logger ends at the level listed for it. *)
Lemma set_logger_levels_root_entry items w u w' v :
  set_logger_levels items w = (inr u, w') ->
  dict_wf items ->
  dict_get "" items = None ->
  dict_get "root" items = Some v ->
  ∃ z, level_value v = Some z ∧ root_level w' = z.
Proof.
  revert w. induction items as [|[n0 v0] items IH]; intros w H Hwf H1 H2;
    [discriminate|].
  apply NoDup_cons in Hwf as (Hn0 & Hwf).
  simpl in H. apply bind_ok in H as (u1 & w1 & E & H).
  unfold setLevel in E. apply bind_ok in E as (z0 & w0 & E0 & E).
  apply checkLevel_value in E0 as (-> & Hz0).
  rewrite dict_get_cons in H1, H2.
  destruct (String.eqb "" n0) eqn:E1; [discriminate|].
  destruct (String.eqb "root" n0) eqn:E2.
  - apply String.eqb_eq in E2. subst n0. injection H2 as <-.
    exists z0. split; [exact Hz0|].
    rewrite (set_logger_levels_root _ _ _ _ H).
    + unfold assign_level in E. simpl in E. by injection E as _ <-.
    + apply unnamed_root_Forall; [exact H1|by apply dict_get_None].
  - apply String.eqb_neq in E1, E2.
    apply (IH _ H Hwf H1 H2).
Qed.

(** X15: line 90 sets the root logger to [DEBUG], but lines 127-128 can
    set it again: when the merged ['disabled_loggers'] lists ["root"]
    (and not the empty name), a successful call leaves the root logger
    at the level listed there; when it lists neither name, at [DEBUG]. *)
Theorem listed_root_overrides_debug clean_logs m config w lg info w' :
  setup_logger clean_logs m config w = (inr (lg, info), w') ->
  ∃ cfg merged log_file log_dir l items,
    heap w' !! info = Some [("log_file", log_file); ("log_dir", log_dir);
                            ("config", VRef cfg)] ∧
    heap w' !! cfg = Some merged ∧
    dict_get "disabled_loggers" merged = Some (VRef l) ∧
    <[cfg := merged]> (heap w) !! l = Some items ∧
    (dict_get "" items = None ->
     match dict_get "root" items with
     | Some level =>
         dict_wf items ->
         ∃ z, level_value level = Some z ∧ root_level w' = z
     | None => root_level w' = DEBUG
     end).
Proof.
  intros H.
  apply setup_logger_reaches_sinks in H
    as (d0 & root & f0 & name & _ & _ & _ & _ & _ & _ & H).
  apply attach_sinks_levels in H; [|reflexivity].
  destruct H as (d & lf & ld & enc & fmt & v_fl & zf & v_cl & zc & v_en & en
                 & l & items & wl & u & wl' & Hd & _ & _ & _ & _ & _ & _
                 & _ & _ & _ & Hdl & Hitems & Hloop & _ & _ & -> & Hheap
                 & Hr0 & Hr1).
  unfold reset_world, merged_world in *. fields.
  rewrite lookup_insert_eq in Hd. injection Hd as <-.
  exists (next_loc w), (merged_config d0 config), (VStr lf), (VStr ld), l,
    items.
  split. { by rewrite Hheap, lookup_insert_eq. }
  split. { rewrite Hheap, lookup_insert_ne by lia. apply lookup_insert_eq. }
  split; [exact Hdl|]. split; [exact Hitems|].
  intros H1. rewrite Hr1.
  destruct (dict_get "root" items) as [level|] eqn:H2.
  - intros Hwf. exact (set_logger_levels_root_entry _ _ _ _ _ Hloop Hwf H1 H2).
  - rewrite (set_logger_levels_root _ _ _ _ Hloop); [exact Hr0|].
    by apply unnamed_root_Forall.
Qed.

(** A caller that lists ["root"] at ["ERROR"]: the root logger ends at
    [ERROR]. *)
Lemma listed_root_overrides_debug_witness : root_level hushed_run.2 = ERROR.
Proof.
  destruct (listed_root_overrides_debug keep_all toolbox_module
              (Some hushed_config) hushed_world RootLogger 4%nat hushed_run.2)
    as (cfg & merged & lf & ld & l & items & Hinfo & Hc & Hdl & Hitems & Hall).
  { vm_compute. reflexivity. }
  assert (Hi : heap hushed_run.2 !! 4%nat
               = Some [("log_file", VStr "logs/svc/20240305/14/2207.log");
                       ("log_dir", VStr "logs/svc/20240305/14");
                       ("config", VRef 3)])
    by (vm_compute; reflexivity).
  rewrite Hi in Hinfo. injection Hinfo as _ _ <-.
  assert (Hm : heap hushed_run.2 !! 3%nat
               = Some (dict_update (default_config_display "logs" 0)
                         hushed_config))
    by (vm_compute; reflexivity).
  rewrite Hm in Hc. injection Hc as <-.
  injection Hdl as <-.
  vm_compute in Hitems. injection Hitems as <-.
  specialize (Hall eq_refl). cbv beta iota in Hall.
  destruct Hall as (z & Hz & Hlev).
  - apply (bool_decide_unpack _). vm_compute. exact I.
  - injection Hz as <-. exact Hlev.
Defined.
